(** * DCSServerBot: the UDP control plane, embedded in Rocq

    The development follows [core/bot.py] (class [DCSServerBot] and its nested
    UDP [RequestHandler]) and [services/listener.py] (class
    [EventListenerService]).  Python dictionaries that travel on the wire are
    insertion-ordered association lists with Python's update discipline,
    dictionary objects that are shared between caller and callee live in an
    object store, the registries ([self.globals], [self.listeners]) are finite
    maps, and exceptions are explicit results. *)

From Stdlib Require Import ZArith Ascii String Sorted.
From Stdlib Require Import DecimalString DecimalZ DecimalPos DecimalFacts.
From stdpp Require Import gmap strings list.

Local Open Scope Z_scope.
Set Warnings "-register-all".

(** ** Python values *)

(** Modelled from the spec: the enumeration [core.const.Status], whose
    declaration is not part of the sources at hand; the members are the ones
    the data model lists, all of which the code refers to. *)
Inductive Status := UNKNOWN | LOADING | RUNNING | PAUSED | STOPPED | SHUTDOWN.

(** The values a message or a server dictionary holds.  [VStr] carries code
    points below 256; floating point payloads are outside the model. *)
Inductive Val :=
| VNone
| VBool (b : bool)
| VInt (z : Z)
| VStr (s : string)
| VStatus (st : Status)
| VList (l : list Val)
| VDict (d : list (string * Val)).

Abbreviation Dict := (list (string * Val)).

Section ValInd.
Variable P : Val -> Prop.
Hypothesis HNone : P VNone.
Hypothesis HBool : forall b, P (VBool b).
Hypothesis HInt : forall z, P (VInt z).
Hypothesis HStr : forall s, P (VStr s).
Hypothesis HStatus : forall st, P (VStatus st).
Hypothesis HList : forall l, Forall P l -> P (VList l).
Hypothesis HDict : forall d, Forall (fun kv => P (snd kv)) d -> P (VDict d).

Fixpoint Val_nested_ind (v : Val) : P v :=
  match v with
  | VNone => HNone
  | VBool b => HBool b
  | VInt z => HInt z
  | VStr s => HStr s
  | VStatus st => HStatus st
  | VList l =>
      HList l ((fix go (l : list Val) : Forall P l :=
                  match l with
                  | [] => List.Forall_nil P
                  | x :: l' => List.Forall_cons P x l' (Val_nested_ind x) (go l')
                  end) l)
  | VDict d =>
      HDict d ((fix go (d : Dict) : Forall (fun kv => P (snd kv)) d :=
                  match d with
                  | [] => List.Forall_nil _
                  | kv :: d' =>
                      List.Forall_cons _ kv d' (Val_nested_ind (snd kv)) (go d')
                  end) d)
  end.
End ValInd.

(** Python truthiness, as tested by [if result:]. *)
Definition truthy (v : Val) : bool :=
  match v with
  | VNone => false
  | VBool b => b
  | VInt z => negb (z =? 0)
  | VStr s => negb (String.eqb s "")
  | VStatus _ => true
  | VList l => match l with [] => false | _ => true end
  | VDict d => match d with [] => false | _ => true end
  end.

(** ** Dictionaries: insertion-ordered, one entry per key *)

(** [d.get(k)] / [d[k]] ([None] stands for the [KeyError] of [d[k]]). *)
Fixpoint dict_get (k : string) (d : Dict) : option Val :=
  match d with
  | [] => None
  | (k', v) :: d' => if String.eqb k k' then Some v else dict_get k d'
  end.

(** [k in d] *)
Definition dict_has (k : string) (d : Dict) : bool :=
  match dict_get k d with Some _ => true | None => false end.

(** [d[k] = v]: an existing key keeps its position, a new key goes last. *)
Fixpoint dict_set (k : string) (v : Val) (d : Dict) : Dict :=
  match d with
  | [] => [(k, v)]
  | (k', v') :: d' =>
      if String.eqb k k' then (k', v) :: d' else (k', v') :: dict_set k v d'
  end.

(** [a | b]: the entries of [a], updated and extended by those of [b]. *)
Definition dict_merge (a b : Dict) : Dict :=
  fold_left (fun acc kv => dict_set (fst kv) (snd kv) acc) b a.

(** [dict(pairs)] *)
Definition dict_of_pairs (l : list (string * Val)) : Dict := dict_merge [] l.

Fixpoint keys_unique (d : Dict) : bool :=
  match d with
  | [] => true
  | (k, _) :: d' => negb (dict_has k d') && keys_unique d'
  end.

(** The invariant of every Python dictionary, at every depth of a value. *)
Fixpoint wf_val (v : Val) : bool :=
  match v with
  | VList l => forallb wf_val l
  | VDict d => keys_unique d && forallb (fun kv => wf_val (snd kv)) d
  | _ => true
  end.

Definition wf_dict (d : Dict) : bool := wf_val (VDict d).

(** ** [str(int)] and [int(str)] *)

Definition str_of_int (z : Z) : string := NilZero.string_of_int (Z.to_int z).

Definition int_of_str (s : string) : option Z :=
  option_map Z.of_int (NilZero.int_of_string s).

(** ** The JSON codec ([json.dumps] / [json.loads]) on these values *)

Definition hex_digit (n : nat) : ascii :=
  ascii_of_nat (if Nat.ltb n 10 then 48 + n else 87 + n)%nat.

Definition hex_value (c : ascii) : option nat :=
  let n := nat_of_ascii c in
  if Nat.leb 48 n && Nat.leb n 57 then Some (n - 48)%nat
  else if Nat.leb 97 n && Nat.leb n 102 then Some (n - 87)%nat
  else if Nat.leb 65 n && Nat.leb n 70 then Some (n - 55)%nat
  else None.

Definition dquote : ascii := "034"%char.
Definition backslash : ascii := "092"%char.

(** [ensure_ascii] escaping of one character. *)
Definition escape_char (c : ascii) : string :=
  let n := nat_of_ascii c in
  if Nat.eqb n 34 then String backslash (String dquote EmptyString)
  else if Nat.eqb n 92 then String backslash (String backslash EmptyString)
  else if Nat.eqb n 10 then String backslash "n"
  else if Nat.eqb n 13 then String backslash "r"
  else if Nat.eqb n 9 then String backslash "t"
  else if Nat.eqb n 8 then String backslash "b"
  else if Nat.eqb n 12 then String backslash "f"
  else if Nat.ltb n 32 || Nat.leb 127 n then
    String backslash (String "u" (String "0" (String "0"
      (String (hex_digit (n / 16)) (String (hex_digit (n mod 16)) EmptyString)))))
  else String c EmptyString.

Fixpoint escape (s : string) : string :=
  match s with
  | EmptyString => EmptyString
  | String c s' => escape_char c +:+ escape s'
  end.

Definition quote (s : string) : string :=
  String dquote (escape s +:+ String dquote EmptyString).

(** [sep.join(l)] *)
Fixpoint join (sep : string) (l : list string) : string :=
  match l with
  | [] => EmptyString
  | x :: l' =>
      match l' with
      | [] => x
      | _ :: _ => x +:+ sep +:+ join sep l'
      end
  end.

(** What [json.dumps] accepts: every value except an enumeration member. *)
Fixpoint json_encodable (v : Val) : bool :=
  match v with
  | VStatus _ => false
  | VList l => forallb json_encodable l
  | VDict d => forallb (fun kv => json_encodable (snd kv)) d
  | _ => true
  end.

(** The text [json.dumps] writes, with its default separators. *)
Fixpoint json_text (v : Val) : string :=
  match v with
  | VNone => "null"
  | VBool true => "true"
  | VBool false => "false"
  | VInt z => str_of_int z
  | VStr s => quote s
  | VStatus _ => EmptyString
  | VList l => "[" +:+ join ", " (map json_text l) +:+ "]"
  | VDict d =>
      "{" +:+ join ", " (map (fun kv => quote (fst kv) +:+ ": " +:+ json_text (snd kv)) d)
          +:+ "}"
  end.

(** [json.dumps(v)]; [None] is its [TypeError]. *)
Definition json_dumps (v : Val) : option string :=
  if json_encodable v then Some (json_text v) else None.

Definition is_ws (c : ascii) : bool :=
  let n := nat_of_ascii c in
  Nat.eqb n 32 || Nat.eqb n 9 || Nat.eqb n 10 || Nat.eqb n 13.

Fixpoint skip_ws (s : string) : string :=
  match s with
  | String c s' => if is_ws c then skip_ws s' else s
  | EmptyString => s
  end.

Definition is_digit (c : ascii) : bool :=
  Nat.leb 48 (nat_of_ascii c) && Nat.leb (nat_of_ascii c) 57.

Fixpoint span_digits (s : string) : string * string :=
  match s with
  | String c s' =>
      if is_digit c then let (ds, r) := span_digits s' in (String c ds, r)
      else (EmptyString, s)
  | EmptyString => (EmptyString, EmptyString)
  end.

(** A number may not run on into a fraction or an exponent (a float). *)
Definition follows_number (rest : string) : bool :=
  match rest with
  | EmptyString => true
  | String c _ =>
      negb (is_digit c || Ascii.eqb c "." || Ascii.eqb c "e" || Ascii.eqb c "E")
  end.

Definition parse_digits (body : string) : option (Decimal.uint * string) :=
  let (ds, rest) := span_digits body in
  match ds with
  | EmptyString => None
  | String d ds' =>
      if Ascii.eqb d "0" && negb (String.eqb ds' EmptyString) then None
      else if negb (follows_number rest) then None
      else match NilZero.uint_of_string ds with
           | Some u => Some (u, rest)
           | None => None
           end
  end.

Definition parse_number (s : string) : option (Z * string) :=
  match s with
  | String c s' =>
      if Ascii.eqb c "-" then
        match parse_digits s' with
        | Some (u, rest) => Some (Z.of_int (Decimal.Neg u), rest)
        | None => None
        end
      else
        match parse_digits s with
        | Some (u, rest) => Some (Z.of_int (Decimal.Pos u), rest)
        | None => None
        end
  | EmptyString => None
  end.

Definition unescape (e : ascii) : option ascii :=
  let n := nat_of_ascii e in
  if Nat.eqb n 34 then Some dquote
  else if Nat.eqb n 92 then Some backslash
  else if Ascii.eqb e "/" then Some "/"%char
  else if Ascii.eqb e "n" then Some (ascii_of_nat 10)
  else if Ascii.eqb e "r" then Some (ascii_of_nat 13)
  else if Ascii.eqb e "t" then Some (ascii_of_nat 9)
  else if Ascii.eqb e "b" then Some (ascii_of_nat 8)
  else if Ascii.eqb e "f" then Some (ascii_of_nat 12)
  else None.

Definition hex4 (h1 h2 h3 h4 : ascii) : option ascii :=
  match hex_value h1, hex_value h2, hex_value h3, hex_value h4 with
  | Some a, Some b, Some c, Some d =>
      if Nat.eqb a 0 && Nat.eqb b 0 then Some (ascii_of_nat (16 * c + d)) else None
  | _, _, _, _ => None
  end.

(** The body of a string literal, after its opening quote. *)
Fixpoint parse_string (s : string) : option (string * string) :=
  match s with
  | EmptyString => None
  | String c r =>
      if Ascii.eqb c dquote then Some (EmptyString, r)
      else if Ascii.eqb c backslash then
        match r with
        | EmptyString => None
        | String e r1 =>
            if Ascii.eqb e "u" then
              match r1 with
              | String h1 (String h2 (String h3 (String h4 r2))) =>
                  match hex4 h1 h2 h3 h4 with
                  | Some ch =>
                      match parse_string r2 with
                      | Some (t, r3) => Some (String ch t, r3)
                      | None => None
                      end
                  | None => None
                  end
              | _ => None
              end
            else
              match unescape e with
              | Some ch =>
                  match parse_string r1 with
                  | Some (t, r3) => Some (String ch t, r3)
                  | None => None
                  end
              | None => None
              end
        end
      else if Nat.ltb (nat_of_ascii c) 32 then None
      else
        match parse_string r with
        | Some (t, r') => Some (String c t, r')
        | None => None
        end
  end.

Fixpoint strip_prefix (p s : string) : option string :=
  match p with
  | EmptyString => Some s
  | String a p' =>
      match s with
      | String b s' => if Ascii.eqb a b then strip_prefix p' s' else None
      | EmptyString => None
      end
  end.

(** The recursive-descent scanner; [fuel] bounds the nesting and the number
    of elements, and [json_loads] supplies more than any text can use. *)
Fixpoint parse_value (fuel : nat) (s : string) {struct fuel} : option (Val * string) :=
  match fuel with
  | O => None
  | S fuel' =>
      match skip_ws s with
      | EmptyString => None
      | String c r =>
          if Ascii.eqb c dquote then
            match parse_string r with
            | Some (t, r') => Some (VStr t, r')
            | None => None
            end
          else if Ascii.eqb c "[" then
            match skip_ws r with
            | EmptyString => None
            | String c2 r2 =>
                if Ascii.eqb c2 "]" then Some (VList [], r2)
                else match parse_elems fuel' r with
                     | Some (vs, r') => Some (VList vs, r')
                     | None => None
                     end
            end
          else if Ascii.eqb c "{" then
            match skip_ws r with
            | EmptyString => None
            | String c2 r2 =>
                if Ascii.eqb c2 "}" then Some (VDict [], r2)
                else match parse_members fuel' r with
                     | Some (kvs, r') => Some (VDict (dict_of_pairs kvs), r')
                     | None => None
                     end
            end
          else
            match strip_prefix "null" (String c r) with
            | Some r' => Some (VNone, r')
            | None =>
                match strip_prefix "true" (String c r) with
                | Some r' => Some (VBool true, r')
                | None =>
                    match strip_prefix "false" (String c r) with
                    | Some r' => Some (VBool false, r')
                    | None =>
                        match parse_number (String c r) with
                        | Some (z, r') => Some (VInt z, r')
                        | None => None
                        end
                    end
                end
            end
      end
  end
with parse_elems (fuel : nat) (s : string) {struct fuel} : option (list Val * string) :=
  match fuel with
  | O => None
  | S fuel' =>
      match parse_value fuel' s with
      | Some (v, r) =>
          match skip_ws r with
          | EmptyString => None
          | String c r' =>
              if Ascii.eqb c "," then
                match parse_elems fuel' r' with
                | Some (vs, r'') => Some (v :: vs, r'')
                | None => None
                end
              else if Ascii.eqb c "]" then Some ([v], r')
              else None
          end
      | None => None
      end
  end
with parse_members (fuel : nat) (s : string) {struct fuel}
  : option (list (string * Val) * string) :=
  match fuel with
  | O => None
  | S fuel' =>
      match skip_ws s with
      | EmptyString => None
      | String c r =>
          if Ascii.eqb c dquote then
            match parse_string r with
            | Some (k, r1) =>
                match skip_ws r1 with
                | EmptyString => None
                | String c1 r2 =>
                    if Ascii.eqb c1 ":" then
                      match parse_value fuel' r2 with
                      | Some (v, r3) =>
                          match skip_ws r3 with
                          | EmptyString => None
                          | String c3 r4 =>
                              if Ascii.eqb c3 "," then
                                match parse_members fuel' r4 with
                                | Some (kvs, r5) => Some ((k, v) :: kvs, r5)
                                | None => None
                                end
                              else if Ascii.eqb c3 "}" then Some ([(k, v)], r4)
                              else None
                          end
                      | None => None
                      end
                    else None
                end
            | None => None
            end
          else None
      end
  end.

(** [json.loads(s)]; [None] is its [JSONDecodeError]. *)
Definition json_loads (s : string) : option Val :=
  match parse_value (S (String.length s)) s with
  | Some (v, r) =>
      match skip_ws r with
      | EmptyString => Some v
      | String _ _ => None
      end
  | None => None
  end.

(** The fuel a value needs: its nesting depth plus its widest run of
    elements. *)
Fixpoint need (v : Val) : nat :=
  match v with
  | VList l => S (fold_right (fun x n => S (Nat.max (need x) n)) 0%nat l)
  | VDict d => S (fold_right (fun kv n => S (Nat.max (need (snd kv)) n)) 0%nat d)
  | _ => 1%nat
  end.

Definition value_start (c : ascii) : bool :=
  is_digit c || Ascii.eqb c "-" || Ascii.eqb c dquote || Ascii.eqb c "[" ||
  Ascii.eqb c "{" || Ascii.eqb c "n" || Ascii.eqb c "t" || Ascii.eqb c "f".

Definition need_elems (l : list Val) : nat :=
  fold_right (fun x n => S (Nat.max (need x) n)) 0%nat l.

Definition need_members (d : Dict) : nat :=
  fold_right (fun kv n => S (Nat.max (need (snd kv)) n)) 0%nat d.

Definition member_text (kv : string * Val) : string :=
  quote (fst kv) +:+ ": " +:+ json_text (snd kv).

(** What the induction on a value establishes for it. *)
Definition reads_back (v : Val) : Prop :=
  json_encodable v = true -> wf_val v = true ->
  forall fuel rest, (need v <= fuel)%nat -> follows_number rest = true ->
  parse_value fuel (json_text v +:+ rest) = Some (v, rest).

(** ** Text helpers *)

(** [s.startswith(p)] *)
Definition starts_with (p s : string) : bool :=
  match strip_prefix p s with Some _ => true | None => false end.

(** [p in s] on two strings *)
Fixpoint is_substring (p s : string) : bool :=
  starts_with p s ||
  match s with
  | String _ s' => is_substring p s'
  | EmptyString => false
  end.

Definition is_space (c : ascii) : bool :=
  let n := nat_of_ascii c in
  Nat.eqb n 32 || (Nat.leb 9 n && Nat.leb n 13).

Fixpoint lstrip (s : string) : string :=
  match s with
  | String c s' => if is_space c then lstrip s' else s
  | EmptyString => s
  end.

Fixpoint rstrip (s : string) : string :=
  match s with
  | EmptyString => EmptyString
  | String c s' =>
      match rstrip s' with
      | EmptyString => if is_space c then EmptyString else String c EmptyString
      | String c' r => String c (String c' r)
      end
  end.

(** [s.strip()] *)
Definition strip (s : string) : string := rstrip (lstrip s).

(** [v == s] for a string literal [s] *)
Definition is_str (s : string) (v : Val) : bool :=
  match v with VStr t => String.eqb s t | _ => false end.

(** ** Exceptions and the state-and-exception monad *)

Inductive Exc :=
| KeyError (k : string)
| TypeError
| AttributeError
| ValueError
| JSONDecodeError
| TimeoutError
| CancelledError
| DatabaseError.

Inductive Res (A : Type) :=
| Ret (a : A)
| Raise (e : Exc).
Arguments Ret {A} a.
Arguments Raise {A} e.

(** A computation over a state [S]: what it returns or raises, and the state
    it leaves.  A raised exception keeps the mutations made before it. *)
Definition M (S A : Type) : Type := S -> Res A * S.

Definition ret {S A} (a : A) : M S A := fun st => (Ret a, st).
Definition raise {S A} (e : Exc) : M S A := fun st => (Raise e, st).
Definition bind {S A B} (c : M S A) (k : A -> M S B) : M S B :=
  fun st =>
    match c st with
    | (Ret a, st') => k a st'
    | (Raise e, st') => (Raise e, st')
    end.
Definition gets {S A} (f : S -> A) : M S A := fun st => (Ret (f st), st).
Definition modify {S} (f : S -> S) : M S unit := fun st => (Ret tt, f st).
Definition lift {S A} (r : Res A) : M S A := fun st => (r, st).
(** [try: c  except Exception as e: h e] *)
Definition try_catch {S A} (c : M S A) (h : Exc -> M S A) : M S A :=
  fun st =>
    match c st with
    | (Ret a, st') => (Ret a, st')
    | (Raise e, st') => h e st'
    end.

Declare Scope m_scope.
Delimit Scope m_scope with M.
Notation "'let*' x ':=' c 'in' k" := (bind c (fun x => k))
  (at level 10, x pattern, c at level 100, k at level 200) : m_scope.
Notation "c '>>' k" := (bind c (fun _ => k))
  (at level 62, right associativity) : m_scope.

(** [d[k]] *)
Definition getitem {S} (k : string) (d : Dict) : M S Val :=
  match dict_get k d with
  | Some v => ret v
  | None => raise (KeyError k)
  end.

(** [k in v] for a string literal [k] and whatever [json.loads] returned *)
Definition py_contains (k : string) (v : Val) : Res bool :=
  match v with
  | VDict d => Ret (dict_has k d)
  | VList l => Ret (existsb (is_str k) l)
  | VStr s => Ret (is_substring k s)
  | _ => Raise TypeError
  end.

(** [int(v)], on canonical decimal numerals: a numeral with a [+] sign,
    with blanks around it or with underscores, which [int] reads too, is
    refused here. *)
Definition py_int (v : Val) : Res Z :=
  match v with
  | VInt z => Ret z
  | VBool b => Ret (if b then 1 else 0)
  | VStr s => match int_of_str s with Some z => Ret z | None => Raise ValueError end
  | _ => Raise TypeError
  end.

(** The string a value must be where the code applies a [str] method to it. *)
Definition as_str {S} (v : Val) : M S string :=
  match v with
  | VStr s => ret s
  | _ => raise AttributeError
  end.

(** ** The bot of [core/bot.py] *)

Inductive Future :=
| Pending
| Done (result : Val)
| Cancelled.

Inductive Level := DEBUG | INFO | WARNING | ERROR | EXCEPTION.

(** A log line: its level and its text, without the interpolated values. *)
Definition LogEntry : Type := Level * string.

(** One UDP datagram written by [socket.sendto]. *)
Record Datagram := mkDatagram {
  dg_host : Val;
  dg_port : Z;
  dg_payload : string
}.

(** A row of the table [servers]. *)
Record ServerRow := mkServerRow {
  sr_name : string;
  sr_agent : string;
  sr_host : string;
  sr_port : Z
}.

(** A row of the table [message_persistence]. *)
Record EmbedRow := mkEmbedRow {
  er_server : string;
  er_embed_name : string;
  er_embed : Val
}.

(** What [listener.processEvent(data)] comes to: a result or an exception. *)
Definition Listener : Type := Dict -> Res Val.

(** What the bot reads but never writes: its version, the node it runs on,
    the configuration file, [utils.findDCSInstallations] and [json.loads]. *)
Record Env := mkEnv {
  version : string;
  node : string;
  config : string -> option (string -> option string);
  findDCSInstallations : string -> list string;
  json_decode : string -> option Val
}.

Module Bot.

(** The fields of [DCSServerBot] the control plane uses, the dictionary
    objects it shares, the two tables it writes, and what it emits. *)
Record State := mkState {
  heap : list Dict;
  globals : gmap string nat;
  listeners : gmap string nat;
  futures : list Future;
  embeds : gmap string Dict;
  eventListeners : list Listener;
  db_servers : list ServerRow;
  db_persistence : list EmbedRow;
  sent : list Datagram;
  delivered : list (nat * Dict);
  settings_changes : list (string * string);
  log : list LogEntry
}.

Definition set_heap (f : list Dict -> list Dict) (st : State) : State :=
  mkState (f (heap st)) (globals st) (listeners st) (futures st) (embeds st)
    (eventListeners st) (db_servers st) (db_persistence st) (sent st) (delivered st)
    (settings_changes st) (log st).
Definition set_globals (f : gmap string nat -> gmap string nat) (st : State) : State :=
  mkState (heap st) (f (globals st)) (listeners st) (futures st) (embeds st)
    (eventListeners st) (db_servers st) (db_persistence st) (sent st) (delivered st)
    (settings_changes st) (log st).
Definition set_listeners (f : gmap string nat -> gmap string nat) (st : State) : State :=
  mkState (heap st) (globals st) (f (listeners st)) (futures st) (embeds st)
    (eventListeners st) (db_servers st) (db_persistence st) (sent st) (delivered st)
    (settings_changes st) (log st).
Definition set_futures (f : list Future -> list Future) (st : State) : State :=
  mkState (heap st) (globals st) (listeners st) (f (futures st)) (embeds st)
    (eventListeners st) (db_servers st) (db_persistence st) (sent st) (delivered st)
    (settings_changes st) (log st).
Definition set_embeds (f : gmap string Dict -> gmap string Dict) (st : State) : State :=
  mkState (heap st) (globals st) (listeners st) (futures st) (f (embeds st))
    (eventListeners st) (db_servers st) (db_persistence st) (sent st) (delivered st)
    (settings_changes st) (log st).
Definition set_db_servers (f : list ServerRow -> list ServerRow) (st : State) : State :=
  mkState (heap st) (globals st) (listeners st) (futures st) (embeds st)
    (eventListeners st) (f (db_servers st)) (db_persistence st) (sent st) (delivered st)
    (settings_changes st) (log st).
Definition set_db_persistence (f : list EmbedRow -> list EmbedRow) (st : State) : State :=
  mkState (heap st) (globals st) (listeners st) (futures st) (embeds st)
    (eventListeners st) (db_servers st) (f (db_persistence st)) (sent st) (delivered st)
    (settings_changes st) (log st).
Definition set_sent (f : list Datagram -> list Datagram) (st : State) : State :=
  mkState (heap st) (globals st) (listeners st) (futures st) (embeds st)
    (eventListeners st) (db_servers st) (db_persistence st) (f (sent st)) (delivered st)
    (settings_changes st) (log st).
Definition set_delivered (f : list (nat * Dict) -> list (nat * Dict)) (st : State) : State :=
  mkState (heap st) (globals st) (listeners st) (futures st) (embeds st)
    (eventListeners st) (db_servers st) (db_persistence st) (sent st) (f (delivered st))
    (settings_changes st) (log st).
Definition set_settings_changes (f : list (string * string) -> list (string * string))
  (st : State) : State :=
  mkState (heap st) (globals st) (listeners st) (futures st) (embeds st)
    (eventListeners st) (db_servers st) (db_persistence st) (sent st) (delivered st)
    (f (settings_changes st)) (log st).
Definition set_log (f : list LogEntry -> list LogEntry) (st : State) : State :=
  mkState (heap st) (globals st) (listeners st) (futures st) (embeds st)
    (eventListeners st) (db_servers st) (db_persistence st) (sent st) (delivered st)
    (settings_changes st) (f (log st)).

Local Open Scope m_scope.

(** [self.log.<level>(text)] *)
Definition logmsg (l : Level) (text : string) : M State unit :=
  modify (set_log (fun lg => lg ++ [(l, text)])).

(** A new dictionary object; its reference is its index in the store. *)
Definition alloc (d : Dict) : M State nat :=
  fun st => (Ret (length (heap st)), set_heap (fun h => h ++ [d]) st).

(** The dictionary a reference denotes.  The references the code holds are
    always those of objects it made; one that is not reads as empty. *)
Definition deref (l : nat) : M State Dict :=
  fun st => (Ret (default [] (heap st !! l)), st).

(** [obj[k] = v] on the object behind a reference *)
Definition setitem (l : nat) (k : string) (v : Val) : M State unit :=
  modify (set_heap (fun h => alter (dict_set k v) l h)).

(** [self.globals[name]], through to the dictionary *)
Definition lookup (name : string) (st : State) : option Dict :=
  match globals st !! name with
  | Some l => heap st !! l
  | None => None
  end.

(** The loop at the head of [sendtoDCS]: every top-level value of type
    [int] becomes [str(value)]; a [bool] is not of type [int]. *)
Definition coerce_val (v : Val) : Val :=
  match v with
  | VInt z => VStr (str_of_int z)
  | _ => v
  end.

Definition coerce_ints (message : Dict) : Dict :=
  map (fun kv => (fst kv, coerce_val (snd kv))) message.

(** [sendtoDCS]; the datagrams it hands to [socket.sendto] are recorded in
    [sent].  The socket is outside the model: its creation is taken to
    succeed and it is taken to accept every datagram, where
    [socket.sendto] raises [OverflowError] for a port outside 0..65535,
    [OSError] for a payload that is too large or a host that does not
    resolve, and [TypeError] for a host that is no string.  What is stated
    of [sendtoDCS] is stated of what it does before it hands the datagram
    to the socket, or of a call that returns. *)
Definition sendtoDCS (server message : nat) : M State unit :=
  let* m := deref message in
  modify (set_heap (fun h => <[message := coerce_ints m]> h)) >>
  let* m := deref message in
  let* msg := lift (match json_dumps (VDict m) with
                    | Some t => Ret t
                    | None => Raise TypeError
                    end) in
  let* srv := deref server in
  let* _ := getitem "server_name" srv in
  logmsg DEBUG "HOST->" >>
  let* host := getitem "host" srv in
  let* p := getitem "port" srv in
  let* port := lift (py_int p) in
  modify (set_sent (fun s => s ++ [mkDatagram host port msg])).

(** ['sync-' + str(uuid.uuid4())], for the identifier [uuid4] drew *)
Definition sync_token (uuid : string) : string := "sync-" +:+ uuid.

(** [sendtoDCSSync]; it returns the future that [asyncio.wait_for] awaits. *)
Definition sendtoDCSSync (server message : nat) (uuid : string) : M State nat :=
  let* future := (fun st => (Ret (length (futures st)),
                             set_futures (fun fs => fs ++ [Pending]) st)) in
  let token := sync_token uuid in
  setitem message "channel" (VStr token) >>
  sendtoDCS server message >>
  modify (set_listeners (fun ls => <[token := future]> ls)) >>
  ret future.

(** [asyncio.wait_for(future, timeout)] at the moment the await ends: a
    future that is done gives its result; a future still pending means the
    timeout has elapsed, so it is cancelled and [TimeoutError] is raised. *)
Definition wait_for (future : nat) : M State Val :=
  fun st =>
    match futures st !! future with
    | Some (Done v) => (Ret v, st)
    | Some Pending =>
        (Raise TimeoutError, set_futures (fun fs => <[future := Cancelled]> fs) st)
    | Some Cancelled => (Raise CancelledError, st)
    | None => (Raise CancelledError, st)
    end.

(** *** [rename_server] *)

Definition rename_row (old_name new_name : string) (r : ServerRow) : ServerRow :=
  if String.eqb (sr_name r) old_name
  then mkServerRow new_name (sr_agent r) (sr_host r) (sr_port r) else r.

Definition rename_embed (old_name new_name : string) (r : EmbedRow) : EmbedRow :=
  if String.eqb (er_server r) old_name
  then mkEmbedRow new_name (er_embed_name r) (er_embed r) else r.

(** The keys the statements of the code conflict on: [server_name] in
    [servers], [(server_name, embed_name)] in [message_persistence]. *)
Definition servers_clash (old_name new_name : string) (rows : list ServerRow) : bool :=
  negb (String.eqb old_name new_name) &&
  existsb (fun r => String.eqb (sr_name r) old_name) rows &&
  existsb (fun r => String.eqb (sr_name r) new_name) rows.

Definition embeds_clash (old_name new_name : string) (rows : list EmbedRow) : bool :=
  negb (String.eqb old_name new_name) &&
  existsb (fun r =>
    String.eqb (er_server r) old_name &&
    existsb (fun r' => String.eqb (er_server r') new_name &&
                       String.eqb (er_embed_name r') (er_embed_name r)) rows) rows.

(** The two [UPDATE]s of [rename_server], committed together or, when one
    violates a key, logged and rolled back. *)
Definition db_rename (old_name new_name : string) : M State unit :=
  fun st =>
    if servers_clash old_name new_name (db_servers st)
       || embeds_clash old_name new_name (db_persistence st)
    then logmsg EXCEPTION "rename" st
    else (Ret tt,
          set_db_persistence (map (rename_embed old_name new_name))
            (set_db_servers (map (rename_row old_name new_name)) st)).

(** Lines 153 to 156: the registry. *)
Definition rename_registry (old_name new_name : string) : M State unit :=
  let* g := gets globals in
  match g !! new_name with
  | Some _ => ret tt
  | None =>
      match g !! old_name with
      | None => raise (KeyError old_name)
      | Some l =>
          let* d := deref l in
          let* l' := alloc d in
          modify (set_globals (fun g => <[new_name := l']> g)) >>
          setitem l' "server_name" (VStr new_name)
      end
  end >>
  let* g := gets globals in
  match g !! old_name with
  | None => raise (KeyError old_name)
  | Some _ => modify (set_globals (fun g => delete old_name g))
  end.

(** Lines 157 to 159: the embeds. *)
Definition rename_embeds (old_name new_name : string) : M State unit :=
  let* e := gets embeds in
  match e !! old_name with
  | Some d => modify (set_embeds (fun e => delete old_name (<[new_name := d]> e)))
  | None => ret tt
  end.

(** [rename_server]; [plugin.rename] of the plugins leaves this state as it
    is, and [utils.changeServerSettings] is recorded. *)
Definition rename_server (old_name new_name : string) (update_settings : bool)
  : M State unit :=
  rename_registry old_name new_name >>
  rename_embeds old_name new_name >>
  db_rename old_name new_name >>
  if update_settings
  then modify (set_settings_changes (fun l => l ++ [(old_name, new_name)]))
  else ret tt.

(** *** [register_server] *)

(** Server names are strings: the registry is keyed by them and
    [utils.findDCSInstallations] takes one.  A name of another type is
    reported as [TypeError]. *)
Definition as_name (v : Val) : M State string :=
  match v with
  | VStr s => ret s
  | _ => raise TypeError
  end.

(** A query parameter for a text column and for an integer column. *)
Definition sql_text (v : Val) : Res string :=
  match v with
  | VStr s => Ret s
  | _ => Raise DatabaseError
  end.

Definition sql_int (v : Val) : Res Z :=
  match v with
  | VInt z => Ret z
  | VStr s => match int_of_str s with Some z => Ret z | None => Raise DatabaseError end
  | _ => Raise DatabaseError
  end.

(** [self.config[section][key]] *)
Definition config_get (env : Env) (section key : string) : M State Val :=
  match config env section with
  | None => raise (KeyError section)
  | Some sec =>
      match sec key with
      | Some v => ret (VStr v)
      | None => raise (KeyError key)
      end
  end.

(** [INSERT INTO servers ... ON CONFLICT (server_name) DO UPDATE ...] *)
Fixpoint upsert_server (r : ServerRow) (rows : list ServerRow) : list ServerRow :=
  match rows with
  | [] => [r]
  | x :: rows' =>
      if String.eqb (sr_name x) (sr_name r) then r :: rows'
      else x :: upsert_server r rows'
  end.

(** The persisted messages of a server of this node, as [server['embeds']]. *)
Definition load_embeds (env : Env) (name : string) (st : State) : Dict :=
  if existsb (fun r => String.eqb (sr_name r) name && String.eqb (sr_agent r) (node env))
       (db_servers st)
  then fold_left (fun d r => dict_set (er_embed_name r) (er_embed r) d)
         (filter (fun r => String.eqb (er_server r) name = true) (db_persistence st)) []
  else [].

(** The body of the [try] of [register_server].  [Some b] is a [return b]
    from inside it, [None] is falling through to the [return True].  The
    database answers every statement; what can fail inside the [try] is a
    missing key, a parameter of the wrong type and [rename_server]. *)
Definition register_db (env : Env) (data : Dict) (name : string) (server : nat)
  : M State (option bool) :=
  let* h := getitem "host" data in
  let* p := getitem "port" data in
  let* host := lift (sql_text h) in
  let* port := lift (sql_int p) in
  let* rows := gets (fun st =>
    filter (fun r => (String.eqb (sr_agent r) (node env) && String.eqb (sr_host r) host
                      && (sr_port r =? port)) = true) (db_servers st)) in
  let* early :=
    match rows with
    | [r] =>
        if negb (String.eqb (sr_name r) name) then
          logmsg WARNING "same parameters" >>
          match findDCSInstallations env (sr_name r) with
          | [] =>
              logmsg INFO "Auto-renaming server" >>
              rename_server (sr_name r) name false >>
              ret None
          | _ :: _ =>
              logmsg WARNING "Registration aborted due to UDP port conflict" >>
              modify (set_globals (fun g => delete name g)) >>
              ret (Some false)
          end
        else ret None
    | _ => ret None
    end in
  match early with
  | Some b => ret (Some b)
  | None =>
      modify (set_db_servers (upsert_server (mkServerRow name (node env) host port))) >>
      setitem server "embeds" (VDict []) >>
      let* e := gets (load_embeds env name) in
      setitem server "embeds" (VDict e) >>
      ret None
  end.

(** Lines 283 to 297: the record of the server in [self.globals], merged
    into a new dictionary or made from a copy of the announcement. *)
Definition register_record (env : Env) (data : Dict) (name inst : string)
  : M State nat :=
  let* g := gets globals in
  let* server :=
    match g !! name with
    | Some l =>
        let* old := deref l in
        let* l' := alloc (dict_merge old data) in
        modify (set_globals (fun g => <[name := l']> g)) >>
        ret l'
    | None =>
        let* l' := alloc data in
        modify (set_globals (fun g => <[name := l']> g)) >>
        let* c := config_get env inst "CHAT_CHANNEL" in
        setitem l' "chat_channel" c >>
        let* c := config_get env inst "STATUS_CHANNEL" in
        setitem l' "status_channel" c >>
        let* c := config_get env inst "ADMIN_CHANNEL" in
        setitem l' "admin_channel" c >>
        ret l'
    end in
  setitem server "installation" (VStr inst) >>
  let* ch := getitem "channel" data in
  let* chs := as_str ch in
  setitem server "status"
    (VStatus (if starts_with "sync-" chs
              then match dict_get "pause" data with
                   | Some (VBool true) => PAUSED
                   | _ => RUNNING
                   end
              else LOADING)) >>
  logmsg DEBUG "Server initialized" >>
  ret server.

Definition register_server (env : Env) (data : Dict) : M State bool :=
  let* nm := getitem "server_name" data in
  let* name := as_name nm in
  match findDCSInstallations env name with
  | [] => logmsg ERROR "Server not found in dcsserverbot.ini" >> ret false
  | inst :: _ =>
      logmsg DEBUG "Registering DCS-Server" >>
      let* hv := getitem "hook_version" data in
      if negb (is_str (version env) hv) then
        logmsg ERROR "wrong Hook version installed" >> ret false
      else
        let* server := register_record env data name inst in
        let* early :=
          try_catch (register_db env data name server)
            (fun _ => logmsg EXCEPTION "register_server" >> ret None) in
        match early with
        | Some b => ret b
        | None => ret true
        end
  end.

(** *** [RequestHandler.handle] *)

(** Lines 355 to 369: the event goes to every listener, the results that
    are true are collected in the order of the listeners, and a pending
    synchronous request on the channel of the event is resolved. *)
Fixpoint collect (outcomes : list (Res Val)) : M State (list Val) :=
  match outcomes with
  | [] => ret []
  | o :: rest =>
      match o with
      | Ret v =>
          let* results := collect rest in
          ret (if truthy v then v :: results else results)
      | Raise _ => logmsg EXCEPTION "processEvent" >> collect rest
      end
  end.

Definition dispatch (data : Dict) : M State unit :=
  let* ls := gets eventListeners in
  modify (set_delivered (fun t => t ++ imap (fun i _ => (i, data)) ls)) >>
  let* results := collect (map (fun l : Listener => l data) ls) in
  let* ch := getitem "channel" data in
  let* chs := as_str ch in
  if starts_with "sync" chs then
    let* lsn := gets listeners in
    match lsn !! chs with
    | Some f =>
        let* fs := gets futures in
        match fs !! f with
        | Some Pending =>
            modify (set_futures (fun fs =>
              <[f := Done (match results with r :: _ => r | [] => VNone end)]> fs))
        | _ => ret tt
        end >>
        modify (set_listeners (fun ls => delete chs ls))
    | None => ret tt
    end
  else ret tt.

(** Lines 347 to 354: whether the event goes on to the listeners. *)
Definition guard (env : Env) (data : Dict) (command : Val) : M State bool :=
  if is_str "registerDCSServer" command then register_server env data
  else
    let* nm := getitem "server_name" data in
    match nm with
    | VList _ | VDict _ => raise TypeError
    | _ =>
        let* g := gets globals in
        match (match nm with VStr name => g !! name | _ => None end) with
        | None => logmsg DEBUG "Command for unregistered server, ignoring" >> ret false
        | Some l =>
            let* srv := deref l in
            let* status := getitem "status" srv in
            match status with
            | VStatus UNKNOWN =>
                logmsg DEBUG "Command for unregistered server, ignoring" >> ret false
            | _ => ret true
            end
        end
    end.

Definition handle (env : Env) (raw : string) : M State unit :=
  match json_decode env (strip raw) with
  | None => raise JSONDecodeError
  | Some data =>
      let* has := lift (py_contains "server_name" data) in
      if negb has then logmsg WARNING "Message without server_name retrieved"
      else
        match data with
        | VDict d =>
            logmsg DEBUG "->HOST" >>
            let* command := getitem "command" d in
            let* go := guard env d command in
            if go then dispatch d else ret tt
        | _ => raise TypeError
        end
  end.

(** *** [register_servers] *)

(** One turn of the loop of [register_servers], up to the [await]: the probe
    is a fresh dictionary and [server] is the object found in the registry. *)
Definition register_servers_probe (server : nat) (uuid : string) : M State nat :=
  let* message := alloc [("command", VStr "registerDCSServer")] in
  sendtoDCSSync server message uuid.

(** The same turn from the end of the [await]. *)
Definition register_servers_resume (server future : nat) : M State unit :=
  try_catch
    (wait_for future >> logmsg INFO "Running DCS server registered")
    (fun e =>
       match e with
       | TimeoutError => setitem server "status" (VStatus SHUTDOWN)
       | _ => raise e
       end).

End Bot.

(** ** The intercom of [services/listener.py] *)

Module Agent.

(** A row of the table [intercom]. *)
Record IntercomRow := mkRow {
  row_id : Z;
  row_agent : string;
  row_data : Val
}.

(** What a turn of the poll loop does to the world outside the service.
    [ServerImpl] is not among the sources at hand: a call of its [sendtoDCS]
    is an event, and so is the call of the method an rpc request names. *)
Inductive Event :=
| EvSendtoDCS (id : Z) (server_name : string) (data : Dict)
| EvRpc (id : Z) (server_name : string) (data : Dict)
| EvSendtoMaster (id : Z) (data : Dict)
| EvDelete (id : Z).

(** What the agent reads: its node name and, for an rpc request, what the
    call of the named method with the given parameters comes to. *)
Record Env := mkEnv {
  node : string;
  rpc_outcome : string -> Dict -> Res Val
}.

Record State := mkState {
  servers : gset string;
  intercom_tbl : list IntercomRow;
  next_id : Z;
  events : list Event;
  log : list LogEntry
}.

Definition set_intercom_tbl (f : list IntercomRow -> list IntercomRow) (st : State) : State :=
  mkState (servers st) (f (intercom_tbl st)) (next_id st) (events st) (log st).
Definition set_next_id (f : Z -> Z) (st : State) : State :=
  mkState (servers st) (intercom_tbl st) (f (next_id st)) (events st) (log st).
Definition set_events (f : list Event -> list Event) (st : State) : State :=
  mkState (servers st) (intercom_tbl st) (next_id st) (f (events st)) (log st).
Definition set_log (f : list LogEntry -> list LogEntry) (st : State) : State :=
  mkState (servers st) (intercom_tbl st) (next_id st) (events st) (f (log st)).

Local Open Scope m_scope.

Definition logmsg (l : Level) (text : string) : M State unit :=
  modify (set_log (fun lg => lg ++ [(l, text)])).

Definition emit (e : Event) : M State unit :=
  modify (set_events (fun t => t ++ [e])).

(** [sendtoMaster]: a row for the master, in a transaction of its own. *)
Definition sendtoMaster (id : Z) (data : Dict) : M State unit :=
  let* n := gets next_id in
  modify (set_intercom_tbl (fun t => t ++ [mkRow n "Master" (VDict data)])) >>
  modify (set_next_id (fun n => n + 1)) >>
  emit (EvSendtoMaster id data).

(** The body of the [for] loop of [intercom] for one fetched row. *)
Definition process_row (env : Env) (row : IntercomRow) : M State unit :=
  match row_data row with
  | VDict data =>
      let* sn := getitem "server_name" data in
      let* command := getitem "command" data in
      match sn with
      | VList _ | VDict _ => raise TypeError
      | _ =>
          let* known := gets (fun st =>
            match sn with
            | VStr name => bool_decide (name ∈ servers st)
            | _ => false
            end) in
          match sn, known with
          | VStr name, true =>
              if is_str "rpc" command then
                if match dict_get "object" data with
                   | Some v => is_str "Server" v
                   | None => false
                   end
                then
                  emit (EvRpc (row_id row) name data) >>
                  let* rc := lift (rpc_outcome env name data) in
                  if truthy rc
                  then sendtoMaster (row_id row) (dict_set "return" rc data)
                  else ret tt
                else logmsg WARNING "RPC command received for unknown object."
              else emit (EvSendtoDCS (row_id row) name data)
          | _, _ => logmsg WARNING "Command for unknown server received, ignoring"
          end
      end >>
      emit (EvDelete (row_id row))
  | _ => raise TypeError
  end.

Fixpoint process_rows (env : Env) (rows : list IntercomRow) : M State unit :=
  match rows with
  | [] => ret tt
  | row :: rows' => process_row env row >> process_rows env rows'
  end.

(** The rows [SELECT id, data FROM intercom WHERE agent = %s] finds, in the
    order the table gives them: the statement has no [ORDER BY]. *)
Definition fetchall (env : Env) (st : State) : list IntercomRow :=
  filter (fun r => String.eqb (row_agent r) (node env) = true) (intercom_tbl st).

(** One turn of [intercom].  The [DELETE]s take effect when the transaction
    commits; an exception leaves the loop and rolls them back. *)
Definition intercom (env : Env) : M State unit :=
  fun st =>
    let rows := fetchall env st in
    match process_rows env rows st with
    | (Ret tt, st') =>
        (Ret tt,
         set_intercom_tbl
           (filter (fun r => existsb (fun r' => row_id r' =? row_id r) rows = false)) st')
    | (Raise e, st') => (Raise e, st')
    end.

(** The spec's words for the poll loop, to compare the code with: the
    entries of the node, each with its side effect and then its deletion. *)
Definition side_effect (env : Env) (known : gset string) (row : IntercomRow) : list Event :=
  match row_data row with
  | VDict data =>
      match dict_get "server_name" data, dict_get "command" data with
      | Some (VStr name), Some command =>
          if bool_decide (name ∈ known) then
            if is_str "rpc" command then
              if match dict_get "object" data with
                 | Some v => is_str "Server" v
                 | None => false
                 end
              then EvRpc (row_id row) name data ::
                   match rpc_outcome env name data with
                   | Ret rc =>
                       if truthy rc
                       then [EvSendtoMaster (row_id row) (dict_set "return" rc data)]
                       else []
                   | Raise _ => []
                   end
              else []
            else [EvSendtoDCS (row_id row) name data]
          else []
      | _, _ => []
      end
  | _ => []
  end.

Definition poll_spec (env : Env) (known : gset string) (rows : list IntercomRow)
  : list Event :=
  flat_map (fun row => side_effect env known row ++ [EvDelete (row_id row)]) rows.

End Agent.

(** ** Derived descriptions used by the statements *)

Import Bot.

(** The results [handle] collects from the outcomes of the listeners and
    the lines it logs for the ones that raised. *)
Definition results_of (outcomes : list (Res Val)) : list Val :=
  flat_map (fun o => match o with
                     | Ret v => if truthy v then [v] else []
                     | Raise _ => []
                     end) outcomes.

Definition collect_log (outcomes : list (Res Val)) : list LogEntry :=
  flat_map (fun o => match o with
                     | Ret _ => []
                     | Raise _ => [(EXCEPTION, "processEvent")]
                     end) outcomes.

(** [results[0] if len(results) > 0 else None] *)
Definition first_result (ls : list Listener) (data : Dict) : Val :=
  match results_of (map (fun l : Listener => l data) ls) with
  | r :: _ => r
  | [] => VNone
  end.

(** The rows a trace deletes, in the order of their deletion. *)
Definition deleted_ids (evs : list Agent.Event) : list Z :=
  flat_map (fun e => match e with
                     | Agent.EvDelete id => [id]
                     | _ => []
                     end) evs.

(** Every dictionary object of [st] is in [st'], unchanged. *)
Definition heap_kept (st st' : State) : Prop :=
  forall l d, heap st !! l = Some d -> heap st' !! l = Some d.

(** The pending requests, the listeners and what they were given are the
    same in [st'] as in [st]. *)
Definition same_requests (st st' : State) : Prop :=
  listeners st' = listeners st /\ futures st' = futures st /\
  eventListeners st' = eventListeners st /\ delivered st' = delivered st.

(** The server an event names is not registered: the name is no key of
    [self.globals], or the record under it has the status [UNKNOWN]. *)
Definition unregistered (nm : Val) (st : State) : Prop :=
  match nm with
  | VStr name =>
      globals st !! name = None \/
      (exists l srv, globals st !! name = Some l /\ heap st !! l = Some srv /\
                     dict_get "status" srv = Some (VStatus UNKNOWN))
  | _ => True
  end.

(** ** A small installation, for the examples *)

Module Demo.
Import Bot.

Definition channels (k : string) : option string :=
  if String.eqb k "CHAT_CHANNEL" then Some "1001"
  else if String.eqb k "STATUS_CHANNEL" then Some "1002"
  else if String.eqb k "ADMIN_CHANNEL" then Some "1003"
  else None.

(** Two servers are configured, Alpha and Bravo; Charlie is configured too
    but was never started. *)
Definition env : Env :=
  mkEnv "2.5.0" "node1"
    (fun section =>
       if String.eqb section "instance1" || String.eqb section "instance2"
          || String.eqb section "instance3"
       then Some channels else None)
    (fun name =>
       if String.eqb name "Alpha" then ["instance1"]
       else if String.eqb name "Bravo" then ["instance2"]
       else if String.eqb name "Charlie" then ["instance3"]
       else [])
    json_loads.

Definition alpha : Dict :=
  [("server_name", VStr "Alpha"); ("host", VStr "127.0.0.1"); ("port", VInt 6666);
   ("status", VStatus RUNNING); ("installation", VStr "instance1");
   ("chat_channel", VStr "1001"); ("status_channel", VStr "1002");
   ("admin_channel", VStr "1003")].

Definition bravo : Dict :=
  [("server_name", VStr "Bravo"); ("host", VStr "127.0.0.1"); ("port", VInt 6667);
   ("status", VStatus UNKNOWN); ("installation", VStr "instance2");
   ("chat_channel", VStr "1001"); ("status_channel", VStr "1002");
   ("admin_channel", VStr "1003")].

(** A ban with a player id beyond 53 bits, and a message without integers. *)
Definition ban : Dict :=
  [("command", VStr "ban"); ("ucid", VInt 9007199254740993); ("period", VInt (-1));
   ("reasons", VList [VInt 18014398509481985; VStr "tk"]); ("silent", VBool true)].

Definition ask : Dict := [("command", VStr "getMissionDetails")].

(** Two listeners answer every event, a third one fails, a fourth has
    nothing to say. *)
Definition bot_listeners : list Listener :=
  [fun _ => Ret VNone; fun _ => Ret (VStr "first"); fun _ => Raise ValueError;
   fun _ => Ret (VStr "second")].

Definition st : State :=
  mkState [alpha; bravo; ban; ask] {["Alpha" := 0%nat; "Bravo" := 1%nat]} ∅ [] ∅
    bot_listeners
    [mkServerRow "Alpha" "node1" "127.0.0.1" 6666;
     mkServerRow "Bravo" "node1" "127.0.0.1" 6667]
    [] [] [] [] [].

(** Bravo announces itself on the port of Alpha. *)
Definition bravo_on_alpha_port : Dict :=
  [("command", VStr "registerDCSServer"); ("server_name", VStr "Bravo");
   ("hook_version", VStr "2.5.0"); ("channel", VStr "-1");
   ("host", VStr "127.0.0.1"); ("port", VInt 6666)].

(** Charlie announces itself for the first time. *)
Definition charlie_hello : Dict :=
  [("command", VStr "registerDCSServer"); ("server_name", VStr "Charlie");
   ("hook_version", VStr "2.5.0"); ("channel", VStr "-1");
   ("host", VStr "127.0.0.1"); ("port", VInt 6668)].

(** An event of a server that never registered. *)
Definition stray : Dict :=
  [("command", VStr "onPlayerConnect"); ("server_name", VStr "Delta");
   ("channel", VStr "-1")].

(** The state while a request to Alpha is pending, and its answer. *)
Definition st_pending : State := snd (sendtoDCSSync 0 3 "7f1c" st).

Definition answer : Dict :=
  [("command", VStr "getMissionDetails"); ("server_name", VStr "Alpha");
   ("channel", VStr "sync-7f1c"); ("mission", VStr "Caucasus")].

(** The intercom of an agent with one server and two entries stored out of
    the order of their ids. *)
Definition agent_env : Agent.Env :=
  Agent.mkEnv "node1" (fun _ _ => Ret (VStr "done")).

Definition entry (id : Z) (command : string) : Agent.IntercomRow :=
  Agent.mkRow id "node1"
    (VDict [("server_name", VStr "Alpha"); ("command", VStr command)]).

Definition agent_st : Agent.State :=
  Agent.mkState {["Alpha"]}
    [entry 2 "start"; Agent.mkRow 3 "Master" (VDict []); entry 1 "stop"] 4 [] [].

Definition agent_sorted : Agent.State :=
  Agent.mkState {["Alpha"]} [entry 1 "stop"; entry 2 "start"] 3 [] [].

End Demo.

(** ** More of [core/bot.py]: start-up, the loop-back socket, channels *)

Module BotAux.
Import Bot.
Local Open Scope m_scope.

Definition set_eventListeners (f : list Listener -> list Listener) (st : State) : State :=
  mkState (heap st) (globals st) (listeners st) (futures st) (embeds st)
    (f (eventListeners st)) (db_servers st) (db_persistence st) (sent st) (delivered st)
    (settings_changes st) (log st).

(** [register_eventListener] *)
Definition register_eventListener (listener : Listener) : M State unit :=
  logmsg DEBUG "- Registering EventListener" >>
  modify (set_eventListeners (fun ls => ls ++ [listener])).

(** The body of the [for] loop of [init_servers] for one row of [servers]:
    [dict(row)] becomes the record of the server, with status [UNKNOWN]. *)
Definition init_row (env : Env) (r : ServerRow) : M State unit :=
  let* server := alloc [("server_name", VStr (sr_name r)); ("host", VStr (sr_host r));
                        ("port", VInt (sr_port r))] in
  modify (set_globals (fun g => <[sr_name r := server]> g)) >>
  setitem server "status" (VStatus UNKNOWN) >>
  match findDCSInstallations env (sr_name r) with
  | [inst] =>
      setitem server "installation" (VStr inst) >>
      let* c := config_get env inst "CHAT_CHANNEL" in
      setitem server "chat_channel" c >>
      let* c := config_get env inst "STATUS_CHANNEL" in
      setitem server "status_channel" c >>
      let* c := config_get env inst "ADMIN_CHANNEL" in
      setitem server "admin_channel" c
  | _ => logmsg ERROR "Can't find a DCS server in your installations"
  end.

Fixpoint init_rows (env : Env) (rows : list ServerRow) : M State unit :=
  match rows with
  | [] => ret tt
  | r :: rows' => init_row env r >> init_rows env rows'
  end.

(** [init_servers]: the rows of this node, in the order the table gives
    them; an exception ends the loop and is logged. *)
Definition init_servers (env : Env) : M State unit :=
  try_catch
    (let* rows := gets (fun st =>
       filter (fun r => String.eqb (sr_agent r) (node env) = true) (db_servers st)) in
     init_rows env rows)
    (fun _ => logmsg EXCEPTION "init_servers") >>
  logmsg DEBUG "server(s) read from database.".

(** [sendtoBot]: the message goes to the bot's own UDP port. *)
Definition sendtoBot (env : Env) (message : nat) : M State unit :=
  setitem message "channel" (VStr "-1") >>
  let* m := deref message in
  let* msg := lift (match json_dumps (VDict m) with
                    | Some t => Ret t
                    | None => Raise TypeError
                    end) in
  logmsg DEBUG "HOST->HOST" >>
  let* h := config_get env "BOT" "HOST" in
  let host := if is_str "0.0.0.0" h then VStr "127.0.0.1" else h in
  let* p := config_get env "BOT" "PORT" in
  let* port := lift (py_int p) in
  modify (set_sent (fun s => s ++ [mkDatagram host port msg])).

(** [self.globals[name]] for whatever [data['server_name']] holds.  The key
    of the [KeyError] is given by its text. *)
Definition globals_at (nm : Val) : M State nat :=
  match nm with
  | VList _ | VDict _ => raise TypeError
  | VStr name =>
      let* g := gets globals in
      match g !! name with
      | Some l => ret l
      | None => raise (KeyError name)
      end
  | _ => raise (KeyError (json_text nm))
  end.

(** [get_bot_channel]: the identifier it hands to [self.get_channel]. *)
Definition get_bot_channel (data : Dict) (channel_type : string) : M State Z :=
  let* ch := getitem "channel" data in
  let* chs := as_str ch in
  let* server_side :=
    if starts_with "sync" chs then ret true
    else let* n := lift (py_int ch) in ret (n =? -1) in
  if server_side : bool then
    let* nm := getitem "server_name" data in
    let* l := globals_at nm in
    let* srv := deref l in
    let* c := getitem channel_type srv in
    lift (py_int c)
  else
    let* ch := getitem "channel" data in
    lift (py_int ch).

End BotAux.

Import BotAux.

(** ** The port check of [register_server] in [services/listener.py] *)

Module AgentPorts.
Local Open Scope m_scope.

(** What the loop reads of one server of [self.servers]: its name, the
    [port] of its settings, the ports of its [Autoexec] and, where the
    settings have an [advanced] section, whether that section switches the
    voice chat server on.  [ServerImpl] and [Autoexec] are not among the
    sources at hand. *)
Record ServerPorts := mkPorts {
  sp_name : string;
  sp_port : option Z;
  sp_webgui : option Z;
  sp_webrtc : option Z;
  sp_voice_chat : option bool
}.

(** [x or d] on an optional number *)
Definition py_or (x : option Z) (d : Z) : Z :=
  match x with
  | Some z => if z =? 0 then d else z
  | None => d
  end.

Definition dcs_port (s : ServerPorts) : Z := default 10308 (sp_port s).
Definition webgui_port (s : ServerPorts) : Z := py_or (sp_webgui s) 8088.
Definition webrtc_port (s : ServerPorts) : Z := py_or (sp_webrtc s) 10309.

(** Lines 137 to 162: [false] is the [return False] of the loop, [true] is
    leaving the loop at its end. *)
Fixpoint validate_ports (servers : list ServerPorts)
  (dcs_ports webgui_ports webrtc_ports : gmap Z string) : M Agent.State bool :=
  match servers with
  | [] => ret true
  | server :: rest =>
      match dcs_ports !! dcs_port server with
      | Some _ =>
          Agent.logmsg ERROR "shares its DCS port! Registration aborted." >> ret false
      | None =>
          let dcs_ports := <[dcs_port server := sp_name server]> dcs_ports in
          match webgui_ports !! webgui_port server with
          | Some _ =>
              Agent.logmsg ERROR "shares its webgui_port! Registration aborted." >>
              ret false
          | None =>
              let webgui_ports := <[webgui_port server := sp_name server]> webgui_ports in
              match webrtc_ports !! webrtc_port server with
              | Some _ =>
                  match sp_voice_chat server with
                  | None => raise (KeyError "advanced")
                  | Some true =>
                      Agent.logmsg ERROR
                        "shares its webrtc_port port! Registration aborted."
                  | Some false =>
                      Agent.logmsg WARNING
                        "shares its webrtc_port port, but voice chat is disabled."
                  end >>
                  validate_ports rest dcs_ports webgui_ports webrtc_ports
              | None =>
                  validate_ports rest dcs_ports webgui_ports
                    (<[webrtc_port server := sp_name server]> webrtc_ports)
              end
          end
      end
  end.

End AgentPorts.

(** ** [plugins/csar/listener.py]: the wounded pilots sent back to DCS *)

Module Csar.
Local Open Scope m_scope.

(** What the listener emits: the messages handed to [server.send_to_dcs],
    and its log. *)
Record State := mkState {
  outbox : list Dict;
  log : list LogEntry
}.

Definition logmsg (l : Level) (text : string) : M State unit :=
  modify (fun st => mkState (outbox st) (log st ++ [(l, text)])).

Definition send_to_dcs (message : Dict) : M State unit :=
  modify (fun st => mkState (outbox st ++ [message]) (log st)).

Definition update_message (concat : string) : Dict :=
  [("command", VStr "csarUpdatePersistentData"); ("data", VStr concat)].

(** The [for] loop of [getPersistentData], from the values of [concat] and
    [i] at the head of a turn; it returns the [concat] it ends with. *)
Fixpoint send_rows (rows : list Val) (concat : string) (i : nat) : M State string :=
  match rows with
  | [] => ret concat
  | row :: rest =>
      let* t := lift (match json_dumps row with
                      | Some t => Ret t
                      | None => Raise TypeError
                      end) in
      let concat := if String.eqb concat EmptyString then "[" +:+ t
                    else concat +:+ ", " +:+ t in
      let i := S i in
      if (5 <=? i)%nat then
        send_to_dcs (update_message (concat +:+ "]")) >>
        send_rows rest EmptyString 0
      else send_rows rest concat i
  end.

(** [getPersistentData], for the rows [get_csar_wounded] returned. *)
Definition getPersistentData (wounded : list Val) : M State unit :=
  match wounded with
  | [] => logmsg DEBUG "CSAR: No wounded pilots in database"
  | _ :: _ =>
      let* concat := send_rows wounded EmptyString 0 in
      if negb (String.eqb concat EmptyString)
      then send_to_dcs (update_message (concat +:+ "]"))
      else ret tt
  end.

End Csar.

(** ** The UDP handler of [services/listener.py] *)

Module AgentUdp.
Local Open Scope m_scope.

(** What [handle] reads of a [ServerImpl], which is not among the sources
    at hand: its installation and the futures that wait in its
    [listeners]. *)
Record Server := mkServer {
  installation : string;
  listeners : gmap string nat
}.

(** A future whose result, once set, is the dictionary object it was given. *)
Inductive Future :=
| Pending
| Done (data : nat)
| Cancelled.

Record State := mkState {
  servers : gmap string Server;
  heap : list Dict;
  futures : list Future;
  intercom_tbl : list Agent.IntercomRow;
  next_id : Z;
  log : list LogEntry
}.

Definition set_heap (f : list Dict -> list Dict) (st : State) : State :=
  mkState (servers st) (f (heap st)) (futures st) (intercom_tbl st) (next_id st) (log st).
Definition set_futures (f : list Future -> list Future) (st : State) : State :=
  mkState (servers st) (heap st) (f (futures st)) (intercom_tbl st) (next_id st) (log st).
Definition set_intercom_tbl (f : list Agent.IntercomRow -> list Agent.IntercomRow)
  (st : State) : State :=
  mkState (servers st) (heap st) (futures st) (f (intercom_tbl st)) (next_id st) (log st).
Definition set_next_id (f : Z -> Z) (st : State) : State :=
  mkState (servers st) (heap st) (futures st) (intercom_tbl st) (f (next_id st)) (log st).
Definition set_log (f : list LogEntry -> list LogEntry) (st : State) : State :=
  mkState (servers st) (heap st) (futures st) (intercom_tbl st) (next_id st) (f (log st)).

Definition logmsg (l : Level) (text : string) : M State unit :=
  modify (set_log (fun lg => lg ++ [(l, text)])).

Definition alloc (d : Dict) : M State nat :=
  fun st => (Ret (length (heap st)), set_heap (fun h => h ++ [d]) st).

Definition deref (l : nat) : M State Dict :=
  fun st => (Ret (default [] (heap st !! l)), st).

Definition setitem (l : nat) (k : string) (v : Val) : M State unit :=
  modify (set_heap (fun h => alter (dict_set k v) l h)).

(** [sendtoMaster]: a row for the master, holding the dictionary as it is
    when the statement runs. *)
Definition sendtoMaster (data : nat) : M State unit :=
  let* d := deref data in
  let* n := gets next_id in
  modify (set_intercom_tbl (fun t => t ++ [Agent.mkRow n "Master" (VDict d)])) >>
  modify (set_next_id (fun n => n + 1)).

(** [self.servers.get(server_name)] *)
Definition servers_get (server_name : Val) : M State (option Server) :=
  match server_name with
  | VList _ | VDict _ => raise TypeError
  | VStr name => gets (fun st => servers st !! name)
  | _ => ret None
  end.

Section Handle.

(** The node, [json.loads], and [self.register_server], which is given the
    dictionary object of the datagram. *)
Variable node : string.
Variable json_decode : string -> option Val.
Variable register_server : nat -> M State bool.

(** Lines 243 to 249: the reply to a synchronous request; [true] is the
    [return] of line 249. *)
Definition settle (server : Server) (data : nat) (d : Dict) (command : Val)
  : M State bool :=
  match dict_get "channel" d with
  | None => ret false
  | Some ch =>
      let* chs := as_str ch in
      if starts_with "sync-" chs then
        match listeners server !! chs with
        | Some f =>
            let* fs := gets futures in
            match fs !! f with
            | Some Pending => modify (set_futures (fun fs => <[f := Done data]> fs))
            | _ => ret tt
            end >>
            ret (negb (is_str "registerDCSServer" command))
        | None => ret false
        end
      else ret false
  end.

Definition handle (raw : string) : M State unit :=
  match json_decode (strip raw) with
  | None => raise JSONDecodeError
  | Some v =>
      let* has := lift (py_contains "server_name" v) in
      if negb has then logmsg WARNING "Message without server_name received"
      else
        match v with
        | VDict d =>
            let* data := alloc d in
            let* server_name := getitem "server_name" d in
            let* command := getitem "command" d in
            let* found := servers_get server_name in
            match found with
            | None => logmsg WARNING "Command for unknown server received, ignoring."
            | Some server =>
                logmsg DEBUG "->HOST" >>
                let* done := settle server data d command in
                if done : bool then ret tt
                else
                  (if is_str "registerDCSServer" command then
                     let* _ := register_server data in
                     logmsg INFO "Registering server on Master node ..." >>
                     setitem data "installation" (VStr (installation server)) >>
                     setitem data "agent" (VStr node)
                   else ret tt) >>
                  sendtoMaster data
            end
        | _ => raise TypeError
        end
  end.

End Handle.

End AgentUdp.

(** ** Descriptions and scenarios for the statements below *)

(** The listeners whose [processEvent] raised. *)
Definition raised (outcomes : list (Res Val)) : nat :=
  length (List.filter (fun o => match o with Raise _ => true | Ret _ => false end)
            outcomes).

(** What handling an event [d] does to the requests that wait in [st], when
    it does anything to them: the request on the channel of the event
    leaves [self.listeners], and its future, if still pending, is done. *)
Definition settles (d : Dict) (st st' : State) : Prop :=
  exists ch fid,
    dict_get "channel" d = Some (VStr ch) /\
    starts_with "sync" ch = true /\
    listeners st !! ch = Some fid /\
    listeners st' = delete ch (listeners st) /\
    futures st' = match futures st !! fid with
                  | Some Pending =>
                      <[fid := Done (first_result (eventListeners st) d)]> (futures st)
                  | _ => futures st
                  end.

(** Every record of the registry has the status [UNKNOWN]. *)
Definition all_unknown (st : State) : Prop :=
  forall name l, globals st !! name = Some l ->
    exists srv, heap st !! l = Some srv /\
                dict_get "status" srv = Some (VStatus UNKNOWN).

(** The configuration has the three channels of the installation of a row,
    where [init_servers] looks for them. *)
Definition configured (env : Env) (r : ServerRow) : bool :=
  match findDCSInstallations env (sr_name r) with
  | [inst] =>
      match config env inst with
      | Some sec =>
          match sec "CHAT_CHANNEL", sec "STATUS_CHANNEL", sec "ADMIN_CHANNEL" with
          | Some _, Some _, Some _ => true
          | _, _, _ => false
          end
      | None => false
      end
  | _ => true
  end.

(** The text [concat] holds while the rows [cur] wait for their batch to
    fill, and the message a full batch is sent in. *)
Definition open_batch (cur : list Val) : string :=
  match cur with
  | [] => EmptyString
  | _ :: _ => "[" +:+ join ", " (map json_text cur)
  end.

Definition batch_message (batch : list Val) : Dict :=
  Csar.update_message (json_text (VList batch)).

(** The configuration has a section for the installation, with the three
    channels [register_server] reads for a server that is new. *)
Definition has_channels (env : Env) (inst : string) : Prop :=
  exists sec c1 c2 c3,
    config env inst = Some sec /\ sec "CHAT_CHANNEL" = Some c1 /\
    sec "STATUS_CHANNEL" = Some c2 /\ sec "ADMIN_CHANNEL" = Some c3.

(** No row of this node with the announced host and port belongs to
    another server that still has an installation: the [SELECT] of
    [register_server] cannot end in the port conflict. *)
Definition no_port_conflict (env : Env) (data : Dict) (name : string) (st : State)
  : Prop :=
  forall h p host port r,
    dict_get "host" data = Some h -> dict_get "port" data = Some p ->
    sql_text h = Ret host -> sql_int p = Ret port ->
    r ∈ db_servers st ->
    sr_agent r = node env -> sr_host r = host -> sr_port r = port ->
    sr_name r = name \/ findDCSInstallations env (sr_name r) = [].

Module Scenario.
Import Bot BotAux.

(** Two requests wait at once: one to Alpha, one to Bravo. *)
Definition two_pending : State := snd (sendtoDCSSync 1 2 "a2b9" Demo.st_pending).

(** An event of Alpha that is no reply. *)
Definition chat : Dict :=
  [("command", VStr "onChatMessage"); ("server_name", VStr "Alpha");
   ("channel", VStr "-1"); ("message", VStr "hello")].

(** The bot listens on every interface. *)
Definition env : Env :=
  mkEnv "2.5.0" "node1"
    (fun section =>
       if String.eqb section "BOT"
       then Some (fun k => if String.eqb k "HOST" then Some "0.0.0.0"
                           else if String.eqb k "PORT" then Some "10081" else None)
       else config Demo.env section)
    (findDCSInstallations Demo.env)
    json_loads.

(** The state of a bot that has just been constructed, over the table of
    the demonstration. *)
Definition fresh : State :=
  mkState [] ∅ ∅ [] ∅ [] (db_servers Demo.st) [] [] [] [] [].

(** Three servers; the second shares the webrtc port of the first and has
    the voice chat server switched on. *)
Definition ports_ok : list AgentPorts.ServerPorts :=
  [AgentPorts.mkPorts "Alpha" None None None (Some false);
   AgentPorts.mkPorts "Bravo" (Some 10318) (Some 8089) None (Some true);
   AgentPorts.mkPorts "Charlie" (Some 10328) (Some 8090) (Some 10329) None].

(** Seven wounded pilots. *)
Definition pilot (id : Z) : Val :=
  VDict [("id", VInt id); ("coalition", VStr "blue"); ("playername", VNone)].

Definition pilots : list Val := map pilot [1; 2; 3; 4; 5; 6; 7].

(** Alpha answers a probe while it is paused. *)
Definition alpha_again : Dict :=
  [("command", VStr "registerDCSServer"); ("server_name", VStr "Alpha");
   ("hook_version", VStr "2.5.0"); ("channel", VStr "sync-7f1c");
   ("host", VStr "127.0.0.1"); ("port", VInt 6666); ("pause", VBool true)].

(** Charlie announces itself without its port. *)
Definition charlie_no_port : Dict :=
  [("command", VStr "registerDCSServer"); ("server_name", VStr "Charlie");
   ("hook_version", VStr "2.5.0"); ("channel", VStr "-1");
   ("host", VStr "127.0.0.1")].

(** A plugin reports the end of a mission of Alpha to the bot itself; the
    message is the object at reference 4. *)
Definition report : Dict :=
  [("command", VStr "onMissionEnd"); ("server_name", VStr "Alpha");
   ("channel", VStr "77"); ("points", VInt 5)].

Definition st_report : State := snd (alloc report Demo.st_pending).

(** An agent whose intercom holds an rpc request and, after it, a row that
    lacks its command. *)
Definition agent_bad : Agent.State :=
  Agent.mkState {["Alpha"]}
    [Agent.mkRow 1 "node1"
       (VDict [("server_name", VStr "Alpha"); ("command", VStr "rpc");
               ("object", VStr "Server"); ("method", VStr "restart")]);
     Agent.mkRow 2 "node1" (VDict [("server_name", VStr "Alpha")]);
     Agent.mkRow 3 "node2" (VDict [("server_name", VStr "Echo")])] 4 [] [].

(** The fourth of seven rows holds a value [json.dumps] refuses. *)
Definition pilots_bad : list Val :=
  map pilot [1; 2; 3] ++ [VDict [("id", VInt 4); ("status", VStatus UNKNOWN)]]
  ++ map pilot [5; 6; 7].

(** Alpha announces itself anew while the probe of [Demo.st_pending] waits. *)
Definition alpha_hello : Dict :=
  [("command", VStr "registerDCSServer"); ("server_name", VStr "Alpha");
   ("hook_version", VStr "2.5.0"); ("channel", VStr "-1");
   ("host", VStr "127.0.0.1"); ("port", VInt 6666)].

(** A server that was called Delta when it last ran, and is not configured
    under that name any more, is in the table and in the registry; Charlie
    announces itself on its port. *)
Definition delta : Dict :=
  [("server_name", VStr "Delta"); ("host", VStr "127.0.0.1"); ("port", VInt 6669);
   ("status", VStatus UNKNOWN)].

Definition st_delta : State :=
  mkState [Demo.alpha; Demo.bravo; delta]
    {["Alpha" := 0%nat; "Bravo" := 1%nat; "Delta" := 2%nat]} ∅ [] ∅
    Demo.bot_listeners
    [mkServerRow "Alpha" "node1" "127.0.0.1" 6666;
     mkServerRow "Bravo" "node1" "127.0.0.1" 6667;
     mkServerRow "Delta" "node1" "127.0.0.1" 6669]
    [mkEmbedRow "Delta" "mission" (VInt 42)] [] [] [] [].

Definition charlie_on_delta_port : Dict :=
  [("command", VStr "registerDCSServer"); ("server_name", VStr "Charlie");
   ("hook_version", VStr "2.5.0"); ("channel", VStr "-1");
   ("host", VStr "127.0.0.1"); ("port", VInt 6669)].

(** An agent with the server Alpha, whose probe waits on its token, and a
    [register_server] that turns every registration down. *)
Definition udp_st : AgentUdp.State :=
  AgentUdp.mkState
    {["Alpha" := AgentUdp.mkServer "instance1" {["sync-7f1c" := 0%nat]}]}
    [] [AgentUdp.Pending] [] 1 [].

Definition turn_down (data : nat) : M AgentUdp.State bool :=
  fun st => (Ret false, AgentUdp.set_log (fun lg => lg ++ [(ERROR, "aborted")]) st).

(** Answers on the token of [Demo.st_pending] that do not come from Alpha:
    one of Delta, which never registered, one of Bravo, whose status is
    [UNKNOWN], and a registration of Bravo on the port of Alpha. *)
Definition answer_delta : Dict :=
  [("command", VStr "getMissionDetails"); ("server_name", VStr "Delta");
   ("channel", VStr "sync-7f1c")].

Definition answer_bravo : Dict :=
  [("command", VStr "getMissionDetails"); ("server_name", VStr "Bravo");
   ("channel", VStr "sync-7f1c")].

Definition bravo_probe_answer : Dict :=
  [("command", VStr "registerDCSServer"); ("server_name", VStr "Bravo");
   ("hook_version", VStr "2.5.0"); ("channel", VStr "sync-7f1c");
   ("host", VStr "127.0.0.1"); ("port", VInt 6666)].

(** Delta, which has no installation, announces itself. *)
Definition delta_hello : Dict :=
  [("command", VStr "registerDCSServer"); ("server_name", VStr "Delta");
   ("hook_version", VStr "2.5.0"); ("channel", VStr "-1");
   ("host", VStr "127.0.0.1"); ("port", VInt 6670)].

(** Charlie announces itself with the hooks of another version. *)
Definition charlie_old_hooks : Dict :=
  [("command", VStr "registerDCSServer"); ("server_name", VStr "Charlie");
   ("hook_version", VStr "2.4.9"); ("channel", VStr "-1");
   ("host", VStr "127.0.0.1"); ("port", VInt 6668)].

(** A [register_server] of the agent that takes every registration up. *)
Definition take_up (data : nat) : M AgentUdp.State bool :=
  fun st => (Ret true, AgentUdp.set_log (fun lg => lg ++ [(DEBUG, "registered")]) st).

End Scenario.

Lemma append_assoc (a b c : string) : (a +:+ b) +:+ c = a +:+ (b +:+ c).
Proof. induction a as [|x a IH]; [reflexivity | exact (f_equal (String x) IH)]. Qed.

Lemma parse_string_step (c : ascii) (t : string) :
  parse_string (escape_char c +:+ t) =
  match parse_string t with
  | Some (u, r) => Some (String c u, r)
  | None => None
  end.
Proof.
  destruct c as [[] [] [] [] [] [] [] []]; reflexivity.
Qed.

Lemma parse_string_quote (s rest : string) :
  parse_string (escape s +:+ String dquote rest) = Some (s, rest).
Proof.
  induction s as [|c s IH].
  - reflexivity.
  - change (escape (String c s)) with (escape_char c +:+ escape s).
    rewrite append_assoc, parse_string_step, IH. reflexivity.
Qed.

Lemma nzhead_not_D0 (d d' : Decimal.uint) : Decimal.nzhead d <> Decimal.D0 d'.
Proof. induction d; simpl; try discriminate. exact IHd. Qed.

Lemma to_uint_unorm (p : positive) :
  Decimal.unorm (Pos.to_uint p) = Pos.to_uint p.
Proof.
  rewrite <- DecimalPos.Unsigned.to_of, DecimalPos.Unsigned.of_to. reflexivity.
Qed.

Lemma unorm_D0 (d : Decimal.uint) :
  Decimal.unorm (Decimal.D0 d) = Decimal.D0 d -> d = Decimal.Nil.
Proof.
  unfold Decimal.unorm. simpl. destruct (Decimal.nzhead d) eqn:E; intros H;
    try discriminate.
  - injection H as <-. reflexivity.
  - exfalso. rewrite H in E. exact (nzhead_not_D0 _ _ E).
Qed.

Lemma span_digits_uint (d : Decimal.uint) (rest : string) :
  follows_number rest = true ->
  span_digits (NilEmpty.string_of_uint d +:+ rest) = (NilEmpty.string_of_uint d, rest).
Proof.
  intros Hr. induction d; simpl; try (rewrite IHd; reflexivity).
  destruct rest as [|c r]; [reflexivity|]. simpl in Hr.
  simpl. destruct (is_digit c); [discriminate | reflexivity].
Qed.

Lemma parse_digits_uint (d : Decimal.uint) (rest : string) :
  d <> Decimal.Nil -> Decimal.unorm d = d -> follows_number rest = true ->
  parse_digits (NilEmpty.string_of_uint d +:+ rest) = Some (d, rest).
Proof.
  intros Hnil Hn Hr. unfold parse_digits. rewrite (span_digits_uint _ _ Hr).
  pose proof (NilEmpty.usu d) as Hu.
  destruct d; try congruence; simpl NilEmpty.string_of_uint;
    try (simpl; rewrite Hr; simpl; simpl in Hu; rewrite Hu; reflexivity).
  apply unorm_D0 in Hn. subst d. simpl. rewrite Hr. reflexivity.
Qed.

Lemma parse_number_str_of_int (z : Z) (rest : string) :
  follows_number rest = true ->
  parse_number (str_of_int z +:+ rest) = Some (z, rest).
Proof.
  intros Hr. unfold str_of_int.
  assert (Hpos : forall p, parse_digits (NilZero.string_of_uint (Pos.to_uint p) +:+ rest)
                           = Some (Pos.to_uint p, rest)).
  { intros p. pose proof (DecimalPos.Unsigned.to_uint_nonnil p) as Hn.
    unfold NilZero.string_of_uint.
    pose proof (to_uint_unorm p) as Hu.
    destruct (Pos.to_uint p) eqn:E; try congruence; cbv beta iota;
      apply parse_digits_uint; auto. }
  destruct z as [|p|p].
  - assert (H : parse_digits (String "0" rest) = Some (Decimal.D0 Decimal.Nil, rest)).
    { apply (parse_digits_uint (Decimal.D0 Decimal.Nil) rest); auto; discriminate. }
    change (parse_number (String "0" rest) = Some (0, rest)).
    unfold parse_number. cbn [Ascii.eqb Bool.eqb]. rewrite H. reflexivity.
  - change (Z.to_int (Z.pos p)) with (Decimal.Pos (Pos.to_uint p)).
    pose proof (Hpos p) as H. pose proof (DecimalZ.of_to (Z.pos p)) as Hz.
    change (Z.to_int (Z.pos p)) with (Decimal.Pos (Pos.to_uint p)) in Hz.
    cbn [NilZero.string_of_int].
    pose proof (DecimalPos.Unsigned.to_uint_nonnil p) as Hn.
    unfold NilZero.string_of_uint in *.
    destruct (Pos.to_uint p) eqn:E; try congruence;
      simpl NilEmpty.string_of_uint in *; unfold parse_number;
      cbn [String.append Ascii.eqb Bool.eqb]; cbn [String.append] in H;
      rewrite H, Hz; reflexivity.
  - change (Z.to_int (Z.neg p)) with (Decimal.Neg (Pos.to_uint p)).
    pose proof (Hpos p) as H. pose proof (DecimalZ.of_to (Z.neg p)) as Hz.
    change (Z.to_int (Z.neg p)) with (Decimal.Neg (Pos.to_uint p)) in Hz.
    change (parse_number (String "-" (NilZero.string_of_uint (Pos.to_uint p) +:+ rest))
            = Some (Z.neg p, rest)).
    unfold parse_number. change (Ascii.eqb "-" "-") with true. cbv iota.
    rewrite H, Hz. reflexivity.
Qed.

Lemma value_start_facts (c : ascii) :
  value_start c = true ->
  is_ws c = false /\ Ascii.eqb c "]" = false /\ Ascii.eqb c "}" = false.
Proof.
  destruct c as [[] [] [] [] [] [] [] []]; intros H; try discriminate H;
    repeat split; reflexivity.
Qed.

Lemma str_of_int_head (z : Z) :
  exists c t, str_of_int z = String c t /\ (is_digit c || Ascii.eqb c "-") = true.
Proof.
  unfold str_of_int. destruct z as [|p|p].
  - exists "0"%char, EmptyString. split; reflexivity.
  - change (Z.to_int (Z.pos p)) with (Decimal.Pos (Pos.to_uint p)).
    pose proof (DecimalPos.Unsigned.to_uint_nonnil p) as Hn.
    destruct (Pos.to_uint p); try congruence; simpl; eexists _, _; split;
      reflexivity.
  - exists "-"%char, (NilZero.string_of_uint (Pos.to_uint p)). split; reflexivity.
Qed.

Lemma json_text_head (v : Val) :
  json_encodable v = true ->
  exists c t, json_text v = String c t /\ value_start c = true.
Proof.
  destruct v as [|[]|z|s|st|l|d]; intros He; try discriminate He;
    try (eexists _, _; split; reflexivity).
  destruct (str_of_int_head z) as (c & t & E & Hc). exists c, t. split; [exact E|].
  unfold value_start. rewrite Hc. reflexivity.
Qed.

Lemma parse_value_S (fuel : nat) (s : string) :
  parse_value (S fuel) s =
  match skip_ws s with
  | EmptyString => None
  | String c r =>
      if Ascii.eqb c dquote then
        match parse_string r with
        | Some (t, r') => Some (VStr t, r')
        | None => None
        end
      else if Ascii.eqb c "[" then
        match skip_ws r with
        | EmptyString => None
        | String c2 r2 =>
            if Ascii.eqb c2 "]" then Some (VList [], r2)
            else match parse_elems fuel r with
                 | Some (vs, r') => Some (VList vs, r')
                 | None => None
                 end
        end
      else if Ascii.eqb c "{" then
        match skip_ws r with
        | EmptyString => None
        | String c2 r2 =>
            if Ascii.eqb c2 "}" then Some (VDict [], r2)
            else match parse_members fuel r with
                 | Some (kvs, r') => Some (VDict (dict_of_pairs kvs), r')
                 | None => None
                 end
        end
      else
        match strip_prefix "null" (String c r) with
        | Some r' => Some (VNone, r')
        | None =>
            match strip_prefix "true" (String c r) with
            | Some r' => Some (VBool true, r')
            | None =>
                match strip_prefix "false" (String c r) with
                | Some r' => Some (VBool false, r')
                | None =>
                    match parse_number (String c r) with
                    | Some (z, r') => Some (VInt z, r')
                    | None => None
                    end
                end
            end
        end
  end.
Proof. reflexivity. Qed.

Lemma parse_elems_S (fuel : nat) (s : string) :
  parse_elems (S fuel) s =
  match parse_value fuel s with
  | Some (v, r) =>
      match skip_ws r with
      | EmptyString => None
      | String c r' =>
          if Ascii.eqb c "," then
            match parse_elems fuel r' with
            | Some (vs, r'') => Some (v :: vs, r'')
            | None => None
            end
          else if Ascii.eqb c "]" then Some ([v], r')
          else None
      end
  | None => None
  end.
Proof. reflexivity. Qed.

Lemma parse_members_S (fuel : nat) (s : string) :
  parse_members (S fuel) s =
  match skip_ws s with
  | EmptyString => None
  | String c r =>
      if Ascii.eqb c dquote then
        match parse_string r with
        | Some (k, r1) =>
            match skip_ws r1 with
            | EmptyString => None
            | String c1 r2 =>
                if Ascii.eqb c1 ":" then
                  match parse_value fuel r2 with
                  | Some (v, r3) =>
                      match skip_ws r3 with
                      | EmptyString => None
                      | String c3 r4 =>
                          if Ascii.eqb c3 "," then
                            match parse_members fuel r4 with
                            | Some (kvs, r5) => Some ((k, v) :: kvs, r5)
                            | None => None
                            end
                          else if Ascii.eqb c3 "}" then Some ([(k, v)], r4)
                          else None
                      end
                  | None => None
                  end
                else None
            end
        | None => None
        end
      else None
  end.
Proof. reflexivity. Qed.

Lemma parse_value_number_head (fuel : nat) (c : ascii) (t : string) :
  (is_digit c || Ascii.eqb c "-") = true ->
  parse_value (S fuel) (String c t) =
  match parse_number (String c t) with
  | Some (z, r') => Some (VInt z, r')
  | None => None
  end.
Proof.
  rewrite parse_value_S.
  destruct c as [[] [] [] [] [] [] [] []]; intros H; try discriminate H;
    reflexivity.
Qed.

Lemma parse_value_space (fuel : nat) (s : string) :
  parse_value fuel (String " " s) = parse_value fuel s.
Proof. destruct fuel; reflexivity. Qed.

Lemma parse_elems_space (fuel : nat) (s : string) :
  parse_elems fuel (String " " s) = parse_elems fuel s.
Proof.
  destruct fuel; [reflexivity|]. rewrite !parse_elems_S, parse_value_space.
  reflexivity.
Qed.

Lemma parse_members_space (fuel : nat) (s : string) :
  parse_members fuel (String " " s) = parse_members fuel s.
Proof. destruct fuel; reflexivity. Qed.

Lemma dict_get_app (k : string) (a b : Dict) :
  dict_get k (a ++ b) =
  match dict_get k a with Some v => Some v | None => dict_get k b end.
Proof.
  induction a as [|[k' v'] a IH]; simpl; [reflexivity|].
  destruct (String.eqb k k'); [reflexivity | exact IH].
Qed.

Lemma dict_set_fresh (k : string) (v : Val) (d : Dict) :
  dict_get k d = None -> dict_set k v d = d ++ [(k, v)].
Proof.
  induction d as [|[k' v'] d IH]; simpl; [reflexivity|].
  destruct (String.eqb k k'); [discriminate|]. intros H. now rewrite IH.
Qed.

Lemma dict_has_false (k : string) (d : Dict) :
  dict_has k d = false -> dict_get k d = None.
Proof. unfold dict_has. destruct (dict_get k d); [discriminate | reflexivity]. Qed.

Lemma dict_get_none_keys (k : string) (d : Dict) :
  dict_get k d = None ->
  forall kv, In kv d -> String.eqb (fst kv) k = false.
Proof.
  induction d as [|[k' v'] d IH]; simpl; [tauto|].
  destruct (String.eqb k k') eqn:E; [discriminate|].
  intros H kv [<- | Hin]; [|exact (IH H kv Hin)].
  simpl. now rewrite String.eqb_sym.
Qed.

Lemma dict_merge_unique (d acc : Dict) :
  keys_unique d = true ->
  (forall kv, In kv d -> dict_get (fst kv) acc = None) ->
  dict_merge acc d = acc ++ d.
Proof.
  revert acc. induction d as [|[k v] d IH]; intros acc Hu Hd.
  - simpl. now rewrite app_nil_r.
  - simpl in Hu. apply andb_true_iff in Hu as [Hk Hu].
    apply negb_true_iff, dict_has_false in Hk.
    change (dict_merge acc ((k, v) :: d)) with (dict_merge (dict_set k v acc) d).
    rewrite dict_set_fresh by (apply (Hd (k, v)); now left).
    rewrite IH; [now rewrite <- app_assoc | exact Hu |].
    intros kv Hin. rewrite dict_get_app, (Hd kv) by now right.
    simpl. now rewrite (dict_get_none_keys k d Hk kv Hin).
Qed.

Lemma dict_of_pairs_unique (d : Dict) :
  keys_unique d = true -> dict_of_pairs d = d.
Proof.
  intros Hu. unfold dict_of_pairs. now rewrite dict_merge_unique.
Qed.

Lemma skip_ws_head (c : ascii) (s : string) :
  is_ws c = false -> skip_ws (String c s) = String c s.
Proof. intros H. simpl. now rewrite H. Qed.

Lemma parse_elems_text (l : list Val) :
  Forall reads_back l -> l <> [] ->
  forallb json_encodable l = true -> forallb wf_val l = true ->
  forall fuel rest, (need_elems l <= fuel)%nat ->
  parse_elems fuel (join ", " (map json_text l) +:+ String "]" rest) = Some (l, rest).
Proof.
  induction 1 as [|x l Hx Hl IH]; [congruence|]. intros _ He Hw fuel rest Hf.
  simpl in He, Hw. apply andb_true_iff in He as [Hex Hel].
  apply andb_true_iff in Hw as [Hwx Hwl].
  change (need_elems (x :: l)) with (S (Nat.max (need x) (need_elems l))) in Hf.
  destruct fuel as [|fuel]; [lia|]. rewrite parse_elems_S.
  destruct l as [|y l].
  - change (join ", " (map json_text [x])) with (json_text x).
    rewrite (Hx Hex Hwx) by (reflexivity || lia). reflexivity.
  - change (join ", " (map json_text (x :: y :: l)))
      with (json_text x +:+ ", " +:+ join ", " (map json_text (y :: l))).
    rewrite !append_assoc.
    rewrite (Hx Hex Hwx) by (reflexivity || lia).
    change (skip_ws (", " +:+ ?s)) with (String "," (String " " s)). cbv iota.
    change (Ascii.eqb "," ",") with true. cbv iota.
    rewrite parse_elems_space, IH; auto; try congruence; try lia.
Qed.

Lemma parse_members_text (d : Dict) :
  Forall (fun kv => reads_back (snd kv)) d -> d <> [] ->
  forallb (fun kv => json_encodable (snd kv)) d = true ->
  forallb (fun kv => wf_val (snd kv)) d = true ->
  forall fuel rest, (need_members d <= fuel)%nat ->
  parse_members fuel (join ", " (map member_text d) +:+ String "}" rest) = Some (d, rest).
Proof.
  induction 1 as [|[k x] d Hx Hd IH]; [congruence|]. intros _ He Hw fuel rest Hf.
  simpl in He, Hw, Hx. apply andb_true_iff in He as [Hex Hel].
  apply andb_true_iff in Hw as [Hwx Hwl].
  change (need_members ((k, x) :: d)) with (S (Nat.max (need x) (need_members d))) in Hf.
  destruct fuel as [|fuel]; [lia|]. rewrite parse_members_S.
  assert (Hhead : forall tail,
    member_text (k, x) +:+ tail
    = String dquote (escape k +:+ String dquote (String ":" (String " " (json_text x +:+ tail))))).
  { intros tail. unfold member_text, quote. simpl fst. simpl snd.
    rewrite !append_assoc.
    change (String dquote (escape k +:+ String dquote EmptyString) +:+ ?t)
      with (String dquote ((escape k +:+ String dquote EmptyString) +:+ t)).
    rewrite append_assoc. reflexivity. }
  destruct d as [|y d].
  - change (join ", " (map member_text [(k, x)])) with (member_text (k, x)).
    rewrite Hhead. rewrite skip_ws_head by reflexivity.
    change (Ascii.eqb dquote dquote) with true. cbv iota.
    rewrite parse_string_quote. rewrite skip_ws_head by reflexivity.
    change (Ascii.eqb ":" ":") with true. cbv iota.
    rewrite parse_value_space, (Hx Hex Hwx) by (reflexivity || lia). reflexivity.
  - change (join ", " (map member_text ((k, x) :: y :: d)))
      with (member_text (k, x) +:+ ", " +:+ join ", " (map member_text (y :: d))).
    rewrite !append_assoc.
    rewrite Hhead. rewrite skip_ws_head by reflexivity.
    change (Ascii.eqb dquote dquote) with true. cbv iota.
    rewrite parse_string_quote. rewrite skip_ws_head by reflexivity.
    change (Ascii.eqb ":" ":") with true. cbv iota.
    rewrite parse_value_space, (Hx Hex Hwx) by (reflexivity || lia).
    change (skip_ws (", " +:+ ?s)) with (String "," (String " " s)). cbv iota.
    change (Ascii.eqb "," ",") with true. cbv iota.
    rewrite parse_members_space, IH; auto; try congruence; try lia.
Qed.

Lemma parse_value_text (v : Val) : reads_back v.
Proof.
  induction v as [|b|z|s|st|l IH|d IH] using Val_nested_ind;
    intros He Hw fuel rest Hf Hr; try discriminate He;
    (destruct fuel as [|fuel]; [simpl in Hf; lia|]).
  - reflexivity.
  - destruct b; reflexivity.
  - destruct (str_of_int_head z) as (c & t & E & Hc).
    pose proof (parse_number_str_of_int z rest Hr) as Hn.
    change (json_text (VInt z)) with (str_of_int z). rewrite E in *.
    change (String c t +:+ rest) with (String c (t +:+ rest)) in *.
    rewrite (parse_value_number_head _ _ _ Hc), Hn. reflexivity.
  - change (json_text (VStr s) +:+ rest)
      with (String dquote ((escape s +:+ String dquote EmptyString) +:+ rest)).
    rewrite append_assoc, parse_value_S, skip_ws_head by reflexivity.
    change (Ascii.eqb dquote dquote) with true. cbv iota.
    change (String dquote EmptyString +:+ rest) with (String dquote rest).
    rewrite parse_string_quote. reflexivity.
  - simpl in He, Hw. destruct l as [|x l]; [reflexivity|].
    change (json_text (VList (x :: l)) +:+ rest)
      with (String "[" ((join ", " (map json_text (x :: l)) +:+ "]") +:+ rest)).
    rewrite append_assoc. change ("]" +:+ rest) with (String "]" rest).
    rewrite parse_value_S, skip_ws_head by reflexivity.
    change (Ascii.eqb "[" dquote) with false. change (Ascii.eqb "[" "[") with true.
    cbv iota.
    change (need (VList (x :: l))) with (S (need_elems (x :: l))) in Hf.
    rewrite (parse_elems_text (x :: l) IH) by (auto; congruence || lia).
    assert (Hx : json_encodable x = true) by (simpl in He; now apply andb_true_iff in He).
    destruct (json_text_head x Hx) as (c & t & E & Hc).
    destruct (value_start_facts c Hc) as (Hws & Hb & _).
    destruct l as [|y l].
    + change (join ", " (map json_text [x])) with (json_text x).
      rewrite E. change (String c t +:+ ?r) with (String c (t +:+ r)).
      rewrite (skip_ws_head c _ Hws), Hb. reflexivity.
    + change (join ", " (map json_text (x :: y :: l)))
        with (json_text x +:+ ", " +:+ join ", " (map json_text (y :: l))).
      rewrite !append_assoc, E. change (String c t +:+ ?r) with (String c (t +:+ r)).
      rewrite (skip_ws_head c _ Hws), Hb. reflexivity.
  - simpl in He, Hw. destruct d as [|[k x] d]; [reflexivity|].
    apply andb_true_iff in Hw as [Hu Hw].
    change (json_text (VDict ((k, x) :: d)) +:+ rest)
      with (String "{" ((join ", " (map member_text ((k, x) :: d)) +:+ "}") +:+ rest)).
    rewrite append_assoc. change ("}" +:+ rest) with (String "}" rest).
    rewrite parse_value_S, skip_ws_head by reflexivity.
    change (Ascii.eqb "{" dquote) with false. change (Ascii.eqb "{" "[") with false.
    change (Ascii.eqb "{" "{") with true. cbv iota.
    change (need (VDict ((k, x) :: d))) with (S (need_members ((k, x) :: d))) in Hf.
    rewrite (parse_members_text ((k, x) :: d) IH) by (auto; congruence || lia).
    rewrite (dict_of_pairs_unique _ Hu).
    destruct d as [|y d].
    + change (join ", " (map member_text [(k, x)])) with (member_text (k, x)).
      unfold member_text, quote. rewrite !append_assoc.
      change (String dquote ?a +:+ ?b) with (String dquote (a +:+ b)).
      rewrite skip_ws_head by reflexivity. reflexivity.
    + change (join ", " (map member_text ((k, x) :: y :: d)))
        with (member_text (k, x) +:+ ", " +:+ join ", " (map member_text (y :: d))).
      unfold member_text at 1, quote. rewrite !append_assoc.
      change (String dquote ?a +:+ ?b) with (String dquote (a +:+ b)).
      rewrite skip_ws_head by reflexivity. reflexivity.
Qed.

Lemma length_append (a b : string) :
  String.length (a +:+ b) = (String.length a + String.length b)%nat.
Proof. induction a as [|c a IH]; simpl; [reflexivity | now rewrite IH]. Qed.

Lemma need_le_length (v : Val) :
  json_encodable v = true -> (need v <= String.length (json_text v))%nat.
Proof.
  induction v as [|b|z|s|st|l IH|d IH] using Val_nested_ind; intros He;
    try discriminate He.
  - simpl. lia.
  - destruct b; simpl; lia.
  - destruct (str_of_int_head z) as (c & t & E & _).
    change (json_text (VInt z)) with (str_of_int z). rewrite E. simpl. lia.
  - simpl. lia.
  - change (need (VList l)) with (S (need_elems l)).
    change (json_text (VList l)) with ("[" +:+ join ", " (map json_text l) +:+ "]").
    rewrite !length_append. simpl String.length.
    enough (need_elems l <= String.length (join ", " (map json_text l)) + 1)%nat by lia.
    simpl in He. clear -IH He.
    induction IH as [|x l Hx Hl IHl]; [simpl; lia|].
    simpl in He. apply andb_true_iff in He as [Hex Hel].
    specialize (Hx Hex). specialize (IHl Hel).
    change (need_elems (x :: l)) with (S (Nat.max (need x) (need_elems l))).
    destruct l as [|y l].
    + change (join ", " (map json_text [x])) with (json_text x).
      change (need_elems []) with 0%nat. lia.
    + change (join ", " (map json_text (x :: y :: l)))
        with (json_text x +:+ ", " +:+ join ", " (map json_text (y :: l))).
      rewrite !length_append. change (String.length ", ") with 2%nat. lia.
  - change (need (VDict d)) with (S (need_members d)).
    change (json_text (VDict d)) with ("{" +:+ join ", " (map member_text d) +:+ "}").
    rewrite !length_append. simpl String.length.
    enough (need_members d <= String.length (join ", " (map member_text d)) + 1)%nat by lia.
    simpl in He. clear -IH He.
    induction IH as [|[k x] d Hx Hd IHd]; [simpl; lia|].
    simpl in He, Hx. apply andb_true_iff in He as [Hex Hel].
    specialize (Hx Hex). specialize (IHd Hel).
    change (need_members ((k, x) :: d)) with (S (Nat.max (need x) (need_members d))).
    assert (Hm : (String.length (json_text x) <= String.length (member_text (k, x)))%nat).
    { unfold member_text. rewrite !length_append. simpl. lia. }
    destruct d as [|y d].
    + change (join ", " (map member_text [(k, x)])) with (member_text (k, x)).
      change (need_members []) with 0%nat. lia.
    + change (join ", " (map member_text ((k, x) :: y :: d)))
        with (member_text (k, x) +:+ ", " +:+ join ", " (map member_text (y :: d))).
      rewrite !length_append. change (String.length ", ") with 2%nat. lia.
Qed.

Lemma append_empty (s : string) : s +:+ EmptyString = s.
Proof. induction s as [|c s IH]; [reflexivity | exact (f_equal (String c) IH)]. Qed.

(** [json.loads(json.dumps(v)) == v] for every serialisable value. *)
Lemma json_loads_dumps (v : Val) (txt : string) :
  wf_val v = true -> json_dumps v = Some txt -> json_loads txt = Some v.
Proof.
  unfold json_dumps. intros Hw. destruct (json_encodable v) eqn:He; [|discriminate].
  intros [= <-]. unfold json_loads.
  pose proof (parse_value_text v He Hw (S (String.length (json_text v))) EmptyString) as H.
  rewrite append_empty in H. rewrite H; [reflexivity | | reflexivity].
  pose proof (need_le_length v He). lia.
Qed.

(** ** [sendtoDCS] and [sendtoDCSSync] *)

Local Open Scope m_scope.

Lemma dict_get_coerce (k : string) (m : Dict) :
  dict_get k (coerce_ints m) = option_map coerce_val (dict_get k m).
Proof.
  induction m as [|[k' v] m IH]; simpl; [reflexivity|].
  destruct (String.eqb k k'); [reflexivity | exact IH].
Qed.

Lemma dict_has_coerce (k : string) (m : Dict) :
  dict_has k (coerce_ints m) = dict_has k m.
Proof.
  unfold dict_has. rewrite dict_get_coerce. now destruct (dict_get k m).
Qed.

Lemma keys_unique_coerce (m : Dict) :
  keys_unique (coerce_ints m) = keys_unique m.
Proof.
  induction m as [|[k v] m IH]; simpl; [reflexivity|].
  fold (coerce_ints m). now rewrite dict_has_coerce, IH.
Qed.

Lemma wf_coerce (m : Dict) : wf_dict m = true -> wf_dict (coerce_ints m) = true.
Proof.
  unfold wf_dict. simpl. rewrite keys_unique_coerce.
  intros H. apply andb_true_iff in H as [Hu Hw]. rewrite Hu. simpl.
  clear Hu. induction m as [|[k v] m IH]; simpl in *; [reflexivity|].
  apply andb_true_iff in Hw as [Hv Hw]. rewrite (IH Hw), andb_true_r.
  now destruct v.
Qed.

Lemma encodable_coerce (m : Dict) :
  json_encodable (VDict m) = true -> json_encodable (VDict (coerce_ints m)) = true.
Proof.
  simpl. induction m as [|[k v] m IH]; simpl; [reflexivity|].
  intros H. apply andb_true_iff in H as [Hv Hm]. rewrite (IH Hm), andb_true_r.
  now destruct v.
Qed.

Lemma int_of_str_of_int (z : Z) : int_of_str (str_of_int z) = Some z.
Proof.
  unfold int_of_str, str_of_int. rewrite NilZero.isi.
  - simpl. now rewrite DecimalZ.of_to.
  - destruct z; simpl; try discriminate.
    intros [= H]. exact (DecimalPos.Unsigned.to_uint_nonnil _ H).
  - destruct z; simpl; try discriminate.
    intros [= H]. exact (DecimalPos.Unsigned.to_uint_nonnil _ H).
Qed.

(** Whatever [sendtoDCS] comes to, the object behind [message] has been
    rewritten in place and no other object has changed. *)
Lemma sendtoDCS_heap (server message : nat) (st : State) :
  heap (snd (sendtoDCS server message st))
  = <[message := coerce_ints (default [] (heap st !! message))]> (heap st).
Proof.
  unfold sendtoDCS, bind, deref, modify, lift, getitem, logmsg, ret, raise. cbn.
  repeat match goal with
         | |- context [match ?x with _ => _ end] =>
             lazymatch x with
             | context [match _ with _ => _ end] => fail
             | _ => destruct x eqn:?; cbn
             end
         end; reflexivity.
Qed.

Lemma sendtoDCS_ok (server message : nat) (st : State) (m srv : Dict)
  (name host p : Val) (port : Z) :
  heap st !! message = Some m ->
  json_encodable (VDict m) = true ->
  server <> message ->
  heap st !! server = Some srv ->
  dict_get "server_name" srv = Some name ->
  dict_get "host" srv = Some host ->
  dict_get "port" srv = Some p ->
  py_int p = Ret port ->
  sendtoDCS server message st
  = (Ret tt,
     set_sent (fun s => s ++ [mkDatagram host port (json_text (VDict (coerce_ints m)))])
       (set_log (fun lg => lg ++ [(DEBUG, "HOST->")])
          (set_heap (fun h => <[message := coerce_ints m]> h) st))).
Proof.
  intros Hm He Hne Hs Hn Hh Hp Hi.
  pose proof (lookup_lt_Some _ _ _ Hm) as Hlt.
  pose proof (encodable_coerce m He) as He'.
  unfold sendtoDCS, bind, deref, modify, lift, getitem, logmsg, ret, raise.
  cbv beta iota. rewrite Hm. cbn [from_option id set_heap heap].
  rewrite list_lookup_insert_eq by exact Hlt. cbn [from_option id].
  unfold json_dumps. rewrite He'. cbv beta iota.
  cbn [set_heap heap set_log]. rewrite list_lookup_insert_ne by congruence.
  rewrite Hs. cbn [from_option id]. rewrite Hn. cbv beta iota.
  rewrite Hh. cbv beta iota. rewrite Hp. cbv beta iota. rewrite Hi. reflexivity.
Qed.

(** Claim C4.  The datagram [sendtoDCS] writes decodes to the message with
    every top-level integer replaced by its decimal string, from which
    [int] reads the same integer back, whatever its size; every other field
    arrives as it was, and no top-level field is an integer any more. *)
Theorem sendtoDCS_roundtrip (server message : nat) (st : State) (m srv : Dict)
  (name host p : Val) (port : Z) :
  heap st !! message = Some m ->
  wf_dict m = true ->
  json_encodable (VDict m) = true ->
  server <> message ->
  heap st !! server = Some srv ->
  dict_get "server_name" srv = Some name ->
  dict_get "host" srv = Some host ->
  dict_get "port" srv = Some p ->
  py_int p = Ret port ->
  exists txt st',
    sendtoDCS server message st = (Ret tt, st') /\
    sent st' = sent st ++ [mkDatagram host port txt] /\
    json_loads txt = Some (VDict (coerce_ints m)) /\
    (forall k z, dict_get k m = Some (VInt z) ->
       dict_get k (coerce_ints m) = Some (VStr (str_of_int z)) /\
       int_of_str (str_of_int z) = Some z) /\
    (forall k v, dict_get k m = Some v -> (forall z, v <> VInt z) ->
       dict_get k (coerce_ints m) = Some v) /\
    (forall k, dict_get k m = None -> dict_get k (coerce_ints m) = None) /\
    (forall k z, dict_get k (coerce_ints m) <> Some (VInt z)).
Proof.
  intros Hm Hw He Hne Hs Hn Hh Hp Hi.
  eexists _, _. split; [exact (sendtoDCS_ok _ _ _ _ _ _ _ _ _ Hm He Hne Hs Hn Hh Hp Hi)|].
  split; [reflexivity|]. split.
  { apply json_loads_dumps; [exact (wf_coerce m Hw)|].
    unfold json_dumps. now rewrite (encodable_coerce m He). }
  repeat split.
  - rewrite dict_get_coerce, H. reflexivity.
  - apply int_of_str_of_int.
  - intros k v Hk Hv. rewrite dict_get_coerce, Hk. simpl.
    destruct v; try reflexivity. now destruct (Hv z).
  - intros k Hk. now rewrite dict_get_coerce, Hk.
  - intros k z. rewrite dict_get_coerce. destruct (dict_get k m) as [[]|]; discriminate.
Qed.

Lemma dict_get_set_eq (k : string) (v : Val) (d : Dict) :
  dict_get k (dict_set k v d) = Some v.
Proof.
  induction d as [|[k' v'] d IH]; simpl.
  - now rewrite String.eqb_refl.
  - destruct (String.eqb k k') eqn:E; simpl; rewrite E; [reflexivity | exact IH].
Qed.

Lemma dict_get_set_ne (k k' : string) (v : Val) (d : Dict) :
  k <> k' -> dict_get k (dict_set k' v d) = dict_get k d.
Proof.
  intros Hne. apply String.eqb_neq in Hne.
  induction d as [|[k2 v2] d IH]; simpl.
  - now rewrite Hne.
  - destruct (String.eqb k' k2) eqn:E; simpl.
    + apply String.eqb_eq in E. subst k2. now rewrite Hne.
    + destruct (String.eqb k k2); [reflexivity | exact IH].
Qed.

Lemma coerce_ints_fixed (m : Dict) :
  coerce_ints m = m <-> (forall k z, ~ In (k, VInt z) m).
Proof.
  induction m as [|[k v] m IH]; simpl.
  - split; [tauto | reflexivity].
  - fold (coerce_ints m). split.
    + intros [= Hv Hm] k' z [[= -> ->] | Hin]; [discriminate Hv|].
      exact (proj1 IH Hm k' z Hin).
    + intros H. f_equal.
      * destruct v; try reflexivity. exfalso. apply (H k z). now left.
      * apply IH. intros k' z Hin. apply (H k' z). now right.
Qed.

Lemma insert_alter_same {A} (l : list A) (i : nat) (f : A -> A) (x : A) :
  <[i := x]> (alter f i l) = <[i := x]> l.
Proof.
  revert i. induction l as [|a l IH]; intros [|i]; simpl; try reflexivity.
  f_equal. apply IH.
Qed.

Lemma sendtoDCSSync_heap (server message : nat) (uuid : string) (st : State) :
  heap (snd (sendtoDCSSync server message uuid st))
  = <[message := coerce_ints (dict_set "channel" (VStr (sync_token uuid))
                               (default [] (heap st !! message)))]> (heap st).
Proof.
  unfold sendtoDCSSync, bind, setitem, modify, ret. cbv beta iota.
  match goal with
  | |- context [sendtoDCS server message ?s] =>
      pose proof (sendtoDCS_heap server message s) as H;
      destruct (sendtoDCS server message s) as [[[]|e] s'] eqn:E
  end; cbn [snd set_listeners heap] in *; rewrite H; cbn [set_heap set_futures heap];
    rewrite list_lookup_alter_eq, insert_alter_same;
    destruct (heap st !! message) as [m|] eqn:Hm;
    cbn [fmap option_fmap option_map from_option id]; try reflexivity;
    apply lookup_ge_None in Hm; rewrite !list_insert_ge; auto.
Qed.

(** Claim C10, as amended: both calls rewrite the caller's dictionary object in
    place, whatever they come to; the object then differs from what was
    passed exactly when a top-level integer was in it and, for
    [sendtoDCSSync], also whenever its channel was not already the token. *)
Theorem send_mutates_in_place (server message : nat) (uuid : string)
  (st : State) (m : Dict) :
  heap st !! message = Some m ->
  heap (snd (sendtoDCS server message st)) !! message = Some (coerce_ints m) /\
  heap (snd (sendtoDCSSync server message uuid st)) !! message
    = Some (coerce_ints (dict_set "channel" (VStr (sync_token uuid)) m)) /\
  (forall k z, dict_get k m = Some (VInt z) ->
     dict_get k (coerce_ints m) = Some (VStr (str_of_int z))) /\
  dict_get "channel" (coerce_ints (dict_set "channel" (VStr (sync_token uuid)) m))
    = Some (VStr (sync_token uuid)) /\
  (coerce_ints m = m <-> (forall k z, ~ In (k, VInt z) m)) /\
  (dict_get "channel" m <> Some (VStr (sync_token uuid)) ->
   coerce_ints (dict_set "channel" (VStr (sync_token uuid)) m) <> m).
Proof.
  intros Hm. pose proof (lookup_lt_Some _ _ _ Hm) as Hlt.
  assert (Hch : dict_get "channel"
                  (coerce_ints (dict_set "channel" (VStr (sync_token uuid)) m))
                = Some (VStr (sync_token uuid))).
  { now rewrite dict_get_coerce, dict_get_set_eq. }
  repeat split.
  - rewrite sendtoDCS_heap, Hm. now apply list_lookup_insert_eq.
  - rewrite sendtoDCSSync_heap, Hm. now apply list_lookup_insert_eq.
  - intros k z Hk. now rewrite dict_get_coerce, Hk.
  - exact Hch.
  - apply coerce_ints_fixed.
  - apply coerce_ints_fixed.
  - intros Hne Heq. rewrite Heq in Hch. contradiction.
Qed.

(** ** Pending requests: [sendtoDCSSync], [wait_for] and the reply *)

Ltac destruct_matches :=
  repeat match goal with
         | |- context [match ?x with _ => _ end] =>
             lazymatch x with
             | context [match _ with _ => _ end] => fail
             | _ => destruct x eqn:?; cbn
             end
         end.

Ltac mred :=
  cbv beta iota delta [bind ret raise gets modify lift try_catch getitem as_str
                       as_name config_get logmsg deref setitem alloc].

Ltac sred :=
  cbn [heap globals listeners futures embeds eventListeners db_servers db_persistence
       sent delivered settings_changes log set_heap set_globals set_listeners
       set_futures set_embeds set_db_servers set_db_persistence set_sent
       set_delivered set_settings_changes set_log fst snd].

Ltac sred_in H :=
  cbn [heap globals listeners futures embeds eventListeners db_servers db_persistence
       sent delivered settings_changes log set_heap set_globals set_listeners
       set_futures set_embeds set_db_servers set_db_persistence set_sent
       set_delivered set_settings_changes set_log fst snd] in H.

Lemma sendtoDCS_frame (server message : nat) (st : State) :
  let st' := snd (sendtoDCS server message st) in
  globals st' = globals st /\ listeners st' = listeners st /\
  futures st' = futures st /\ eventListeners st' = eventListeners st /\
  length (heap st') = length (heap st).
Proof.
  unfold sendtoDCS, bind, deref, modify, lift, getitem, logmsg, ret, raise. cbn.
  destruct_matches; rewrite ?length_insert; auto.
Qed.

Lemma sendtoDCSSync_ok (server message : nat) (uuid : string) (st st1 : State)
  (fid : nat) :
  sendtoDCSSync server message uuid st = (Ret fid, st1) ->
  fid = length (futures st) /\
  futures st1 = futures st ++ [Pending] /\
  listeners st1 = <[sync_token uuid := fid]> (listeners st) /\
  globals st1 = globals st /\
  eventListeners st1 = eventListeners st.
Proof.
  unfold sendtoDCSSync, bind, setitem, modify, ret. cbv beta iota.
  match goal with
  | |- context [sendtoDCS server message ?s] =>
      pose proof (sendtoDCS_frame server message s) as H;
      destruct (sendtoDCS server message s) as [[[]|e] s'] eqn:E
  end; [|discriminate].
  cbn [snd] in H. destruct H as (Hg & Hl & Hf & He & _).
  intros [= <- <-]. cbn. rewrite Hg, Hl, Hf, He. auto.
Qed.

Lemma set_log_set_log (f g : list LogEntry -> list LogEntry) (st : State) :
  set_log f (set_log g st) = set_log (fun l => f (g l)) st.
Proof. reflexivity. Qed.

Lemma collect_eq (outcomes : list (Res Val)) (st : State) :
  collect outcomes st
  = (Ret (results_of outcomes), set_log (fun lg => lg ++ collect_log outcomes) st).
Proof.
  revert st. induction outcomes as [|[v|e] outs IH]; intros st.
  - destruct st. unfold set_log. cbn. now rewrite app_nil_r.
  - cbn [collect]. unfold bind. rewrite IH. unfold ret. cbn.
    destruct (truthy v); reflexivity.
  - cbn [collect]. unfold bind, logmsg, modify. rewrite IH.
    rewrite set_log_set_log. cbn. f_equal. destruct st. unfold set_log. cbn.
    now rewrite <- app_assoc.
Qed.

(** The reply on a synchronous channel whose request is registered. *)
Lemma dispatch_sync (data : Dict) (st : State) (ch : string) (fid : nat) :
  dict_get "channel" data = Some (VStr ch) ->
  starts_with "sync" ch = true ->
  listeners st !! ch = Some fid ->
  dispatch data st
  = (Ret tt,
     set_listeners (fun ls => delete ch ls)
       (match futures st !! fid with
        | Some Pending =>
            set_futures (fun fs => <[fid := Done (first_result (eventListeners st) data)]> fs)
        | _ => fun s => s
        end
          (set_log (fun lg => lg ++ collect_log (map (fun l : Listener => l data)
                                                    (eventListeners st)))
             (set_delivered (fun t => t ++ imap (fun i _ => (i, data)) (eventListeners st))
                st)))).
Proof.
  intros Hc Hs Hl. unfold dispatch. mred. rewrite collect_eq. mred. rewrite Hc. mred.
  rewrite Hs. mred. sred. rewrite Hl. mred. sred. unfold first_result.
  destruct (futures st !! fid) as [[]|]; reflexivity.
Qed.

Lemma wait_for_pending (fid : nat) (st : State) :
  futures st !! fid = Some Pending ->
  wait_for fid st
  = (Raise TimeoutError, set_futures (fun fs => <[fid := Cancelled]> fs) st).
Proof. intros H. unfold wait_for. now rewrite H. Qed.

Lemma register_servers_resume_pending (server fid : nat) (st : State) :
  futures st !! fid = Some Pending ->
  register_servers_resume server fid st
  = (Ret tt,
     set_heap (fun h => alter (dict_set "status" (VStatus SHUTDOWN)) server h)
       (set_futures (fun fs => <[fid := Cancelled]> fs) st)).
Proof.
  intros H. unfold register_servers_resume. mred. rewrite (wait_for_pending _ _ H).
  reflexivity.
Qed.

(** Claim C9, as amended: the timeout gives the caller [TimeoutError] and leaves
    the record of the server as it was; it is the loop of
    [register_servers] that, on the timeout of its own probe, sets the status
    of the server object it probed to [SHUTDOWN]. *)
Theorem timeout_and_status (server message : nat) (uuid name : string)
  (st st1 : State) (fid : nat) :
  sendtoDCSSync server message uuid st = (Ret fid, st1) ->
  server <> message ->
  globals st !! name = Some server ->
  (exists st2,
     wait_for fid st1 = (Raise TimeoutError, st2) /\
     lookup name st2 = lookup name st) /\
  (exists st2,
     register_servers_resume server fid st1 = (Ret tt, st2) /\
     futures st2 !! fid = Some Cancelled /\
     lookup name st2 = dict_set "status" (VStatus SHUTDOWN) <$> lookup name st /\
     forall d, lookup name st = Some d ->
       exists d', lookup name st2 = Some d' /\
                  dict_get "status" d' = Some (VStatus SHUTDOWN)).
Proof.
  intros Hs Hne Hg.
  destruct (sendtoDCSSync_ok _ _ _ _ _ _ Hs) as (-> & Hf & Hl & Hg1 & _).
  pose proof (sendtoDCSSync_heap server message uuid st) as Hh. rewrite Hs in Hh.
  cbn [snd] in Hh.
  assert (Hp : futures st1 !! length (futures st) = Some Pending).
  { rewrite Hf. apply list_lookup_middle. reflexivity. }
  assert (Hsrv : heap st1 !! server = heap st !! server).
  { rewrite Hh. apply list_lookup_insert_ne. congruence. }
  split.
  - eexists. split; [apply (wait_for_pending _ _ Hp)|].
    unfold lookup. sred. now rewrite Hg1, Hg, Hsrv.
  - eexists. split; [apply (register_servers_resume_pending _ _ _ Hp)|]. sred.
    assert (Hlk : lookup name
                    (set_heap (fun h => alter (dict_set "status" (VStatus SHUTDOWN)) server h)
                       (set_futures (fun fs => <[length (futures st) := Cancelled]> fs) st1))
                  = dict_set "status" (VStatus SHUTDOWN) <$> lookup name st).
    { unfold lookup. sred. rewrite Hg1, Hg, list_lookup_alter_eq, Hsrv. reflexivity. }
    split; [|split; [exact Hlk|]].
    + apply list_lookup_insert_eq. apply lookup_lt_Some in Hp. exact Hp.
    + intros d Hd. rewrite Hlk, Hd. eexists. split; [reflexivity|].
      apply dict_get_set_eq.
Qed.

(** ** [rename_server] *)

Lemma lookup_alloc_old (h : list Dict) (d : Dict) (l : nat) (x : Dict) :
  h !! l = Some x -> (h ++ [d]) !! l = Some x.
Proof. intros H. rewrite lookup_app_l; [exact H | now apply lookup_lt_Some in H]. Qed.

Lemma lookup_ext (n : string) (st st' : State) :
  heap st' = heap st -> globals st' = globals st -> lookup n st' = lookup n st.
Proof. unfold lookup. now intros -> ->. Qed.

(** What follows the registry in [rename_server] returns normally and keeps
    the objects, the registry and the pending requests. *)
Lemma rename_rest_frame (old_name new_name : string) (update_settings : bool)
  (st : State) :
  exists st',
    (rename_embeds old_name new_name >>
     db_rename old_name new_name >>
     if update_settings
     then modify (set_settings_changes (fun l => l ++ [(old_name, new_name)]))
     else ret tt)%M st = (Ret tt, st') /\
    heap st' = heap st /\ globals st' = globals st /\
    listeners st' = listeners st /\ futures st' = futures st /\
    eventListeners st' = eventListeners st.
Proof.
  unfold rename_embeds, db_rename. mred.
  destruct (embeds st !! old_name); mred; sred;
    destruct (servers_clash _ _ _ || embeds_clash _ _ _); mred; sred;
    destruct update_settings; mred; eexists; split; try reflexivity; auto.
Qed.

Lemma rename_server_split (old_name new_name : string) (update_settings : bool)
  (st : State) :
  rename_server old_name new_name update_settings st
  = match rename_registry old_name new_name st with
    | (Ret _, st1) =>
        (rename_embeds old_name new_name >>
         db_rename old_name new_name >>
         if update_settings
         then modify (set_settings_changes (fun l => l ++ [(old_name, new_name)]))
         else ret tt)%M st1
    | (Raise e, st1) => (Raise e, st1)
    end.
Proof. reflexivity. Qed.

Lemma rename_registry_fresh (old_name new_name : string) (st : State) (l : nat) :
  globals st !! old_name = Some l -> globals st !! new_name = None ->
  rename_registry old_name new_name st
  = (Ret tt,
     set_globals (fun g => delete old_name g)
       (set_heap (fun h => alter (dict_set "server_name" (VStr new_name)) (length (heap st)) h)
          (set_globals (fun g => <[new_name := length (heap st)]> g)
             (set_heap (fun h => h ++ [default [] (heap st !! l)]) st)))).
Proof.
  intros Hold Hnew. assert (Hne : old_name <> new_name) by congruence.
  unfold rename_registry. mred. rewrite Hnew, Hold. mred. sred.
  rewrite lookup_insert_ne, Hold by congruence. reflexivity.
Qed.

Lemma rename_registry_taken (old_name new_name : string) (st : State) (l l2 : nat) :
  globals st !! old_name = Some l -> globals st !! new_name = Some l2 ->
  rename_registry old_name new_name st
  = (Ret tt, set_globals (fun g => delete old_name g) st).
Proof.
  intros Hold Hnew. unfold rename_registry. mred. rewrite Hnew. mred. now rewrite Hold.
Qed.

Lemma rename_registry_absent (old_name new_name : string) (st : State) :
  globals st !! old_name = None ->
  rename_registry old_name new_name st = (Raise (KeyError old_name), st).
Proof.
  intros Hold. unfold rename_registry. mred.
  destruct (globals st !! new_name); mred; now rewrite Hold.
Qed.

(** Claim C5, as amended: with [old] registered and [new] not, the record moves
    to [new], a copy whose [server_name] is [new] and whose other entries are
    those of the record, and the pending requests are not touched; with
    [new] registered already its record stays and [old] is dropped; with
    [old] not registered the call raises [KeyError] and changes nothing. *)
Theorem rename_server_moves (old_name new_name : string) (update_settings : bool)
  (st : State) :
  (forall l d, globals st !! old_name = Some l -> heap st !! l = Some d ->
     globals st !! new_name = None ->
     exists st',
       rename_server old_name new_name update_settings st = (Ret tt, st') /\
       lookup old_name st' = None /\
       lookup new_name st' = Some (dict_set "server_name" (VStr new_name) d) /\
       (forall k, k <> "server_name" ->
          dict_get k (dict_set "server_name" (VStr new_name) d) = dict_get k d) /\
       (forall n dn, n <> old_name -> n <> new_name ->
          lookup n st = Some dn -> lookup n st' = Some dn) /\
       listeners st' = listeners st /\ futures st' = futures st) /\
  (forall l l2, globals st !! old_name = Some l -> globals st !! new_name = Some l2 ->
     old_name <> new_name ->
     exists st',
       rename_server old_name new_name update_settings st = (Ret tt, st') /\
       lookup old_name st' = None /\
       lookup new_name st' = lookup new_name st /\
       (forall n, n <> old_name -> lookup n st' = lookup n st) /\
       listeners st' = listeners st /\ futures st' = futures st) /\
  (globals st !! old_name = None ->
     rename_server old_name new_name update_settings st = (Raise (KeyError old_name), st)).
Proof.
  split; [|split].
  - intros l d Hold Hd Hnew. assert (Hne : old_name <> new_name) by congruence.
    rewrite rename_server_split, (rename_registry_fresh _ _ _ _ Hold Hnew).
    match goal with |- context [(_ >> _)%M ?s] => set (st1 := s) end.
    destruct (rename_rest_frame old_name new_name update_settings st1)
      as (st' & -> & Hh & Hg & Hl & Hf & _).
    exists st'. split; [reflexivity|].
    rewrite !(lookup_ext _ st1 st' Hh Hg).
    split; [|split; [|split; [|split; [|split]]]].
    + unfold lookup, st1. sred. now rewrite lookup_delete_eq.
    + unfold lookup, st1. sred.
      rewrite lookup_delete_ne, lookup_insert_eq by congruence.
      rewrite list_lookup_alter_eq, Hd. cbn [from_option id].
      rewrite lookup_app_r, Nat.sub_diag by lia. reflexivity.
    + intros k Hk. now apply dict_get_set_ne.
    + intros n dn H1 H2. rewrite (lookup_ext _ st1 st' Hh Hg).
      unfold lookup, st1. sred.
      rewrite lookup_delete_ne, lookup_insert_ne by congruence.
      destruct (globals st !! n) as [ln|]; [|discriminate]. intros Hn.
      rewrite list_lookup_alter_ne; [now apply lookup_alloc_old|].
      apply lookup_lt_Some in Hn. lia.
    + rewrite Hl. reflexivity.
    + rewrite Hf. reflexivity.
  - intros l l2 Hold Hnew Hne.
    rewrite rename_server_split, (rename_registry_taken _ _ _ _ _ Hold Hnew).
    match goal with |- context [(_ >> _)%M ?s] => set (st1 := s) end.
    destruct (rename_rest_frame old_name new_name update_settings st1)
      as (st' & -> & Hh & Hg & Hl & Hf & _).
    exists st'. split; [reflexivity|].
    rewrite !(lookup_ext _ st1 st' Hh Hg).
    split; [|split; [|split; [|split]]].
    + unfold lookup, st1. sred. now rewrite lookup_delete_eq.
    + unfold lookup, st1. sred. now rewrite lookup_delete_ne by congruence.
    + intros n Hn. rewrite (lookup_ext _ st1 st' Hh Hg).
      unfold lookup, st1. sred. now rewrite lookup_delete_ne by congruence.
    + rewrite Hl. reflexivity.
    + rewrite Hf. reflexivity.
  - intros Hold. rewrite rename_server_split.
    now rewrite (rename_registry_absent _ _ _ Hold).
Qed.

(** ** [register_server] *)

Lemma heap_kept_refl (st : State) : heap_kept st st.
Proof. intros l d H. exact H. Qed.

Lemma heap_kept_trans (a b c : State) : heap_kept a b -> heap_kept b c -> heap_kept a c.
Proof. intros H1 H2 l d H. apply H2, H1, H. Qed.

Lemma register_record_ok (env : Env) (data : Dict) (name inst : string)
  (st st1 : State) (server : nat) :
  register_record env data name inst st = (Ret server, st1) ->
  globals st1 = <[name := server]> (globals st) /\
  heap_kept st st1 /\
  listeners st1 = listeners st /\ futures st1 = futures st /\
  eventListeners st1 = eventListeners st /\
  db_servers st1 = db_servers st.
Proof.
  unfold register_record. mred.
  destruct (globals st !! name) as [l|]; mred; sred.
  - destruct (dict_get "channel" data) as [[]|]; mred; sred;
      try (intros [= ]; fail).
    intros [= <- <-]. sred. repeat split; auto.
    intros l0 x Hx. sred.
    rewrite !list_lookup_alter_ne by (apply lookup_lt_Some in Hx; lia).
    now apply lookup_alloc_old.
  - destruct (config env inst) as [sec|]; mred; sred; try (intros [= ]; fail).
    destruct (sec "CHAT_CHANNEL"); mred; sred; try (intros [= ]; fail).
    destruct (sec "STATUS_CHANNEL"); mred; sred; try (intros [= ]; fail).
    destruct (sec "ADMIN_CHANNEL"); mred; sred; try (intros [= ]; fail).
    destruct (dict_get "channel" data) as [[]|]; mred; sred;
      try (intros [= ]; fail).
    intros [= <- <-]. sred. repeat split; auto.
    intros l0 x Hx. sred.
    rewrite !list_lookup_alter_ne by (apply lookup_lt_Some in Hx; lia).
    now apply lookup_alloc_old.
Qed.

(** The only [return] inside the [try] is the one of the port conflict. *)
Lemma register_db_early (env : Env) (data : Dict) (name : string) (server : nat)
  (st st' : State) (b : bool) :
  register_db env data name server st = (Ret (Some b), st') ->
  b = false /\
  globals st' = delete name (globals st) /\ heap st' = heap st /\
  listeners st' = listeners st /\ futures st' = futures st /\
  db_servers st' = db_servers st /\
  exists r, In r (db_servers st) /\ sr_agent r = node env /\
            sr_name r <> name /\ findDCSInstallations env (sr_name r) <> [].
Proof.
  unfold register_db. mred.
  destruct (dict_get "host" data) as [h|]; mred; [|intros [= ]].
  destruct (dict_get "port" data) as [p|]; mred; [|intros [= ]].
  destruct (sql_text h) as [host|]; mred; [|intros [= ]].
  destruct (sql_int p) as [port|]; mred; [|intros [= ]].
  set (rows := filter _ (db_servers st)).
  assert (Hin : forall r, r ∈ rows ->
            (String.eqb (sr_agent r) (node env) && String.eqb (sr_host r) host
             && (sr_port r =? port) = true) /\ r ∈ db_servers st).
  { intros r Hr. unfold rows in Hr. apply list_elem_of_filter in Hr. exact Hr. }
  clearbody rows. destruct rows as [|r [|r' rows]]; mred; try (intros [= ]; fail).
  destruct (String.eqb (sr_name r) name) eqn:En; cbn [negb]; mred; sred;
    try (intros [= ]; fail).
  destruct (findDCSInstallations env (sr_name r)) eqn:Ei; mred; sred.
  - match goal with |- context [rename_server ?a ?b ?c ?s] =>
      destruct (rename_server a b c s) as [[[]|e] s'] end;
      mred; intros [= ].
  - intros [= <- <-]. sred. repeat split; auto.
    exists r. destruct (Hin r ltac:(left)) as [Hp Hr].
    apply andb_true_iff in Hp as [Hp _]. apply andb_true_iff in Hp as [Hp _].
    apply String.eqb_eq in Hp. apply String.eqb_neq in En.
    apply list_elem_of_In in Hr. repeat split; auto. congruence.
Qed.

(** Claim C2, as amended: a registration rejected for a missing configuration or
    a wrong hook version changes neither the registry nor any record; one
    rejected for a port conflict leaves the registry without a record for the
    announced name, whether or not there was one before, and keeps the
    record of every other name, the conflicting old identity among them. *)
Theorem register_server_rejected (env : Env) (data : Dict) (st st' : State) :
  register_server env data st = (Ret false, st') ->
  exists name,
    dict_get "server_name" data = Some (VStr name) /\
    listeners st' = listeners st /\ futures st' = futures st /\
    (forall n dn, n <> name -> lookup n st = Some dn -> lookup n st' = Some dn) /\
    (((findDCSInstallations env name = [] \/
       exists hv, dict_get "hook_version" data = Some hv /\
                  is_str (version env) hv = false) /\
      globals st' = globals st /\ heap st' = heap st)
     \/
     (findDCSInstallations env name <> [] /\
      (exists hv, dict_get "hook_version" data = Some hv /\
                  is_str (version env) hv = true) /\
      lookup name st' = None /\
      exists r, In r (db_servers st) /\ sr_agent r = node env /\
                sr_name r <> name /\ findDCSInstallations env (sr_name r) <> [])).
Proof.
  unfold register_server. mred.
  destruct (dict_get "server_name" data) as [nm|] eqn:Hn; mred; [|intros [= ]].
  destruct nm as [| | |name| | |]; mred; try (intros [= ]; fail).
  destruct (findDCSInstallations env name) as [|inst insts] eqn:Hi; mred; sred.
  { intros [= <-]. exists name. sred. repeat split; auto. }
  destruct (dict_get "hook_version" data) as [hv|] eqn:Hv; mred; [|intros [= ]].
  destruct (is_str (version env) hv) eqn:Hs; cbn [negb]; mred; sred.
  2:{ intros [= <-]. exists name. sred. repeat split; auto.
      left. split; [right; eauto | auto]. }
  match goal with |- context [register_record env data name inst ?s] =>
    destruct (register_record env data name inst s) as [[server|e] st1] eqn:Hr end;
    [|intros [= ]].
  apply register_record_ok in Hr. sred_in Hr.
  destruct Hr as (Hg & Hk & Hl & Hf & _ & Hdb).
  destruct (register_db env data name server st1) as [[[b|]|e] st2] eqn:Hd;
    mred; try (intros [= ]; fail).
  intros [= -> <-].
  apply register_db_early in Hd. destruct Hd as (_ & Hg2 & Hh2 & Hl2 & Hf2 & _ & r & Hr).
  exists name. split; [reflexivity|]. split; [congruence|]. split; [congruence|].
  split.
  - intros n dn Hne. unfold lookup. rewrite Hg2, Hg, Hh2.
    rewrite lookup_delete_ne, lookup_insert_ne by congruence.
    destruct (globals st !! n); [|discriminate]. apply Hk.
  - right. split; [congruence|]. split; [eauto|]. split.
    + unfold lookup. now rewrite Hg2, lookup_delete_eq.
    + exists r. rewrite <- Hdb. exact Hr.
Qed.

(** ** [RequestHandler.handle] *)

Lemma same_requests_refl (st : State) : same_requests st st.
Proof. repeat split. Qed.

Lemma same_requests_trans (a b c : State) :
  same_requests a b -> same_requests b c -> same_requests a c.
Proof. unfold same_requests. intuition congruence. Qed.

Lemma rename_server_requests (old_name new_name : string) (u : bool) (st : State) :
  same_requests st (snd (rename_server old_name new_name u st)).
Proof.
  unfold rename_server, rename_registry, rename_embeds, db_rename, same_requests.
  mred. sred. destruct_matches; sred; auto.
Qed.

Lemma register_record_requests (env : Env) (data : Dict) (name inst : string)
  (st : State) :
  same_requests st (snd (register_record env data name inst st)).
Proof.
  unfold register_record, same_requests. mred. sred. destruct_matches; sred; auto.
Qed.

Lemma register_db_requests (env : Env) (data : Dict) (name : string) (server : nat)
  (st : State) :
  same_requests st (snd (register_db env data name server st)).
Proof.
  unfold register_db. mred.
  destruct (dict_get "host" data) as [h|]; mred; [|apply same_requests_refl].
  destruct (dict_get "port" data) as [p|]; mred; [|apply same_requests_refl].
  destruct (sql_text h) as [host|]; mred; [|apply same_requests_refl].
  destruct (sql_int p) as [port|]; mred; [|apply same_requests_refl].
  destruct (filter _ (db_servers st)) as [|r [|r' rows]]; mred; sred;
    try (repeat split; fail).
  destruct (negb (String.eqb (sr_name r) name)); mred; sred; try (repeat split; fail).
  destruct (findDCSInstallations env (sr_name r)); mred; sred;
    try (repeat split; fail).
  match goal with |- context [rename_server ?a ?b ?c ?s] =>
    pose proof (rename_server_requests a b c s) as H;
    destruct (rename_server a b c s) as [[[]|e] s'] end;
    mred; sred; cbn [snd] in H; unfold same_requests in *; sred_in H; exact H.
Qed.

Lemma register_server_requests (env : Env) (data : Dict) (st : State) :
  same_requests st (snd (register_server env data st)).
Proof.
  unfold register_server. mred.
  destruct (dict_get "server_name" data) as [nm|]; mred; [|apply same_requests_refl].
  destruct nm as [| | |name| | |]; mred; try apply same_requests_refl.
  destruct (findDCSInstallations env name) as [|inst insts]; mred; sred;
    [repeat split|].
  destruct (dict_get "hook_version" data) as [hv|]; mred; [|repeat split].
  destruct (negb (is_str (version env) hv)); mred; sred; [repeat split|].
  match goal with |- context [register_record env data name inst ?s] =>
    pose proof (register_record_requests env data name inst s) as H1;
    destruct (register_record env data name inst s) as [[server|e] st1] end;
    cbn [snd] in H1; [|exact H1].
  pose proof (register_db_requests env data name server st1) as H2.
  destruct (register_db env data name server st1) as [[[b|]|e] st2];
    mred; cbn [snd] in H2;
    unfold same_requests in *; sred; sred_in H1; sred_in H2; intuition congruence.
Qed.

Lemma dispatch_delivered (data : Dict) (st : State) :
  delivered (snd (dispatch data st))
  = delivered st ++ imap (fun i _ => (i, data)) (eventListeners st).
Proof.
  unfold dispatch. mred. rewrite collect_eq. mred.
  destruct_matches; reflexivity.
Qed.

Lemma guard_requests (env : Env) (data : Dict) (cmd : Val) (st : State) :
  same_requests st (snd (guard env data cmd st)).
Proof.
  unfold guard. destruct (is_str "registerDCSServer" cmd).
  - apply register_server_requests.
  - unfold same_requests. mred. destruct_matches; sred; auto.
Qed.

Lemma handle_dict (env : Env) (raw : string) (st : State) (d : Dict) (cmd : Val) :
  json_decode env (strip raw) = Some (VDict d) ->
  dict_has "server_name" d = true ->
  dict_get "command" d = Some cmd ->
  handle env raw st
  = match guard env d cmd (set_log (fun lg => lg ++ [(DEBUG, "->HOST")]) st) with
    | (Ret true, st1) => dispatch d st1
    | (Ret false, st1) => (Ret tt, st1)
    | (Raise e, st1) => (Raise e, st1)
    end.
Proof.
  intros Hj Hh Hc. unfold handle. rewrite Hj. cbn [py_contains]. mred.
  rewrite Hh. cbn [negb]. mred. rewrite Hc. mred.
  destruct (guard env d cmd _) as [[[]|e] st1]; reflexivity.
Qed.

Lemma dict_has_get (k : string) (d : Dict) (v : Val) :
  dict_get k d = Some v -> dict_has k d = true.
Proof. unfold dict_has. now intros ->. Qed.

(** The guard of lines 351 to 354 on a command other than the registration:
    the event is dropped, by a return or, for a name that cannot be a key,
    by the [TypeError] of the look-up. *)
Lemma guard_unregistered (env : Env) (d : Dict) (nm cmd : Val) (st : State) :
  dict_get "server_name" d = Some nm ->
  is_str "registerDCSServer" cmd = false ->
  unregistered nm st ->
  guard env d cmd st
  = match nm with
    | VList _ | VDict _ => (Raise TypeError, st)
    | _ => (Ret false,
            set_log (fun lg => lg ++
              [(DEBUG, "Command for unregistered server, ignoring")]) st)
    end.
Proof.
  intros Hn Hc Hu. unfold guard. rewrite Hc. mred. rewrite Hn. mred.
  destruct nm as [| | |name| | |]; mred; try reflexivity.
  destruct Hu as [Hg | (l & srv & Hg & Hh & Hs)]; rewrite Hg; mred.
  - reflexivity.
  - rewrite Hh. cbn [from_option id]. rewrite Hs. reflexivity.
Qed.

(** Claim C6, as amended: a datagram that decodes to an object without
    [server_name] is logged and dropped, with no other effect and no
    exception; a datagram that does not decode, and one without [command],
    leave the handler by an exception, the state untouched but for the log. *)
Theorem handle_malformed (env : Env) (raw : string) (st : State) :
  (forall d, json_decode env (strip raw) = Some (VDict d) ->
     dict_has "server_name" d = false ->
     handle env raw st
     = (Ret tt, set_log (fun lg => lg ++
                          [(WARNING, "Message without server_name retrieved")]) st)) /\
  (json_decode env (strip raw) = None ->
     handle env raw st = (Raise JSONDecodeError, st)) /\
  (forall d, json_decode env (strip raw) = Some (VDict d) ->
     dict_has "server_name" d = true ->
     dict_get "command" d = None ->
     handle env raw st
     = (Raise (KeyError "command"),
        set_log (fun lg => lg ++ [(DEBUG, "->HOST")]) st)).
Proof.
  unfold handle. repeat split.
  - intros d -> Hh. cbn [py_contains]. mred. now rewrite Hh.
  - now intros ->.
  - intros d -> Hh Hc. cbn [py_contains]. mred. rewrite Hh. cbn [negb]. mred.
    now rewrite Hc.
Qed.

(** Claim C8.  When the event of a synchronous channel passes the guard, a
    request is pending on that channel and two or more listeners have a
    result, the future of the request gets the first of the results, in the
    order of the listeners, no other future changes, and the token leaves
    [self.listeners]. *)
Theorem sync_reply_first_result (env : Env) (raw : string) (st st1 : State)
  (d : Dict) (cmd : Val) (ch : string) (fid : nat) :
  json_decode env (strip raw) = Some (VDict d) ->
  dict_has "server_name" d = true ->
  dict_get "command" d = Some cmd ->
  guard env d cmd (set_log (fun lg => lg ++ [(DEBUG, "->HOST")]) st) = (Ret true, st1) ->
  dict_get "channel" d = Some (VStr ch) ->
  starts_with "sync" ch = true ->
  listeners st !! ch = Some fid ->
  futures st !! fid = Some Pending ->
  (2 <= length (results_of (map (fun l : Listener => l d) (eventListeners st))))%nat ->
  exists st2 r rest,
    results_of (map (fun l : Listener => l d) (eventListeners st)) = r :: rest /\
    handle env raw st = (Ret tt, st2) /\
    futures st2 !! fid = Some (Done r) /\
    (forall f, f <> fid -> futures st2 !! f = futures st !! f) /\
    listeners st2 !! ch = None /\
    listeners st2 = delete ch (listeners st) /\
    delivered st2 = delivered st ++ imap (fun i _ => (i, d)) (eventListeners st).
Proof.
  intros Hj Hh Hc Ha Hch Hs Hl Hf Hlen.
  pose proof (guard_requests env d cmd (set_log (fun lg => lg ++ [(DEBUG, "->HOST")]) st))
    as Hfr. rewrite Ha in Hfr. destruct Hfr as (Hl1 & Hf1 & He1 & Hd1).
  cbn [snd] in *. sred_in Hl1. sred_in Hf1. sred_in He1. sred_in Hd1.
  destruct (results_of (map (fun l : Listener => l d) (eventListeners st)))
    as [|r rest] eqn:Hres; [simpl in Hlen; lia|].
  exists (snd (dispatch d st1)), r, rest. split; [reflexivity|].
  rewrite (handle_dict env raw st d cmd Hj Hh Hc), Ha.
  assert (Hl' : listeners st1 !! ch = Some fid) by now rewrite Hl1.
  rewrite (dispatch_sync d st1 ch fid Hch Hs Hl'). cbn [snd].
  rewrite Hf1, Hf. sred. unfold first_result. rewrite He1, Hres, Hl1, Hf1, Hd1.
  split; [reflexivity|]. split.
  { apply list_lookup_insert_eq. now apply lookup_lt_Some in Hf. }
  split. { intros f Hne. apply list_lookup_insert_ne. congruence. }
  split. { apply lookup_delete_eq. }
  split; reflexivity.
Qed.

(** ** The poll loop of the intercom *)

Ltac ared :=
  cbv beta iota delta [bind ret raise gets modify lift try_catch getitem
                       Agent.logmsg Agent.emit Agent.sendtoMaster].

Ltac asred :=
  cbn [Agent.servers Agent.intercom_tbl Agent.next_id Agent.events Agent.log
       Agent.set_intercom_tbl Agent.set_next_id Agent.set_events Agent.set_log
       fst snd].

Lemma process_row_events (env : Agent.Env) (row : Agent.IntercomRow)
  (st st1 : Agent.State) :
  Agent.process_row env row st = (Ret tt, st1) ->
  Agent.events st1
  = Agent.events st ++ Agent.side_effect env (Agent.servers st) row
      ++ [Agent.EvDelete (Agent.row_id row)] /\
  Agent.servers st1 = Agent.servers st.
Proof.
  unfold Agent.process_row, Agent.side_effect.
  destruct (Agent.row_data row) as [| | | | | |data]; try (intros [= ]; fail).
  ared.
  destruct (dict_get "server_name" data) as [sn|]; ared; [|intros [= ]].
  destruct (dict_get "command" data) as [command|]; ared; [|intros [= ]].
  destruct sn as [| | |name| | |]; ared; asred; try (intros [= ]; fail);
    try (intros [= <-]; asred; split; [now rewrite app_nil_l | reflexivity]).
  destruct (bool_decide (name ∈ Agent.servers st)); ared; asred;
    [|intros [= <-]; asred; split; reflexivity].
  destruct (is_str "rpc" command); ared; asred;
    [|intros [= <-]; asred; split; [now rewrite <- app_assoc | reflexivity]].
  destruct (match dict_get "object" data with
            | Some v => is_str "Server" v
            | None => false
            end); ared; asred;
    [|intros [= <-]; asred; split; reflexivity].
  destruct (Agent.rpc_outcome env name data) as [rc|e]; ared; asred; [|intros [= ]].
  destruct (truthy rc); ared; asred; intros [= <-]; asred;
    (split; [|reflexivity]); rewrite <- ?app_assoc; reflexivity.
Qed.

Lemma process_rows_events (env : Agent.Env) (rows : list Agent.IntercomRow)
  (st st1 : Agent.State) :
  Agent.process_rows env rows st = (Ret tt, st1) ->
  Agent.events st1 = Agent.events st ++ Agent.poll_spec env (Agent.servers st) rows /\
  Agent.servers st1 = Agent.servers st.
Proof.
  revert st. induction rows as [|row rows IH]; intros st.
  - intros [= <-]. unfold Agent.poll_spec. simpl. now rewrite app_nil_r.
  - cbn [Agent.process_rows]. unfold bind.
    destruct (Agent.process_row env row st) as [[[]|e] s] eqn:E; [|intros [= ]].
    intros H. apply process_row_events in E as [E1 E2].
    apply IH in H as [H1 H2]. split; [|congruence].
    rewrite H1, E1, E2. unfold Agent.poll_spec. cbn [flat_map].
    now rewrite <- !app_assoc.
Qed.

Lemma deleted_ids_app (a b : list Agent.Event) :
  deleted_ids (a ++ b) = deleted_ids a ++ deleted_ids b.
Proof. unfold deleted_ids. apply flat_map_app. Qed.

Lemma deleted_ids_side_effect (env : Agent.Env) (known : gset string)
  (row : Agent.IntercomRow) :
  deleted_ids (Agent.side_effect env known row) = [].
Proof.
  unfold Agent.side_effect. destruct_matches; reflexivity.
Qed.

Lemma deleted_ids_poll_spec (env : Agent.Env) (known : gset string)
  (rows : list Agent.IntercomRow) :
  deleted_ids (Agent.poll_spec env known rows) = map Agent.row_id rows.
Proof.
  induction rows as [|row rows IH]; [reflexivity|].
  unfold Agent.poll_spec in *. cbn [flat_map map].
  rewrite !deleted_ids_app, deleted_ids_side_effect, IH. reflexivity.
Qed.

(** Claim C7, as amended: a turn of the poll loop that completes has gone through
    the rows of the node in the order the query gave them, each with its
    side effect first and its deletion next; the deletions are in ascending
    order of sequence id exactly when the rows came in that order. *)
Theorem intercom_order (env : Agent.Env) (st st' : Agent.State) :
  Agent.intercom env st = (Ret tt, st') ->
  Agent.events st'
  = Agent.events st ++ Agent.poll_spec env (Agent.servers st) (Agent.fetchall env st) /\
  deleted_ids (Agent.poll_spec env (Agent.servers st) (Agent.fetchall env st))
  = map Agent.row_id (Agent.fetchall env st) /\
  (StronglySorted Z.lt (deleted_ids
      (Agent.poll_spec env (Agent.servers st) (Agent.fetchall env st)))
   <-> StronglySorted Z.lt (map Agent.row_id (Agent.fetchall env st))) /\
  (forall r, In r (Agent.fetchall env st) ->
     forall r', In r' (Agent.intercom_tbl st') ->
       Agent.row_id r' <> Agent.row_id r).
Proof.
  unfold Agent.intercom.
  destruct (Agent.process_rows env (Agent.fetchall env st) st) as [[[]|e] s] eqn:E;
    [|intros [= ]].
  intros [= <-]. apply process_rows_events in E as [E1 E2]. asred.
  split; [exact E1|]. split; [apply deleted_ids_poll_spec|]. split.
  - now rewrite deleted_ids_poll_spec.
  - intros r Hr r' Hr' Heq. apply list_elem_of_In, list_elem_of_filter in Hr'.
    destruct Hr' as [Hx _]. apply not_true_iff_false in Hx. apply Hx.
    apply existsb_exists. exists r. split; [exact Hr|]. now apply Z.eqb_eq.
Qed.

(** ** The statements at work on the small installation *)

(** Claim C4 on the ban of the example, whose player id is beyond 53 bits. *)
Lemma sendtoDCS_roundtrip_witness :
  exists txt st',
    sendtoDCS 0 2 Demo.st = (Ret tt, st') /\
    sent st' = sent Demo.st ++ [mkDatagram (VStr "127.0.0.1") 6666 txt] /\
    json_loads txt = Some (VDict (coerce_ints Demo.ban)) /\
    (forall k z, dict_get k Demo.ban = Some (VInt z) ->
       dict_get k (coerce_ints Demo.ban) = Some (VStr (str_of_int z)) /\
       int_of_str (str_of_int z) = Some z) /\
    (forall k v, dict_get k Demo.ban = Some v -> (forall z, v <> VInt z) ->
       dict_get k (coerce_ints Demo.ban) = Some v) /\
    (forall k, dict_get k Demo.ban = None -> dict_get k (coerce_ints Demo.ban) = None) /\
    (forall k z, dict_get k (coerce_ints Demo.ban) <> Some (VInt z)).
Proof.
  apply (sendtoDCS_roundtrip 0 2 Demo.st Demo.ban Demo.alpha
           (VStr "Alpha") (VStr "127.0.0.1") (VInt 6666) 6666);
    try reflexivity. discriminate.
Defined.

(** Claim C10, as amended, on the ban of the example. *)
Lemma send_mutates_in_place_witness :
  heap Demo.st !! 2%nat = Some Demo.ban /\
  heap (snd (sendtoDCS 0 2 Demo.st)) !! 2%nat = Some (coerce_ints Demo.ban) /\
  heap (snd (sendtoDCSSync 0 2 "7f1c" Demo.st)) !! 2%nat
    = Some (coerce_ints (dict_set "channel" (VStr (sync_token "7f1c")) Demo.ban)).
Proof.
  split; [reflexivity|].
  destruct (send_mutates_in_place 0 2 "7f1c" Demo.st Demo.ban eq_refl) as (H1 & H2 & _).
  exact (conj H1 H2).
Defined.

(** Claim C10 fails as stated: a message without a top-level integer is the same
    after [sendtoDCS] as before. *)
Lemma sendtoDCS_leaves_message :
  fst (sendtoDCS 0 3 Demo.st) = Ret tt /\
  heap Demo.st !! 3%nat = Some Demo.ask /\
  heap (snd (sendtoDCS 0 3 Demo.st)) !! 3%nat = Some Demo.ask.
Proof. vm_compute. repeat split. Qed.

(** Claim C1 fails as stated: after the timeout the token is still in
    [self.listeners]. *)
Lemma timeout_keeps_entry :
  fst (wait_for 0 Demo.st_pending) = Raise TimeoutError /\
  listeners (snd (wait_for 0 Demo.st_pending)) !! sync_token "7f1c" = Some 0%nat.
Proof. vm_compute. split; reflexivity. Qed.

(** Claim C9, as amended, on the pending request of the example. *)
Lemma timeout_and_status_witness :
  sendtoDCSSync 0 3 "7f1c" Demo.st = (Ret 0%nat, Demo.st_pending) /\
  globals Demo.st !! "Alpha" = Some 0%nat /\
  (exists st2,
     wait_for 0 Demo.st_pending = (Raise TimeoutError, st2) /\
     lookup "Alpha" st2 = lookup "Alpha" Demo.st) /\
  (exists st2,
     register_servers_resume 0 0 Demo.st_pending = (Ret tt, st2) /\
     futures st2 !! 0%nat = Some Cancelled /\
     lookup "Alpha" st2
       = dict_set "status" (VStatus SHUTDOWN) <$> lookup "Alpha" Demo.st /\
     forall d, lookup "Alpha" Demo.st = Some d ->
       exists d', lookup "Alpha" st2 = Some d' /\
                  dict_get "status" d' = Some (VStatus SHUTDOWN)).
Proof.
  assert (H1 : sendtoDCSSync 0 3 "7f1c" Demo.st = (Ret 0%nat, Demo.st_pending))
    by (vm_compute; reflexivity).
  assert (H2 : globals Demo.st !! "Alpha" = Some 0%nat) by (vm_compute; reflexivity).
  split; [exact H1|]. split; [exact H2|].
  apply (timeout_and_status 0 3 "7f1c" "Alpha" Demo.st Demo.st_pending 0 H1);
    [discriminate | exact H2].
Defined.

(** Claim C9 fails as stated: the request to Alpha times out and the registry
    still has Alpha as running. *)
Lemma timeout_leaves_status :
  fst (wait_for 0 Demo.st_pending) = Raise TimeoutError /\
  (lookup "Alpha" (snd (wait_for 0 Demo.st_pending))) ≫= dict_get "status"
    = Some (VStatus RUNNING).
Proof. vm_compute. split; reflexivity. Qed.

(** Claim C2, as amended, on Bravo announcing the port of Alpha. *)
Lemma register_server_rejected_witness :
  let st' := snd (register_server Demo.env Demo.bravo_on_alpha_port Demo.st) in
  register_server Demo.env Demo.bravo_on_alpha_port Demo.st = (Ret false, st') /\
  exists name,
    dict_get "server_name" Demo.bravo_on_alpha_port = Some (VStr name) /\
    listeners st' = listeners Demo.st /\ futures st' = futures Demo.st /\
    (forall n dn, n <> name -> lookup n Demo.st = Some dn -> lookup n st' = Some dn) /\
    (((findDCSInstallations Demo.env name = [] \/
       exists hv, dict_get "hook_version" Demo.bravo_on_alpha_port = Some hv /\
                  is_str (version Demo.env) hv = false) /\
      globals st' = globals Demo.st /\ heap st' = heap Demo.st)
     \/
     (findDCSInstallations Demo.env name <> [] /\
      (exists hv, dict_get "hook_version" Demo.bravo_on_alpha_port = Some hv /\
                  is_str (version Demo.env) hv = true) /\
      lookup name st' = None /\
      exists r, In r (db_servers Demo.st) /\ sr_agent r = node Demo.env /\
                sr_name r <> name /\
                findDCSInstallations Demo.env (sr_name r) <> [])).
Proof.
  intros st'.
  assert (H : register_server Demo.env Demo.bravo_on_alpha_port Demo.st = (Ret false, st'))
    by (vm_compute; reflexivity).
  split; [exact H|].
  exact (register_server_rejected Demo.env Demo.bravo_on_alpha_port Demo.st st' H).
Defined.

(** Claim C2 fails as stated: Bravo had a record, its registration is rejected
    for the port of Alpha, and the record is gone. *)
Lemma rejection_drops_record :
  fst (register_server Demo.env Demo.bravo_on_alpha_port Demo.st) = Ret false /\
  lookup "Bravo" Demo.st = Some Demo.bravo /\
  lookup "Bravo" (snd (register_server Demo.env Demo.bravo_on_alpha_port Demo.st)) = None.
Proof. vm_compute. repeat split. Qed.

(** An event of Bravo, whose record has the status [UNKNOWN], is dropped
    as well. *)
Example demo_unknown_status :
  let raw := json_text (VDict [("command", VStr "onPlayerConnect");
                               ("server_name", VStr "Bravo");
                               ("channel", VStr "-1")]) in
  fst (handle Demo.env raw Demo.st) = Ret tt /\
  delivered (snd (handle Demo.env raw Demo.st)) = [].
Proof. vm_compute. split; reflexivity. Qed.

(** Claim C8 on the answer of the example, for which two listeners have a
    result. *)
Lemma sync_reply_first_result_witness :
  let raw := json_text (VDict Demo.answer) in
  let st0 := set_log (fun lg => lg ++ [(DEBUG, "->HOST")]) Demo.st_pending in
  json_decode Demo.env (strip raw) = Some (VDict Demo.answer) /\
  guard Demo.env Demo.answer (VStr "getMissionDetails") st0 = (Ret true, st0) /\
  listeners Demo.st_pending !! "sync-7f1c" = Some 0%nat /\
  futures Demo.st_pending !! 0%nat = Some Pending /\
  exists st2 r rest,
    results_of (map (fun l : Listener => l Demo.answer) (eventListeners Demo.st_pending))
      = r :: rest /\
    handle Demo.env raw Demo.st_pending = (Ret tt, st2) /\
    futures st2 !! 0%nat = Some (Done r) /\
    (forall f, f <> 0%nat -> futures st2 !! f = futures Demo.st_pending !! f) /\
    listeners st2 !! "sync-7f1c" = None /\
    listeners st2 = delete "sync-7f1c" (listeners Demo.st_pending) /\
    delivered st2
      = delivered Demo.st_pending
        ++ imap (fun i _ => (i, Demo.answer)) (eventListeners Demo.st_pending).
Proof.
  intros raw st0.
  assert (H1 : json_decode Demo.env (strip raw) = Some (VDict Demo.answer))
    by (vm_compute; reflexivity).
  assert (H2 : guard Demo.env Demo.answer (VStr "getMissionDetails") st0 = (Ret true, st0))
    by (vm_compute; reflexivity).
  assert (H3 : listeners Demo.st_pending !! "sync-7f1c" = Some 0%nat)
    by (vm_compute; reflexivity).
  assert (H4 : futures Demo.st_pending !! 0%nat = Some Pending)
    by (vm_compute; reflexivity).
  split; [exact H1|]. split; [exact H2|]. split; [exact H3|]. split; [exact H4|].
  apply (sync_reply_first_result Demo.env raw Demo.st_pending st0 Demo.answer
           (VStr "getMissionDetails") "sync-7f1c" 0 H1 eq_refl eq_refl H2 eq_refl eq_refl
           H3 H4).
  vm_compute. lia.
Defined.

(** The caller of the example gets the result of the second listener in the
    list, the first one that has a result. *)
Example demo_first_result :
  futures (snd (handle Demo.env (json_text (VDict Demo.answer)) Demo.st_pending))
  = [Done (VStr "first")].
Proof. vm_compute. reflexivity. Qed.

(** Claim C5 fails as stated: with Bravo registered already, renaming Alpha to
    Bravo leaves the record of Bravo under Bravo and drops the one of Alpha;
    and renaming a server that is not registered raises [KeyError]. *)
Lemma rename_keeps_taken_name :
  lookup "Alpha" Demo.st = Some Demo.alpha /\
  fst (rename_server "Alpha" "Bravo" false Demo.st) = Ret tt /\
  lookup "Alpha" (snd (rename_server "Alpha" "Bravo" false Demo.st)) = None /\
  lookup "Bravo" (snd (rename_server "Alpha" "Bravo" false Demo.st)) = Some Demo.bravo /\
  fst (rename_server "Delta" "Echo" false Demo.st) = Raise (KeyError "Delta").
Proof. vm_compute. repeat split. Qed.

Example demo_rename :
  lookup "Echo" (snd (rename_server "Alpha" "Echo" false Demo.st))
  = Some (dict_set "server_name" (VStr "Echo") Demo.alpha) /\
  db_servers (snd (rename_server "Alpha" "Echo" false Demo.st))
  = [mkServerRow "Echo" "node1" "127.0.0.1" 6666;
     mkServerRow "Bravo" "node1" "127.0.0.1" 6667].
Proof. vm_compute. split; reflexivity. Qed.

(** Claim C6 fails as stated: a datagram that is no JSON text, and one without a
    command, leave the handler by an exception. *)
Lemma malformed_datagram_raises :
  handle Demo.env "not json" Demo.st = (Raise JSONDecodeError, Demo.st) /\
  fst (handle Demo.env (json_text (VDict [("server_name", VStr "Alpha")])) Demo.st)
  = Raise (KeyError "command").
Proof. vm_compute. split; reflexivity. Qed.

(** The registration of a server that is not in the registry is taken up
    and, once accepted, goes to every listener. *)
Example demo_registration_accepted :
  let r := handle Demo.env (json_text (VDict Demo.charlie_hello)) Demo.st in
  lookup "Charlie" Demo.st = None /\
  fst r = Ret tt /\
  (lookup "Charlie" (snd r)) ≫= dict_get "status" = Some (VStatus LOADING) /\
  map fst (delivered (snd r)) = [0; 1; 2; 3]%nat.
Proof. vm_compute. repeat split. Qed.

(** Claim C7, as amended, on a table in the order of its ids. *)
Lemma intercom_order_witness :
  let st' := snd (Agent.intercom Demo.agent_env Demo.agent_sorted) in
  Agent.intercom Demo.agent_env Demo.agent_sorted = (Ret tt, st') /\
  Agent.events st'
  = Agent.events Demo.agent_sorted
    ++ Agent.poll_spec Demo.agent_env (Agent.servers Demo.agent_sorted)
         (Agent.fetchall Demo.agent_env Demo.agent_sorted) /\
  deleted_ids (Agent.events st') = [1; 2].
Proof.
  intros st'.
  assert (H : Agent.intercom Demo.agent_env Demo.agent_sorted = (Ret tt, st'))
    by (vm_compute; reflexivity).
  split; [exact H|].
  destruct (intercom_order Demo.agent_env Demo.agent_sorted st' H) as (H1 & H2 & _).
  split; [exact H1|]. rewrite H1, deleted_ids_app, H2. reflexivity.
Defined.

(** Claim C7 fails as stated: the table gives the entry with id 2 before the one
    with id 1, and the loop handles and deletes them in that order. *)
Lemma intercom_follows_table_order :
  fst (Agent.intercom Demo.agent_env Demo.agent_st) = Ret tt /\
  Agent.events (snd (Agent.intercom Demo.agent_env Demo.agent_st))
  = [Agent.EvSendtoDCS 2 "Alpha" [("server_name", VStr "Alpha"); ("command", VStr "start")];
     Agent.EvDelete 2;
     Agent.EvSendtoDCS 1 "Alpha" [("server_name", VStr "Alpha"); ("command", VStr "stop")];
     Agent.EvDelete 1].
Proof. vm_compute. split; reflexivity. Qed.

(** Claim C5, as amended, on Alpha becoming Echo. *)
Lemma rename_server_moves_witness :
  globals Demo.st !! "Alpha" = Some 0%nat /\
  heap Demo.st !! 0%nat = Some Demo.alpha /\
  globals Demo.st !! "Echo" = None /\
  exists st',
    rename_server "Alpha" "Echo" false Demo.st = (Ret tt, st') /\
    lookup "Alpha" st' = None /\
    lookup "Echo" st' = Some (dict_set "server_name" (VStr "Echo") Demo.alpha) /\
    (forall k, k <> "server_name" ->
       dict_get k (dict_set "server_name" (VStr "Echo") Demo.alpha)
       = dict_get k Demo.alpha) /\
    (forall n dn, n <> "Alpha" -> n <> "Echo" ->
       lookup n Demo.st = Some dn -> lookup n st' = Some dn) /\
    listeners st' = listeners Demo.st /\ futures st' = futures Demo.st.
Proof.
  assert (H1 : globals Demo.st !! "Alpha" = Some 0%nat) by (vm_compute; reflexivity).
  assert (H2 : heap Demo.st !! 0%nat = Some Demo.alpha) by reflexivity.
  assert (H3 : globals Demo.st !! "Echo" = None) by (vm_compute; reflexivity).
  split; [exact H1|]. split; [exact H2|]. split; [exact H3|].
  exact (proj1 (rename_server_moves "Alpha" "Echo" false Demo.st) 0%nat Demo.alpha
           H1 H2 H3).
Defined.

(** Claim C6, as amended, on a datagram without a server name. *)
Lemma handle_malformed_witness :
  let raw := json_text (VDict [("command", VStr "onPlayerConnect")]) in
  json_decode Demo.env (strip raw) = Some (VDict [("command", VStr "onPlayerConnect")]) /\
  handle Demo.env raw Demo.st
  = (Ret tt, set_log (fun lg => lg ++
                       [(WARNING, "Message without server_name retrieved")]) Demo.st).
Proof.
  intros raw.
  assert (H : json_decode Demo.env (strip raw)
              = Some (VDict [("command", VStr "onPlayerConnect")]))
    by (vm_compute; reflexivity).
  split; [exact H|].
  exact (proj1 (handle_malformed Demo.env raw Demo.st) _ H eq_refl).
Defined.

(** The probe of [register_servers] for Alpha: a fresh message, a pending
    future, and the datagram on its way. *)
Example demo_probe :
  let r := register_servers_probe 0 "7f1c" Demo.st in
  fst r = Ret 0%nat /\
  heap (snd r) !! 4%nat
  = Some [("command", VStr "registerDCSServer"); ("channel", VStr "sync-7f1c")] /\
  map dg_port (sent (snd r)) = [6666].
Proof. vm_compute. repeat split. Qed.

(** ** More on sending: failures, resending *)

Lemma coerce_ints_idem (m : Dict) : coerce_ints (coerce_ints m) = coerce_ints m.
Proof.
  unfold coerce_ints. rewrite map_map. apply map_ext. intros [k v]. simpl.
  now destruct v.
Qed.

Lemma sendtoDCS_raise_sent (server message : nat) (st st' : State) (e : Exc) :
  sendtoDCS server message st = (Raise e, st') -> sent st' = sent st.
Proof.
  unfold sendtoDCS. mred. sred.
  destruct (json_dumps _); mred; sred; [|now intros [= _ <-]].
  destruct (dict_get "server_name" _); mred; sred; [|now intros [= _ <-]].
  destruct (dict_get "host" _); mred; sred; [|now intros [= _ <-]].
  destruct (dict_get "port" _) as [p|]; mred; sred; [|now intros [= _ <-]].
  destruct (py_int p); mred; sred; [intros [= ] | now intros [= _ <-]].
Qed.

(** Property X1.  Before [sendtoDCS] hands anything to the socket it can
    fail in two ways, and then nothing is sent: with [TypeError] when
    [json.dumps] refuses the rewritten message, and with the [KeyError] of
    the first of [server_name], [host] and [port] that the server record
    lacks.  Whatever comes of the call, it hands the socket at most one
    datagram, whose text is the rewritten message; the message object has
    been rewritten in place, and the registry and the pending requests are
    as before. *)
Theorem sendtoDCS_at_most_one_datagram (server message : nat) (st : State)
  (m : Dict) :
  heap st !! message = Some m ->
  let r := fst (sendtoDCS server message st) in
  let st' := snd (sendtoDCS server message st) in
  let srv := default [] (<[message := coerce_ints m]> (heap st) !! server) in
  (json_encodable (VDict (coerce_ints m)) = false ->
   r = Raise TypeError /\ sent st' = sent st) /\
  (json_encodable (VDict (coerce_ints m)) = true ->
   (dict_get "server_name" srv = None ->
    r = Raise (KeyError "server_name") /\ sent st' = sent st) /\
   (dict_get "server_name" srv <> None -> dict_get "host" srv = None ->
    r = Raise (KeyError "host") /\ sent st' = sent st) /\
   (dict_get "server_name" srv <> None -> dict_get "host" srv <> None ->
    dict_get "port" srv = None ->
    r = Raise (KeyError "port") /\ sent st' = sent st)) /\
  (sent st' = sent st \/
   exists host port,
     sent st' = sent st
                ++ [mkDatagram host port (json_text (VDict (coerce_ints m)))]) /\
  heap st' = <[message := coerce_ints m]> (heap st) /\
  globals st' = globals st /\ listeners st' = listeners st /\
  futures st' = futures st.
Proof.
  intros Hm r st' srv. subst r st' srv.
  pose proof (lookup_lt_Some _ _ _ Hm) as Hlt.
  unfold sendtoDCS. mred. rewrite Hm. cbn [from_option id]. sred.
  rewrite list_lookup_insert_eq by exact Hlt. cbn [from_option id].
  unfold json_dumps.
  destruct (json_encodable (VDict (coerce_ints m))) eqn:He; mred; sred.
  2:{ repeat split; auto; discriminate. }
  split; [discriminate|].
  destruct (dict_get "server_name" _) as [n|] eqn:Hn; mred; sred.
  2:{ repeat split; auto; try contradiction; discriminate. }
  destruct (dict_get "host" _) as [h|] eqn:Hh; mred; sred.
  2:{ repeat split; auto; try contradiction; discriminate. }
  destruct (dict_get "port" _) as [p|] eqn:Hp; mred; sred.
  2:{ repeat split; auto; try contradiction; discriminate. }
  destruct (py_int p) as [z|e]; mred; sred.
  - split; [repeat split; intros; try discriminate; contradiction|].
    split; [right; eauto|]. repeat split.
  - split; [repeat split; intros; try discriminate; contradiction|].
    split; [now left|]. repeat split.
Qed.

(** The object at reference 3 is no server record, and the message at
    reference 2 can be sent to Alpha. *)
Lemma sendtoDCS_at_most_one_datagram_witness :
  heap Demo.st !! 2%nat = Some Demo.ban /\
  fst (sendtoDCS 3 2 Demo.st) = Raise (KeyError "server_name") /\
  sent (snd (sendtoDCS 3 2 Demo.st)) = sent Demo.st /\
  heap (snd (sendtoDCS 0 2 Demo.st)) = <[2%nat := coerce_ints Demo.ban]> (heap Demo.st) /\
  listeners (snd (sendtoDCS 0 2 Demo.st)) = listeners Demo.st.
Proof.
  split; [reflexivity|].
  destruct (sendtoDCS_at_most_one_datagram 3 2 Demo.st Demo.ban eq_refl)
    as (_ & K & _).
  destruct (K eq_refl) as (K1 & _). destruct (K1 eq_refl) as [R S].
  split; [exact R|]. split; [exact S|].
  destruct (sendtoDCS_at_most_one_datagram 0 2 Demo.st Demo.ban eq_refl)
    as (_ & _ & _ & H1 & _ & H2 & _).
  exact (conj H1 H2).
Defined.

Lemma sendtoDCS_ret_inv (server message : nat) (st st1 : State) (m : Dict) :
  heap st !! message = Some m ->
  sendtoDCS server message st = (Ret tt, st1) ->
  exists name host p port,
    let srv := default [] (<[message := coerce_ints m]> (heap st) !! server) in
    json_encodable (VDict (coerce_ints m)) = true /\
    dict_get "server_name" srv = Some name /\
    dict_get "host" srv = Some host /\
    dict_get "port" srv = Some p /\
    py_int p = Ret port /\
    st1 = set_sent (fun s => s ++ [mkDatagram host port
                                     (json_text (VDict (coerce_ints m)))])
            (set_log (fun lg => lg ++ [(DEBUG, "HOST->")])
               (set_heap (fun h => <[message := coerce_ints m]> h) st)).
Proof.
  intros Hm. pose proof (lookup_lt_Some _ _ _ Hm) as Hlt.
  unfold sendtoDCS. mred. rewrite Hm. cbn [from_option id]. sred.
  rewrite list_lookup_insert_eq by exact Hlt. cbn [from_option id].
  unfold json_dumps.
  destruct (json_encodable (VDict (coerce_ints m))) eqn:He; mred; sred;
    [|intros [= ]].
  destruct (dict_get "server_name" _) as [n|] eqn:Hn; mred; sred; [|intros [= ]].
  destruct (dict_get "host" _) as [h|] eqn:Hh; mred; sred; [|intros [= ]].
  destruct (dict_get "port" _) as [p|] eqn:Hp; mred; sred; [|intros [= ]].
  destruct (py_int p) as [z|] eqn:Hz; mred; sred; [|intros [= ]].
  intros [= <-]. exists n, h, p, z. cbv zeta. repeat split; auto.
Qed.

(** Property X2.  A message object that has been sent goes out again as the same
    text: the second call finds nothing left to rewrite. *)
Theorem sendtoDCS_resend (server message : nat) (st st1 : State) (m : Dict) :
  heap st !! message = Some m ->
  sendtoDCS server message st = (Ret tt, st1) ->
  exists dg st2,
    sent st1 = sent st ++ [dg] /\
    sendtoDCS server message st1 = (Ret tt, st2) /\
    sent st2 = sent st ++ [dg; dg] /\
    heap st2 = heap st1.
Proof.
  intros Hm H1. pose proof (lookup_lt_Some _ _ _ Hm) as Hlt.
  destruct (sendtoDCS_ret_inv _ _ _ _ _ Hm H1)
    as (n & h & p & z & He & Hn & Hh & Hp & Hz & ->). clear H1.
  set (h1 := <[message := coerce_ints m]> (heap st)) in *.
  assert (Hm1 : h1 !! message = Some (coerce_ints m))
    by (apply list_lookup_insert_eq; exact Hlt).
  assert (Hid : <[message := coerce_ints (coerce_ints m)]> h1 = h1)
    by (rewrite coerce_ints_idem; now apply list_insert_id).
  exists (mkDatagram h z (json_text (VDict (coerce_ints m)))).
  unfold sendtoDCS. mred. sred. fold h1. rewrite Hm1. cbn [from_option id].
  sred. fold h1. rewrite Hid, Hm1. cbn [from_option id].
  unfold json_dumps. rewrite He. mred. sred. fold h1. rewrite Hn. mred.
  rewrite Hh. mred. rewrite Hp. mred. rewrite Hz. mred. sred.
  eexists. split; [reflexivity|]. split; [reflexivity|]. sred. fold h1.
  split; [now rewrite <- app_assoc | exact Hid].
Qed.

Lemma sendtoDCS_resend_witness :
  let st1 := snd (sendtoDCS 0 2 Demo.st) in
  heap Demo.st !! 2%nat = Some Demo.ban /\
  sendtoDCS 0 2 Demo.st = (Ret tt, st1) /\
  exists dg st2,
    sent st1 = sent Demo.st ++ [dg] /\
    sendtoDCS 0 2 st1 = (Ret tt, st2) /\
    sent st2 = sent Demo.st ++ [dg; dg] /\
    heap st2 = heap st1.
Proof.
  split; [reflexivity|]. split; [vm_compute; reflexivity|].
  apply (sendtoDCS_resend 0 2 Demo.st (snd (sendtoDCS 0 2 Demo.st)) Demo.ban);
    [reflexivity | vm_compute; reflexivity].
Defined.

(** Property X3.  When [sendtoDCSSync] fails, no request is left waiting:
    nothing is entered in [self.listeners] and nothing is sent, although the
    future has been made and the token written into the message. *)
Theorem sendtoDCSSync_failure (server message : nat) (uuid : string)
  (st st' : State) (e : Exc) (m : Dict) :
  heap st !! message = Some m ->
  sendtoDCSSync server message uuid st = (Raise e, st') ->
  listeners st' = listeners st /\
  sent st' = sent st /\
  globals st' = globals st /\
  futures st' = futures st ++ [Pending] /\
  heap st' !! message
  = Some (coerce_ints (dict_set "channel" (VStr (sync_token uuid)) m)).
Proof.
  intros Hm H.
  pose proof (sendtoDCSSync_heap server message uuid st) as Hh. rewrite H in Hh.
  cbn [snd] in Hh. rewrite Hm in Hh. cbn [from_option id] in Hh.
  revert H. unfold sendtoDCSSync. mred. sred.
  set (st0 := set_heap _ (set_futures _ st)).
  pose proof (sendtoDCS_frame server message st0) as F. cbv zeta in F.
  destruct (sendtoDCS server message st0) as [[[]|e0] s0] eqn:E; cbn [snd] in F;
    mred; [intros [= ]|].
  intros [= -> ->]. apply sendtoDCS_raise_sent in E. destruct F as (Hg & Hl & Hf & _).
  unfold st0 in *. sred_in E. sred_in Hg. sred_in Hl. sred_in Hf.
  repeat split; auto. rewrite Hh. apply list_lookup_insert_eq.
  now apply lookup_lt_Some in Hm.
Qed.

(** The object at reference 3 is no server record: sending to it fails. *)
Lemma sendtoDCSSync_failure_witness :
  let st' := snd (sendtoDCSSync 3 2 "7f1c" Demo.st) in
  heap Demo.st !! 2%nat = Some Demo.ban /\
  sendtoDCSSync 3 2 "7f1c" Demo.st = (Raise (KeyError "server_name"), st') /\
  listeners st' = listeners Demo.st /\
  sent st' = sent Demo.st /\
  globals st' = globals Demo.st /\
  futures st' = futures Demo.st ++ [Pending] /\
  heap st' !! 2%nat
  = Some (coerce_ints (dict_set "channel" (VStr (sync_token "7f1c")) Demo.ban)).
Proof.
  split; [reflexivity|]. split; [vm_compute; reflexivity|].
  apply (sendtoDCSSync_failure 3 2 "7f1c" Demo.st _ (KeyError "server_name") Demo.ban);
    [reflexivity | vm_compute; reflexivity].
Defined.

(** ** Pending requests under [handle] *)

Lemma dispatch_pending (d : Dict) (st : State) :
  (listeners (snd (dispatch d st)) = listeners st /\
   futures (snd (dispatch d st)) = futures st) \/
  settles d st (snd (dispatch d st)).
Proof.
  destruct (dict_get "channel" d) as [[| | |ch| | |]|] eqn:Hc;
    try (left; unfold dispatch; mred; rewrite collect_eq; mred; rewrite Hc; mred;
         sred; split; reflexivity).
  destruct (starts_with "sync" ch) eqn:Hs.
  - destruct (listeners st !! ch) as [fid|] eqn:Hl.
    + right. rewrite (dispatch_sync d st ch fid Hc Hs Hl). exists ch, fid.
      repeat split; auto; destruct (futures st !! fid) as [[]|]; reflexivity.
    + left. unfold dispatch. mred. rewrite collect_eq. mred. rewrite Hc. mred.
      rewrite Hs. sred. rewrite Hl. sred. split; reflexivity.
  - left. unfold dispatch. mred. rewrite collect_eq. mred. rewrite Hc. mred.
    rewrite Hs. sred. split; reflexivity.
Qed.

Lemma handle_pending (env : Env) (raw : string) (st : State) :
  (listeners (snd (handle env raw st)) = listeners st /\
   futures (snd (handle env raw st)) = futures st) \/
  exists d, json_decode env (strip raw) = Some (VDict d) /\
            settles d st (snd (handle env raw st)).
Proof.
  unfold handle.
  destruct (json_decode env (strip raw)) as [data|] eqn:Hj; [|left; split; reflexivity].
  destruct data as [| | |s|x|l|d]; cbn [py_contains]; mred;
    try (left; split; reflexivity);
    try (destruct (negb _); mred; sred; left; split; reflexivity).
  destruct (negb (dict_has "server_name" d)); mred; sred; [left; split; reflexivity|].
  destruct (dict_get "command" d) as [cmd|]; mred; [|left; split; reflexivity].
  pose proof (guard_requests env d cmd
                (set_log (fun lg => lg ++ [(DEBUG, "->HOST")]) st)) as G.
  destruct (guard env d cmd _) as [[[]|e] st1]; cbn [snd] in G;
    destruct G as (Gl & Gf & Ge & _); sred_in Gl; sred_in Gf; sred_in Ge;
    try (left; split; assumption).
  destruct (dispatch_pending d st1) as [[Hl Hf]|(ch & fid & Hc & Hs & Hl & Hl' & Hf)].
  - left. split; congruence.
  - right. exists d. split; [reflexivity|]. exists ch, fid.
    rewrite Gl, Gf, Ge in *. repeat split; assumption.
Qed.

(** Property X4.  [handle] settles no request unless the datagram is an object
    whose channel is a token that waits in [self.listeners]: every other
    datagram, undecodable ones and those that end in an exception included,
    leaves the waiting requests and their futures as they are. *)
Theorem handle_settles_only_its_token (env : Env) (raw : string) (st : State) :
  (forall d ch, json_decode env (strip raw) = Some (VDict d) ->
                dict_get "channel" d = Some (VStr ch) ->
                starts_with "sync" ch = true ->
                listeners st !! ch = None) ->
  listeners (snd (handle env raw st)) = listeners st /\
  futures (snd (handle env raw st)) = futures st.
Proof.
  intros H. destruct (handle_pending env raw st)
    as [?|(d & Hj & ch & fid & Hc & Hs & Hl & _)]; [assumption|].
  rewrite (H d ch Hj Hc Hs) in Hl. discriminate.
Qed.

Lemma handle_settles_only_its_token_witness :
  let raw := json_text (VDict Scenario.chat) in
  listeners Scenario.two_pending !! "sync-7f1c" = Some 0%nat /\
  listeners (snd (handle Demo.env raw Scenario.two_pending))
  = listeners Scenario.two_pending /\
  futures (snd (handle Demo.env raw Scenario.two_pending))
  = futures Scenario.two_pending.
Proof.
  split; [vm_compute; reflexivity|].
  apply (handle_settles_only_its_token Demo.env (json_text (VDict Scenario.chat))
           Scenario.two_pending).
  intros d ch Hj Hc Hs.
  assert (E : json_decode Demo.env (strip (json_text (VDict Scenario.chat)))
              = Some (VDict Scenario.chat)) by (vm_compute; reflexivity).
  rewrite E in Hj. injection Hj as <-. injection Hc as <-. discriminate Hs.
Defined.

(** Property X5.  A reply settles the request of its own channel only: a request
    that waits on another channel with a future of its own is still in
    [self.listeners] afterwards, and its future is as it was. *)
Theorem reply_leaves_other_requests (env : Env) (raw : string) (st : State)
  (d : Dict) (ch ch' : string) (f' : nat) :
  json_decode env (strip raw) = Some (VDict d) ->
  dict_get "channel" d = Some (VStr ch) ->
  ch' <> ch ->
  listeners st !! ch' = Some f' ->
  listeners st !! ch <> Some f' ->
  listeners (snd (handle env raw st)) !! ch' = Some f' /\
  futures (snd (handle env raw st)) !! f' = futures st !! f'.
Proof.
  intros Hj Hc Hne Hl' Hd.
  destruct (handle_pending env raw st)
    as [[E1 E2]|(d0 & Hj0 & ch0 & fid & Hc0 & Hs & Hl & E1 & E2)].
  - rewrite E1, E2. auto.
  - rewrite Hj in Hj0. injection Hj0 as <-. rewrite Hc in Hc0. injection Hc0 as <-.
    rewrite E1, E2. split.
    + now rewrite lookup_delete_ne.
    + assert (fid <> f') by congruence.
      destruct (futures st !! fid) as [[]|]; try reflexivity.
      now apply list_lookup_insert_ne.
Qed.

Lemma reply_leaves_other_requests_witness :
  let raw := json_text (VDict Demo.answer) in
  let st' := snd (handle Demo.env raw Scenario.two_pending) in
  listeners Scenario.two_pending !! "sync-7f1c" = Some 0%nat /\
  listeners Scenario.two_pending !! "sync-a2b9" = Some 1%nat /\
  listeners st' !! "sync-7f1c" = None /\
  listeners st' !! "sync-a2b9" = Some 1%nat /\
  futures st' !! 1%nat = futures Scenario.two_pending !! 1%nat.
Proof.
  split; [vm_compute; reflexivity|]. split; [vm_compute; reflexivity|].
  split; [vm_compute; reflexivity|].
  apply (reply_leaves_other_requests Demo.env (json_text (VDict Demo.answer))
           Scenario.two_pending Demo.answer "sync-7f1c" "sync-a2b9" 1).
  - vm_compute; reflexivity.
  - reflexivity.
  - discriminate.
  - vm_compute; reflexivity.
  - vm_compute. discriminate.
Defined.

Lemma collect_log_raised (outcomes : list (Res Val)) :
  collect_log outcomes = replicate (raised outcomes) (EXCEPTION, "processEvent").
Proof.
  unfold collect_log, raised.
  induction outcomes as [|[v|e] outs IH]; simpl; [reflexivity | exact IH | now rewrite IH].
Qed.

(** Property X6.  Every listener is given the event, in the order of
    registration, whatever the others do with it: a listener that raises
    costs one [EXCEPTION] line in the log and nothing else, and the handler
    itself returns normally whenever the channel of the event is a string. *)
Theorem dispatch_serves_every_listener (d : Dict) (st : State) :
  let outcomes := map (fun l : Listener => l d) (eventListeners st) in
  delivered (snd (dispatch d st))
  = delivered st ++ imap (fun i _ => (i, d)) (eventListeners st) /\
  log (snd (dispatch d st))
  = log st ++ replicate (raised outcomes) (EXCEPTION, "processEvent") /\
  (forall ch, dict_get "channel" d = Some (VStr ch) -> fst (dispatch d st) = Ret tt).
Proof.
  cbv zeta. split; [apply dispatch_delivered|].
  rewrite <- collect_log_raised. unfold dispatch. mred. rewrite collect_eq. mred.
  split.
  - destruct (dict_get "channel" d) as [[| | |ch| | |]|]; mred; sred; try reflexivity.
    destruct (starts_with "sync" ch); sred; [|reflexivity].
    destruct (listeners st !! ch) as [fid|]; mred; sred; [|reflexivity].
    destruct (futures st !! fid) as [[]|]; reflexivity.
  - intros ch ->. mred.
    destruct (starts_with "sync" ch); sred; [|reflexivity].
    destruct (listeners st !! ch) as [fid|]; mred; sred; [|reflexivity].
    destruct (futures st !! fid) as [[]|]; reflexivity.
Qed.

(** Property X7.  An event that has been dispatched settles nothing when it is
    dispatched again: the first pass took its token out of [self.listeners]. *)
Theorem duplicate_reply_settles_nothing (d : Dict) (st : State) :
  let st1 := snd (dispatch d st) in
  listeners (snd (dispatch d st1)) = listeners st1 /\
  futures (snd (dispatch d st1)) = futures st1.
Proof.
  cbv zeta.
  destruct (dispatch_pending d (snd (dispatch d st)))
    as [?|(ch & fid & Hc & Hs & Hl & _)]; [assumption|].
  destruct (dispatch_pending d st) as [[E1 E2]|(ch0 & fid0 & Hc0 & Hs0 & Hl0 & E1 & _)].
  - assert (settles d st (snd (dispatch d st))) as (c & f & Hc1 & _ & Hl1 & E & _).
    { rewrite E1 in Hl. rewrite (dispatch_sync d st ch fid Hc Hs Hl).
      exists ch, fid. repeat split; auto; destruct (futures st !! fid) as [[]|]; reflexivity. }
    rewrite Hc in Hc1. injection Hc1 as <-. rewrite E, lookup_delete_eq in Hl. discriminate.
  - rewrite Hc in Hc0. injection Hc0 as <-. rewrite E1, lookup_delete_eq in Hl. discriminate.
Qed.

(** ** What an accepted registration leaves behind *)

Lemma dict_get_merge (k : string) (a b : Dict) :
  keys_unique b = true ->
  dict_get k (dict_merge a b)
  = match dict_get k b with Some v => Some v | None => dict_get k a end.
Proof.
  unfold dict_merge. revert a. induction b as [|[k' v'] b IH]; intros a Hu.
  - reflexivity.
  - cbn [fold_left fst snd]. cbn [keys_unique] in Hu.
    apply andb_true_iff in Hu as [Hk Hu]. apply negb_true_iff in Hk.
    rewrite (IH _ Hu). cbn [dict_get].
    destruct (String.eqb k k') eqn:E.
    + apply String.eqb_eq in E. subst k'. unfold dict_has in Hk.
      destruct (dict_get k b); [discriminate|]. apply dict_get_set_eq.
    + destruct (dict_get k b); [reflexivity|]. apply dict_get_set_ne.
      now apply String.eqb_neq.
Qed.

Lemma rename_server_taken_frame (old_name new_name : string) (u : bool) (st : State)
  (l : nat) :
  globals st !! new_name = Some l -> old_name <> new_name ->
  heap (snd (rename_server old_name new_name u st)) = heap st /\
  globals (snd (rename_server old_name new_name u st)) !! new_name = Some l.
Proof.
  intros Hn Hne. rewrite rename_server_split.
  destruct (globals st !! old_name) as [lo|] eqn:Ho.
  - rewrite (rename_registry_taken _ _ _ _ _ Ho Hn).
    destruct (rename_rest_frame old_name new_name u
                (set_globals (fun g => delete old_name g) st))
      as (st' & -> & Hh & Hg & _). cbn [snd]. rewrite Hh, Hg. sred.
    split; [reflexivity|]. now rewrite lookup_delete_ne.
  - rewrite (rename_registry_absent _ _ _ Ho). cbn [snd]. auto.
Qed.

(** The rest of the [try], once the check of the address is over. *)
Lemma register_db_tail (env : Env) (name host : string) (port : Z) (server : nat)
  (st : State) (srv : Dict) :
  globals st !! name = Some server ->
  heap st !! server = Some srv ->
  let st' := snd ((modify (set_db_servers
                     (upsert_server (mkServerRow name (node env) host port))) >>
                   setitem server "embeds" (VDict []) >>
                   let* e := gets (load_embeds env name) in
                   setitem server "embeds" (VDict e) >>
                   ret (None : option bool))%M st) in
  globals st' !! name = Some server /\
  (exists srv', heap st' !! server = Some srv' /\
                forall k, k <> "embeds" -> dict_get k srv' = dict_get k srv) /\
  (forall l, l <> server -> heap st' !! l = heap st !! l).
Proof.
  intros Hg Hs. cbv zeta. mred. sred. split; [exact Hg|]. split.
  - rewrite !list_lookup_alter_eq, Hs. cbn [fmap option_fmap option_map].
    eexists. split; [reflexivity|]. intros k Hk.
    now rewrite !dict_get_set_ne.
  - intros l Hl. now rewrite !list_lookup_alter_ne by congruence.
Qed.

Lemma register_db_keeps (env : Env) (data : Dict) (name : string) (server : nat)
  (st : State) (srv : Dict) :
  globals st !! name = Some server ->
  heap st !! server = Some srv ->
  (forall b, fst (register_db env data name server st) <> Ret (Some b)) ->
  globals (snd (register_db env data name server st)) !! name = Some server /\
  (exists srv', heap (snd (register_db env data name server st)) !! server = Some srv' /\
                forall k, k <> "embeds" -> dict_get k srv' = dict_get k srv) /\
  (forall l, l <> server ->
     heap (snd (register_db env data name server st)) !! l = heap st !! l).
Proof.
  intros Hg Hs. unfold register_db. mred.
  assert (Same : globals st !! name = Some server /\
                 (exists srv', heap st !! server = Some srv' /\
                    forall k, k <> "embeds" -> dict_get k srv' = dict_get k srv) /\
                 (forall l, l <> server -> heap st !! l = heap st !! l))
    by (split; [exact Hg | split; [exists srv; auto | auto]]).
  destruct (dict_get "host" data) as [h|]; mred; [|intros _; exact Same].
  destruct (dict_get "port" data) as [p|]; mred; [|intros _; exact Same].
  destruct (sql_text h) as [host|]; mred; [|intros _; exact Same].
  destruct (sql_int p) as [port|]; mred; [|intros _; exact Same].
  pose proof (register_db_tail env name host port server) as Tail. cbv zeta in Tail.
  revert Tail. mred. intros Tail.
  destruct (filter _ (db_servers st)) as [|r [|r' rows]]; mred;
    try (intros _; apply (Tail st srv Hg Hs)).
  destruct (negb (String.eqb (sr_name r) name)) eqn:En; mred;
    [|intros _; apply (Tail st srv Hg Hs)].
  apply negb_true_iff, String.eqb_neq in En.
  destruct (findDCSInstallations env (sr_name r)); mred; sred.
  - set (st0 := set_log _ (set_log _ st)).
    assert (Hg0 : globals st0 !! name = Some server) by exact Hg.
    destruct (rename_server_taken_frame (sr_name r) name false st0 server Hg0 En)
      as [Hh Hg1].
    destruct (rename_server (sr_name r) name false st0) as [[[]|e] st1];
      cbn [snd] in Hh, Hg1; mred.
    + intros _. assert (Hs1 : heap st1 !! server = Some srv) by (now rewrite Hh).
      destruct (Tail st1 srv Hg1 Hs1) as (T1 & T2 & T3).
      split; [exact T1|]. split; [exact T2|]. intros l Hl. rewrite (T3 l Hl).
      now rewrite Hh.
    + intros _. cbn [snd]. rewrite Hh. split; [exact Hg1|].
      split; [exists srv; auto | auto].
  - intros H. now destruct (H false).
Qed.

Lemma register_record_status (env : Env) (data : Dict) (name inst : string)
  (st st1 : State) (server : nat) :
  register_record env data name inst st = (Ret server, st1) ->
  server = length (heap st) /\
  exists ch srv,
    dict_get "channel" data = Some (VStr ch) /\
    heap st1 !! server = Some srv /\
    dict_get "installation" srv = Some (VStr inst) /\
    dict_get "status" srv
    = Some (VStatus (if starts_with "sync-" ch
                     then match dict_get "pause" data with
                          | Some (VBool true) => PAUSED
                          | _ => RUNNING
                          end
                     else LOADING)) /\
    (forall l0 old, globals st !! name = Some l0 -> heap st !! l0 = Some old ->
       forall k, k <> "installation" -> k <> "status" ->
         dict_get k srv = dict_get k (dict_merge old data)).
Proof.
  unfold register_record. mred.
  destruct (globals st !! name) as [l|]; mred; sred.
  - destruct (dict_get "channel" data) as [[| | |ch| | |]|] eqn:Hc; mred; sred;
      try (intros [= ]; fail).
    intros [= <- <-]. sred. split; [reflexivity|]. exists ch. eexists.
    split; [reflexivity|]. split.
    { rewrite !list_lookup_alter_eq, lookup_app_r, Nat.sub_diag by lia. reflexivity. }
    split; [|split].
    + rewrite dict_get_set_ne by discriminate. apply dict_get_set_eq.
    + apply dict_get_set_eq.
    + intros l0 old [= <-] Ho k K1 K2. rewrite Ho. cbn [from_option id].
      now rewrite !dict_get_set_ne.
  - destruct (config env inst) as [sec|]; mred; sred; try (intros [= ]; fail).
    destruct (sec "CHAT_CHANNEL"); mred; sred; try (intros [= ]; fail).
    destruct (sec "STATUS_CHANNEL"); mred; sred; try (intros [= ]; fail).
    destruct (sec "ADMIN_CHANNEL"); mred; sred; try (intros [= ]; fail).
    destruct (dict_get "channel" data) as [[| | |ch| | |]|] eqn:Hc; mred; sred;
      try (intros [= ]; fail).
    intros [= <- <-]. sred. split; [reflexivity|]. exists ch. eexists.
    split; [reflexivity|]. split.
    { rewrite !list_lookup_alter_eq, lookup_app_r, Nat.sub_diag by lia. reflexivity. }
    split; [|split].
    + rewrite dict_get_set_ne by discriminate. apply dict_get_set_eq.
    + apply dict_get_set_eq.
    + intros l0 old [= ].
Qed.

Lemma register_record_db (env : Env) (data : Dict) (name inst : string) (st : State) :
  db_servers (snd (register_record env data name inst st)) = db_servers st.
Proof.
  unfold register_record. mred. sred. destruct_matches; sred; reflexivity.
Qed.

Lemma register_server_accepted (env : Env) (data : Dict) (st st' : State) :
  register_server env data st = (Ret true, st') ->
  exists name inst insts st0 server st1,
    dict_get "server_name" data = Some (VStr name) /\
    findDCSInstallations env name = inst :: insts /\
    globals st0 = globals st /\ heap st0 = heap st /\
    register_record env data name inst st0 = (Ret server, st1) /\
    (forall b, fst (register_db env data name server st1) <> Ret (Some b)) /\
    globals st' = globals (snd (register_db env data name server st1)) /\
    heap st' = heap (snd (register_db env data name server st1)).
Proof.
  unfold register_server. mred.
  destruct (dict_get "server_name" data) as [nm|] eqn:Hn; mred; [|intros [= ]].
  destruct nm as [| | |name| | |]; mred; try (intros [= ]; fail).
  destruct (findDCSInstallations env name) as [|inst insts] eqn:Hi; mred; sred;
    [intros [= ]|].
  destruct (dict_get "hook_version" data) as [hv|] eqn:Hv; mred; [|intros [= ]].
  destruct (is_str (version env) hv) eqn:Hs; cbn [negb]; mred; sred; [|intros [= ]].
  match goal with |- context [register_record env data name inst ?s] =>
    set (st0 := s);
    destruct (register_record env data name inst st0) as [[server|e] st1] eqn:Hr end;
    [|intros [= ]].
  intros H. exists name, inst, insts, st0, server, st1.
  repeat (split; [reflexivity|]). revert H.
  destruct (register_db env data name server st1) as [[[b|]|e] st2] eqn:Hd; mred; sred.
  - apply register_db_early in Hd as [-> _]. intros [= ].
  - intros [= <-]. cbn [fst snd]. repeat split; auto; try (intros b [= ]).
  - intros [= <-]. cbn [fst snd]. sred. repeat split; auto; try (intros b [= ]).
Qed.

(** Property X8.  An accepted registration leaves the server in the registry
    under the announced name, with the first installation found for it and a
    status that is never [UNKNOWN]: [LOADING] for an announcement, [RUNNING]
    or [PAUSED] for the answer to a probe.  From then on [handle] lets every
    event of that server through to the listeners. *)
Theorem accepted_registration_opens_the_guard (env : Env) (data : Dict)
  (st st' : State) :
  register_server env data st = (Ret true, st') ->
  exists name inst ch server srv,
    dict_get "server_name" data = Some (VStr name) /\
    head (findDCSInstallations env name) = Some inst /\
    dict_get "channel" data = Some (VStr ch) /\
    globals st' !! name = Some server /\
    heap st' !! server = Some srv /\
    dict_get "installation" srv = Some (VStr inst) /\
    dict_get "status" srv
    = Some (VStatus (if starts_with "sync-" ch
                     then match dict_get "pause" data with
                          | Some (VBool true) => PAUSED
                          | _ => RUNNING
                          end
                     else LOADING)) /\
    (forall d cmd, dict_get "server_name" d = Some (VStr name) ->
                   is_str "registerDCSServer" cmd = false ->
                   guard env d cmd st' = (Ret true, st')).
Proof.
  intros H.
  destruct (register_server_accepted env data st st' H)
    as (name & inst & insts & st0 & server & st1 & Hn & Hi & _ & _ & Hr & Hb & Hg & Hh).
  destruct (register_record_ok _ _ _ _ _ _ _ Hr) as (Hg1 & _).
  destruct (register_record_status _ _ _ _ _ _ _ Hr)
    as (_ & ch & srv & Hc & Hs & Hin & Hst & _).
  assert (Hg1' : globals st1 !! name = Some server)
    by (rewrite Hg1; apply lookup_insert_eq).
  destruct (register_db_keeps env data name server st1 srv Hg1' Hs Hb)
    as (K1 & (srv' & K2 & K3) & _).
  exists name, inst, ch, server, srv'. rewrite Hi, Hg, Hh.
  repeat (split; [first [assumption | reflexivity]|]).
  split; [rewrite K3 by discriminate; exact Hin|].
  split; [rewrite K3 by discriminate; exact Hst|].
  intros d cmd Hd Hcmd. unfold guard. rewrite Hcmd. mred. rewrite Hd. mred.
  rewrite Hg, K1. mred. rewrite Hh, K2. cbn [from_option id].
  rewrite K3, Hst by discriminate.
  destruct (starts_with "sync-" ch); [|reflexivity].
  destruct (dict_get "pause" data) as [[|[]| | | | |]|]; reflexivity.
Qed.

Lemma accepted_registration_opens_the_guard_witness :
  let st' := snd (register_server Demo.env Demo.charlie_hello Demo.st) in
  register_server Demo.env Demo.charlie_hello Demo.st = (Ret true, st') /\
  exists name inst ch server srv,
    dict_get "server_name" Demo.charlie_hello = Some (VStr name) /\
    head (findDCSInstallations Demo.env name) = Some inst /\
    dict_get "channel" Demo.charlie_hello = Some (VStr ch) /\
    globals st' !! name = Some server /\
    heap st' !! server = Some srv /\
    dict_get "installation" srv = Some (VStr inst) /\
    dict_get "status" srv
    = Some (VStatus (if starts_with "sync-" ch
                     then match dict_get "pause" Demo.charlie_hello with
                          | Some (VBool true) => PAUSED
                          | _ => RUNNING
                          end
                     else LOADING)) /\
    (forall d cmd, dict_get "server_name" d = Some (VStr name) ->
                   is_str "registerDCSServer" cmd = false ->
                   guard Demo.env d cmd st' = (Ret true, st')).
Proof.
  split; [vm_compute; reflexivity|].
  apply (accepted_registration_opens_the_guard Demo.env Demo.charlie_hello Demo.st).
  vm_compute; reflexivity.
Defined.

(** Property X9.  When a server that is in the registry registers again, its
    record becomes a new dictionary: the entries of the old record, updated
    and extended by those of the announcement, under a fresh [installation]
    and [status] and freshly loaded [embeds].  The old dictionary itself is
    not written to, so whoever still holds it sees none of this. *)
Theorem reregistration_merges (env : Env) (data : Dict) (st st' : State)
  (name : string) (l0 : nat) (old : Dict) :
  register_server env data st = (Ret true, st') ->
  dict_get "server_name" data = Some (VStr name) ->
  keys_unique data = true ->
  globals st !! name = Some l0 ->
  heap st !! l0 = Some old ->
  exists server srv,
    globals st' !! name = Some server /\ server <> l0 /\
    heap st' !! server = Some srv /\
    heap st' !! l0 = Some old /\
    forall k, k <> "installation" -> k <> "status" -> k <> "embeds" ->
      dict_get k srv = match dict_get k data with
                       | Some v => Some v
                       | None => dict_get k old
                       end.
Proof.
  intros H Hn Hu Hg0 Ho.
  destruct (register_server_accepted env data st st' H)
    as (name' & inst & insts & st0 & server & st1 & Hn' & Hi & G0 & H0 & Hr & Hb & Hg & Hh).
  rewrite Hn in Hn'. injection Hn' as <-.
  destruct (register_record_ok _ _ _ _ _ _ _ Hr) as (Hg1 & Hk & _).
  destruct (register_record_status _ _ _ _ _ _ _ Hr)
    as (Hsv & ch & srv & Hc & Hs & _ & _ & Hm).
  assert (Hg1' : globals st1 !! name = Some server)
    by (rewrite Hg1; apply lookup_insert_eq).
  destruct (register_db_keeps env data name server st1 srv Hg1' Hs Hb)
    as (K1 & (srv' & K2 & K3) & K4).
  assert (Hlt : (l0 < length (heap st0))%nat)
    by (rewrite H0; now apply lookup_lt_Some in Ho).
  assert (Hne : l0 <> server) by lia.
  exists server, srv'. rewrite Hg, Hh.
  split; [exact K1|]. split; [congruence|]. split; [exact K2|]. split.
  - rewrite (K4 l0 Hne). apply Hk. now rewrite H0.
  - intros k A B C. rewrite (K3 k C).
    rewrite (Hm l0 old) by (first [now rewrite G0 | now rewrite H0 | assumption]).
    now apply dict_get_merge.
Qed.

Lemma reregistration_merges_witness :
  let st' := snd (register_server Demo.env Scenario.alpha_again Demo.st) in
  register_server Demo.env Scenario.alpha_again Demo.st = (Ret true, st') /\
  globals Demo.st !! "Alpha" = Some 0%nat /\
  heap Demo.st !! 0%nat = Some Demo.alpha /\
  exists server srv,
    globals st' !! "Alpha" = Some server /\ server <> 0%nat /\
    heap st' !! server = Some srv /\
    heap st' !! 0%nat = Some Demo.alpha /\
    forall k, k <> "installation" -> k <> "status" -> k <> "embeds" ->
      dict_get k srv = match dict_get k Scenario.alpha_again with
                       | Some v => Some v
                       | None => dict_get k Demo.alpha
                       end.
Proof.
  split; [vm_compute; reflexivity|]. split; [vm_compute; reflexivity|].
  split; [reflexivity|].
  apply (reregistration_merges Demo.env Scenario.alpha_again Demo.st _ "Alpha" 0
           Demo.alpha); vm_compute; reflexivity.
Defined.

(** Property X10.  An announcement that carries no host or no port never reaches
    the table of servers.  It can still be turned down for a server that is
    not configured or for its hook version, which leaves the registry as it
    was; otherwise the missing key is logged as an exception and the
    registration is accepted all the same. *)
Theorem registration_without_address (env : Env) (data : Dict) (st : State) :
  dict_get "host" data = None \/ dict_get "port" data = None ->
  let r := fst (register_server env data st) in
  let st' := snd (register_server env data st) in
  db_servers st' = db_servers st /\
  (r = Ret false -> globals st' = globals st /\ heap st' = heap st) /\
  (r = Ret true -> last (log st') = Some (EXCEPTION, "register_server")).
Proof.
  intros Hhp. cbv zeta. unfold register_server. mred.
  destruct (dict_get "server_name" data) as [nm|] eqn:Hn; mred;
    [|repeat split; intros [= ]].
  destruct nm as [| | |name| | |]; mred; try (repeat split; intros [= ]; fail).
  destruct (findDCSInstallations env name) as [|inst insts] eqn:Hi; mred; sred.
  { repeat split. intros [= ]. }
  destruct (dict_get "hook_version" data) as [hv|] eqn:Hv; mred;
    [|repeat split; intros [= ]].
  destruct (is_str (version env) hv) eqn:Hs; cbn [negb]; mred; sred.
  2:{ repeat split. intros [= ]. }
  match goal with |- context [register_record env data name inst ?s] =>
    destruct (register_record env data name inst s) as [[server|e] st1] eqn:Hr end.
  2:{ mred. cbn [fst snd].
      pose proof (register_record_db env data name inst
        (set_log (fun lg => lg ++ [(DEBUG, "Registering DCS-Server")]) st)) as Q.
      rewrite Hr in Q. cbn [snd] in Q. sred_in Q.
      split; [exact Q|]. split; intros [= ]. }
  apply register_record_ok in Hr. sred_in Hr. destruct Hr as (_ & _ & _ & _ & _ & Hdb).
  assert (E : exists k, register_db env data name server st1 = (Raise (KeyError k), st1)).
  { unfold register_db. mred. destruct Hhp as [Hh|Hp].
    - rewrite Hh. mred. eauto.
    - destruct (dict_get "host" data); mred; [rewrite Hp; mred|]; eauto. }
  destruct E as [k ->]. mred. sred. split; [exact Hdb|]. split; [intros [= ]|].
  intros _. apply last_snoc.
Qed.

Lemma registration_without_address_witness :
  let r := fst (register_server Demo.env Scenario.charlie_no_port Demo.st) in
  let st' := snd (register_server Demo.env Scenario.charlie_no_port Demo.st) in
  dict_get "port" Scenario.charlie_no_port = None /\
  r = Ret true /\
  db_servers st' = db_servers Demo.st /\
  last (log st') = Some (EXCEPTION, "register_server").
Proof.
  split; [reflexivity|]. split; [vm_compute; reflexivity|].
  destruct (registration_without_address Demo.env Scenario.charlie_no_port Demo.st
              (or_intror eq_refl)) as (H1 & _ & H3).
  split; [exact H1|]. apply H3. vm_compute; reflexivity.
Defined.

(** ** Start-up: [init_servers] and [register_eventListener] *)

Ltac sred' :=
  sred; cbn [set_eventListeners heap globals listeners futures embeds eventListeners
             db_servers db_persistence sent delivered settings_changes log].

Lemma alter_snoc {A} (f : A -> A) (h : list A) (d : A) :
  alter f (length h) (h ++ [d]) = h ++ [f d].
Proof. induction h as [|x h IH]; simpl; [reflexivity | now f_equal]. Qed.

(** What one turn of the loop of [init_servers] leaves, whether or not it
    ends in an exception: one new record, entered under the name of the row. *)
Lemma init_row_shape (env : Env) (r : ServerRow) (st : State) :
  exists srv,
    heap (snd (init_row env r st)) = heap st ++ [srv] /\
    globals (snd (init_row env r st)) = <[sr_name r := length (heap st)]> (globals st) /\
    db_servers (snd (init_row env r st)) = db_servers st /\
    dict_get "status" srv = Some (VStatus UNKNOWN) /\
    dict_get "server_name" srv = Some (VStr (sr_name r)) /\
    dict_get "host" srv = Some (VStr (sr_host r)) /\
    dict_get "port" srv = Some (VInt (sr_port r)) /\
    (dict_has "installation" srv = true <->
     exists inst, findDCSInstallations env (sr_name r) = [inst]) /\
    (configured env r = true -> fst (init_row env r st) = Ret tt).
Proof.
  unfold init_row, configured. mred. sred.
  destruct (findDCSInstallations env (sr_name r)) as [|inst [|inst' insts]];
    mred; sred; rewrite ?alter_snoc.
  - eexists. repeat (split; [reflexivity|]). split; [|reflexivity].
    split; [discriminate | intros [i [= ]]].
  - destruct (config env inst) as [sec|]; mred; sred; rewrite ?alter_snoc.
    2:{ eexists. repeat (split; [reflexivity|]). split; [|discriminate].
        split; [eauto | reflexivity]. }
    destruct (sec "CHAT_CHANNEL"); mred; sred; rewrite ?alter_snoc.
    2:{ eexists. repeat (split; [reflexivity|]). split; [|discriminate].
        split; [eauto | reflexivity]. }
    destruct (sec "STATUS_CHANNEL"); mred; sred; rewrite ?alter_snoc.
    2:{ eexists. repeat (split; [reflexivity|]). split; [|discriminate].
        split; [eauto | reflexivity]. }
    destruct (sec "ADMIN_CHANNEL"); mred; sred; rewrite ?alter_snoc.
    2:{ eexists. repeat (split; [reflexivity|]). split; [|discriminate].
        split; [eauto | reflexivity]. }
    eexists. repeat (split; [reflexivity|]). split; [|reflexivity].
    split; [eauto | reflexivity].
  - eexists. repeat (split; [reflexivity|]). split; [|reflexivity].
    split; [discriminate | intros [i [= ]]].
Qed.

Lemma init_row_all_unknown (env : Env) (r : ServerRow) (st : State) :
  all_unknown st -> all_unknown (snd (init_row env r st)).
Proof.
  intros Inv. destruct (init_row_shape env r st) as (srv & Hh & Hg & _ & Hs & _).
  intros name l. rewrite Hg, Hh. destruct (decide (sr_name r = name)) as [->|Hne].
  - rewrite lookup_insert_eq. intros [= <-]. exists srv.
    split; [|exact Hs]. rewrite lookup_app_r, Nat.sub_diag by lia. reflexivity.
  - rewrite lookup_insert_ne by exact Hne. intros Hl.
    destruct (Inv name l Hl) as (d & Hd & Hst). exists d.
    split; [now apply lookup_alloc_old | exact Hst].
Qed.

Lemma init_rows_all_unknown (env : Env) (rows : list ServerRow) (st : State) :
  all_unknown st -> all_unknown (snd (init_rows env rows st)).
Proof.
  revert st. induction rows as [|r rows IH]; intros st Inv; [exact Inv|].
  cbn [init_rows]. unfold bind.
  pose proof (init_row_all_unknown env r st Inv) as Inv1.
  destruct (init_row env r st) as [[[]|e] st1]; cbn [snd] in *;
    [now apply IH | exact Inv1].
Qed.

Lemma all_unknown_unregistered (st : State) (nm : Val) :
  all_unknown st -> unregistered nm st.
Proof.
  intros Inv. destruct nm as [| | |name| | |]; try exact I. cbn [unregistered].
  destruct (globals st !! name) as [l|] eqn:Hg; [right | now left].
  destruct (Inv name l Hg) as (srv & Hs & Hst). eauto.
Qed.

(** Property X14.  [init_servers] never raises and never makes a server known:
    if every record of the registry has the status [UNKNOWN] before it, as
    in the empty registry of a bot that has just been made, every record has
    it afterwards, and [handle] drops every event other than a registration. *)
Theorem init_servers_all_unknown (env : Env) (st : State) :
  all_unknown st ->
  fst (init_servers env st) = Ret tt /\
  all_unknown (snd (init_servers env st)) /\
  (forall d name cmd,
     dict_get "server_name" d = Some (VStr name) ->
     is_str "registerDCSServer" cmd = false ->
     fst (guard env d cmd (snd (init_servers env st))) = Ret false).
Proof.
  intros Inv.
  assert (H : fst (init_servers env st) = Ret tt /\
              all_unknown (snd (init_servers env st))).
  { unfold init_servers. mred. sred.
    pose proof (init_rows_all_unknown env
                  (filter (fun r => String.eqb (sr_agent r) (node env) = true)
                     (db_servers st)) st Inv) as Inv1.
    destruct (init_rows env _ st) as [[[]|e] st1]; cbn [snd] in Inv1; mred; sred;
      (split; [reflexivity | exact Inv1]). }
  destruct H as [H1 H2]. split; [exact H1|]. split; [exact H2|].
  intros d name cmd Hd Hc.
  now rewrite (guard_unregistered env d (VStr name) cmd _ Hd Hc
                 (all_unknown_unregistered _ _ H2)).
Qed.

Lemma init_servers_all_unknown_witness :
  let st' := snd (init_servers Demo.env Scenario.fresh) in
  fst (init_servers Demo.env Scenario.fresh) = Ret tt /\
  all_unknown st' /\
  lookup "Alpha" st'
  = Some [("server_name", VStr "Alpha"); ("host", VStr "127.0.0.1");
          ("port", VInt 6666); ("status", VStatus UNKNOWN);
          ("installation", VStr "instance1"); ("chat_channel", VStr "1001");
          ("status_channel", VStr "1002"); ("admin_channel", VStr "1003")] /\
  fst (guard Demo.env Scenario.chat (VStr "onChatMessage") st') = Ret false.
Proof.
  assert (Inv : all_unknown Scenario.fresh).
  { intros name l H. change (globals Scenario.fresh) with (∅ : gmap string nat) in H.
    rewrite lookup_empty in H. discriminate. }
  destruct (init_servers_all_unknown Demo.env Scenario.fresh Inv) as (H1 & H2 & H3).
  split; [exact H1|]. split; [exact H2|]. split; [vm_compute; reflexivity|].
  apply (H3 Scenario.chat "Alpha"); reflexivity.
Defined.

Lemma init_rows_loads (env : Env) (rows : list ServerRow) (st : State) :
  Forall (fun r => configured env r = true) rows ->
  NoDup (map sr_name rows) ->
  fst (init_rows env rows st) = Ret tt /\
  heap_kept st (snd (init_rows env rows st)) /\
  db_servers (snd (init_rows env rows st)) = db_servers st /\
  (forall n, n ∉ map sr_name rows ->
     globals (snd (init_rows env rows st)) !! n = globals st !! n) /\
  (forall r, r ∈ rows ->
     exists l srv,
       globals (snd (init_rows env rows st)) !! sr_name r = Some l /\
       heap (snd (init_rows env rows st)) !! l = Some srv /\
       dict_get "server_name" srv = Some (VStr (sr_name r)) /\
       dict_get "host" srv = Some (VStr (sr_host r)) /\
       dict_get "port" srv = Some (VInt (sr_port r)) /\
       dict_get "status" srv = Some (VStatus UNKNOWN) /\
       (dict_has "installation" srv = true <->
        exists inst, findDCSInstallations env (sr_name r) = [inst])).
Proof.
  revert st. induction rows as [|r rows IH]; intros st Hc Hn.
  - cbn [init_rows]. mred. cbn [fst snd]. repeat split; auto.
    + apply heap_kept_refl.
    + intros r Hr. now apply elem_of_nil in Hr.
  - apply Forall_cons in Hc as [Hc1 Hc]. cbn [map] in Hn.
    apply NoDup_cons in Hn as [Hn1 Hn].
    cbn [init_rows]. unfold bind.
    destruct (init_row_shape env r st)
      as (srv & Hh & Hg & Hdb & Hst & Hsn & Hho & Hpo & Hin & Hok).
    specialize (Hok Hc1).
    destruct (init_row env r st) as [[[]|e] st1]; cbn [fst snd] in *; [|discriminate].
    destruct (IH st1 Hc Hn) as (I1 & I2 & I3 & I4 & I5).
    split; [exact I1|]. split; [|split; [congruence|split]].
    + intros l d Hl. apply I2. rewrite Hh. now apply lookup_alloc_old.
    + intros n Hnot. apply not_elem_of_cons in Hnot as [Hne Hnot].
      rewrite (I4 n Hnot), Hg. now rewrite lookup_insert_ne by congruence.
    + intros r' Hr'. apply elem_of_cons in Hr' as [->|Hr']; [|now apply I5].
      exists (length (heap st)), srv. rewrite (I4 _ Hn1), Hg, lookup_insert_eq.
      split; [reflexivity|]. split; [|auto 10].
      apply I2. rewrite Hh, lookup_app_r, Nat.sub_diag by lia. reflexivity.
Qed.

(** Property X15.  With a table whose rows of this node have distinct names, and
    a configuration that has the channels of every installation found,
    [init_servers] loads every such row: the registry gets a record with the
    name, host and port of the row and the status [UNKNOWN], and with an
    [installation] exactly when one installation was found for the name. The
    table is left as it is. *)
Theorem init_servers_loads (env : Env) (st : State) :
  let rows := filter (fun r => String.eqb (sr_agent r) (node env) = true)
                (db_servers st) in
  Forall (fun r => configured env r = true) rows ->
  NoDup (map sr_name rows) ->
  db_servers (snd (init_servers env st)) = db_servers st /\
  forall r, r ∈ rows ->
    exists srv,
      lookup (sr_name r) (snd (init_servers env st)) = Some srv /\
      dict_get "server_name" srv = Some (VStr (sr_name r)) /\
      dict_get "host" srv = Some (VStr (sr_host r)) /\
      dict_get "port" srv = Some (VInt (sr_port r)) /\
      dict_get "status" srv = Some (VStatus UNKNOWN) /\
      (dict_has "installation" srv = true <->
       exists inst, findDCSInstallations env (sr_name r) = [inst]).
Proof.
  cbv zeta. intros Hc Hn.
  destruct (init_rows_loads env _ st Hc Hn) as (I1 & I2 & I3 & I4 & I5).
  unfold init_servers. mred. sred.
  destruct (init_rows env _ st) as [[[]|e] st1]; cbn [fst snd] in *; [|discriminate].
  mred. sred. split; [exact I3|]. intros r Hr.
  destruct (I5 r Hr) as (l & srv & Hg & Hh & Hrest). exists srv.
  split; [|exact Hrest]. unfold lookup. sred. now rewrite Hg.
Qed.

Lemma init_servers_loads_witness :
  let st' := snd (init_servers Demo.env Scenario.fresh) in
  db_servers st' = db_servers Scenario.fresh /\
  exists srv,
    lookup "Bravo" st' = Some srv /\
    dict_get "server_name" srv = Some (VStr "Bravo") /\
    dict_get "host" srv = Some (VStr "127.0.0.1") /\
    dict_get "port" srv = Some (VInt 6667) /\
    dict_get "status" srv = Some (VStatus UNKNOWN) /\
    (dict_has "installation" srv = true <->
     exists inst, findDCSInstallations Demo.env "Bravo" = [inst]).
Proof.
  assert (Hc : Forall (fun r => configured Demo.env r = true)
                 (filter (fun r => String.eqb (sr_agent r) (node Demo.env) = true)
                    (db_servers Scenario.fresh))).
  { vm_compute. repeat constructor. }
  assert (Hn : NoDup (map sr_name
                 (filter (fun r => String.eqb (sr_agent r) (node Demo.env) = true)
                    (db_servers Scenario.fresh)))).
  { apply (bool_decide_unpack _). vm_compute. exact I. }
  destruct (init_servers_loads Demo.env Scenario.fresh Hc Hn) as [H1 H2].
  split; [exact H1|].
  apply (H2 (mkServerRow "Bravo" "node1" "127.0.0.1" 6667)).
  apply list_elem_of_filter. split; [reflexivity|].
  apply list_elem_of_further, list_elem_of_here.
Defined.

(** Property X16.  A listener that registers is served after all the listeners
    that were there before it, and its result answers a synchronous request
    only when none of them returned one. *)
Theorem register_eventListener_last (l : Listener) (d : Dict) (st : State) :
  let st1 := snd (register_eventListener l st) in
  fst (register_eventListener l st) = Ret tt /\
  delivered (snd (dispatch d st1))
  = delivered st ++ imap (fun i _ => (i, d)) (eventListeners st)
      ++ [(length (eventListeners st), d)] /\
  first_result (eventListeners st1) d
  = match results_of (map (fun x : Listener => x d) (eventListeners st)) with
    | r :: _ => r
    | [] => match l d with
            | Ret v => if truthy v then v else VNone
            | Raise _ => VNone
            end
    end.
Proof.
  cbv zeta. unfold register_eventListener. mred. sred'. split; [reflexivity|]. split.
  - rewrite dispatch_delivered. sred'. rewrite imap_app. cbn [imap].
    now rewrite Nat.add_0_r.
  - unfold first_result. rewrite map_app. unfold results_of. rewrite flat_map_app. sred'.
    destruct (flat_map _ (map _ (eventListeners st))) as [|r rs]; [|reflexivity].
    cbn [map flat_map app]. destruct (l d) as [v|e]; [|reflexivity].
    destruct (truthy v); reflexivity.
Qed.

(** ** The loop-back socket and the channel of an event *)

Lemma rstrip_snoc (s : string) (c : ascii) :
  is_space c = false ->
  rstrip (s +:+ String c EmptyString) = s +:+ String c EmptyString.
Proof.
  intros Hc. induction s as [|a s IH].
  - change (EmptyString +:+ String c EmptyString) with (String c EmptyString).
    cbn [rstrip]. now rewrite Hc.
  - change (String a s +:+ String c EmptyString)
      with (String a (s +:+ String c EmptyString)).
    cbn [rstrip]. rewrite IH. destruct s; reflexivity.
Qed.

Lemma strip_object (d : Dict) : strip (json_text (VDict d)) = json_text (VDict d).
Proof.
  cbn [json_text]. set (body := join _ _).
  change ("{" +:+ body +:+ "}") with (String "{" (body +:+ "}")).
  unfold strip. change (lstrip (String "{" (body +:+ "}"))) with (String "{" (body +:+ "}")).
  change (String "{" (body +:+ "}")) with (String "{" body +:+ "}").
  now apply rstrip_snoc.
Qed.

Lemma dict_has_set_ne (k k' : string) (v : Val) (d : Dict) :
  k <> k' -> dict_has k (dict_set k' v d) = dict_has k d.
Proof. intros H. unfold dict_has. now rewrite dict_get_set_ne. Qed.

Lemma wf_dict_set (k : string) (v : Val) (d : Dict) :
  wf_val v = true -> wf_dict d = true -> wf_dict (dict_set k v d) = true.
Proof.
  unfold wf_dict. intros Hv. induction d as [|[k' v'] d IH]; intros Hd.
  - cbn. now rewrite Hv.
  - cbn [wf_val keys_unique forallb snd] in Hd.
    apply andb_true_iff in Hd as [Hu Hf]. apply andb_true_iff in Hu as [Hk Hu].
    apply andb_true_iff in Hf as [Hv' Hf].
    cbn [dict_set]. destruct (String.eqb k k') eqn:E.
    + cbn [wf_val keys_unique forallb snd]. now rewrite Hk, Hu, Hv, Hf.
    + assert (Hd : wf_val (VDict d) = true)
        by (cbn [wf_val]; now rewrite Hu, Hf).
      specialize (IH Hd). cbn [wf_val] in IH.
      apply andb_true_iff in IH as [IH1 IH2].
      cbn [wf_val keys_unique forallb snd].
      rewrite dict_has_set_ne by (apply String.eqb_neq; now rewrite String.eqb_sym).
      now rewrite Hk, IH1, Hv', IH2.
Qed.

Lemma sendtoBot_ret_inv (env : Env) (message : nat) (st st1 : State) (m : Dict) :
  heap st !! message = Some m ->
  sendtoBot env message st = (Ret tt, st1) ->
  let m' := dict_set "channel" (VStr "-1") m in
  exists h p port,
    json_encodable (VDict m') = true /\
    py_int p = Ret port /\
    st1 = set_sent (fun s => s ++ [mkDatagram
                      (if is_str "0.0.0.0" h then VStr "127.0.0.1" else h) port
                      (json_text (VDict m'))])
            (set_log (fun lg => lg ++ [(DEBUG, "HOST->HOST")])
               (set_heap (fun hp => alter (dict_set "channel" (VStr "-1")) message hp)
                  st)).
Proof.
  intros Hm. cbv zeta. unfold sendtoBot. mred. sred.
  rewrite list_lookup_alter_eq, Hm. cbn [fmap option_fmap option_map from_option id].
  unfold json_dumps.
  destruct (json_encodable (VDict (dict_set "channel" (VStr "-1") m))) eqn:He;
    mred; sred; [|intros [= ]].
  destruct (config env "BOT") as [sec|]; mred; sred; [|intros [= ]].
  destruct (sec "HOST") as [h|]; mred; sred; [|intros [= ]].
  destruct (sec "PORT") as [p|]; mred; sred; [|intros [= ]].
  destruct (py_int (VStr p)) as [port|] eqn:Hp; mred; sred; [|intros [= ]].
  intros [= <-]. exists (VStr h), (VStr p), port. repeat split; auto.
Qed.

(** Property X17.  The datagram [sendtoBot] writes is the caller's message with
    its channel set to [-1] and nothing else rewritten: integers travel as
    JSON numbers, and decoding the text gives the message back as it now
    stands in the caller's dictionary.  The datagram is never addressed to
    [0.0.0.0]. *)
Theorem sendtoBot_roundtrip (env : Env) (message : nat) (st st1 : State) (m : Dict) :
  heap st !! message = Some m ->
  wf_dict m = true ->
  sendtoBot env message st = (Ret tt, st1) ->
  let m' := dict_set "channel" (VStr "-1") m in
  exists host port txt,
    sent st1 = sent st ++ [mkDatagram host port txt] /\
    host <> VStr "0.0.0.0" /\
    heap st1 !! message = Some m' /\
    json_loads (strip txt) = Some (VDict m') /\
    dict_get "channel" m' = Some (VStr "-1") /\
    (forall k, k <> "channel" -> dict_get k m' = dict_get k m).
Proof.
  intros Hm Hw H. cbv zeta.
  destruct (sendtoBot_ret_inv env message st st1 m Hm H) as (h & p & port & He & Hp & ->).
  eexists _, port, _. sred. split; [reflexivity|]. split; [|split; [|split; [|split]]].
  - destruct h as [| | |s| | |]; cbn [is_str]; try discriminate.
    destruct (String.eqb "0.0.0.0" s) eqn:E; [discriminate|].
    apply String.eqb_neq in E. congruence.
  - now rewrite list_lookup_alter_eq, Hm.
  - rewrite strip_object. apply json_loads_dumps.
    + now apply wf_dict_set.
    + unfold json_dumps. now rewrite He.
  - apply dict_get_set_eq.
  - intros k Hk. now apply dict_get_set_ne.
Qed.

Lemma sendtoBot_roundtrip_witness :
  let st1 := snd (sendtoBot Scenario.env 4 Scenario.st_report) in
  let m' := dict_set "channel" (VStr "-1") Scenario.report in
  heap Scenario.st_report !! 4%nat = Some Scenario.report /\
  wf_dict Scenario.report = true /\
  sendtoBot Scenario.env 4 Scenario.st_report = (Ret tt, st1) /\
  exists host port txt,
    sent st1 = sent Scenario.st_report ++ [mkDatagram host port txt] /\
    host <> VStr "0.0.0.0" /\
    heap st1 !! 4%nat = Some m' /\
    json_loads (strip txt) = Some (VDict m') /\
    dict_get "channel" m' = Some (VStr "-1") /\
    (forall k, k <> "channel" -> dict_get k m' = dict_get k Scenario.report).
Proof.
  split; [vm_compute; reflexivity|]. split; [reflexivity|].
  split; [vm_compute; reflexivity|].
  apply (sendtoBot_roundtrip Scenario.env 4 Scenario.st_report _ Scenario.report);
    vm_compute; reflexivity.
Defined.

Lemma guard_registered (env : Env) (d : Dict) (cmd : Val) (st : State)
  (name : string) (l : nat) (srv : Dict) (status : Val) :
  dict_get "server_name" d = Some (VStr name) ->
  is_str "registerDCSServer" cmd = false ->
  globals st !! name = Some l ->
  heap st !! l = Some srv ->
  dict_get "status" srv = Some status ->
  status <> VStatus UNKNOWN ->
  guard env d cmd st = (Ret true, st).
Proof.
  intros Hd Hc Hg Hh Hs Hne. unfold guard. rewrite Hc. mred. rewrite Hd. mred.
  rewrite Hg. mred. rewrite Hh. cbn [from_option id]. rewrite Hs.
  destruct status as [| | | |[]| |]; try reflexivity. now destruct Hne.
Qed.

(** Property X18.  What [sendtoBot] sends comes back through [handle] as an
    event like any other: for a message that names a command and a server
    that is registered, the decoded message, with the channel [-1], is given
    to every listener, and since that channel is no token, no waiting
    request is settled by it. *)
Theorem sendtoBot_then_handle (env : Env) (message : nat) (st st1 : State)
  (m srv : Dict) (name : string) (cmd status : Val) (l : nat) :
  (forall s, json_decode env s = json_loads s) ->
  heap st !! message = Some m ->
  wf_dict m = true ->
  dict_get "server_name" m = Some (VStr name) ->
  dict_get "command" m = Some cmd ->
  is_str "registerDCSServer" cmd = false ->
  globals st !! name = Some l -> l <> message ->
  heap st !! l = Some srv ->
  dict_get "status" srv = Some status -> status <> VStatus UNKNOWN ->
  sendtoBot env message st = (Ret tt, st1) ->
  exists dg,
    sent st1 = sent st ++ [dg] /\
    fst (handle env (dg_payload dg) st1) = Ret tt /\
    delivered (snd (handle env (dg_payload dg) st1))
    = delivered st1
      ++ imap (fun i _ => (i, dict_set "channel" (VStr "-1") m)) (eventListeners st1) /\
    listeners (snd (handle env (dg_payload dg) st1)) = listeners st1 /\
    futures (snd (handle env (dg_payload dg) st1)) = futures st1.
Proof.
  intros Hj Hm Hw Hn Hcmd Hreg Hg Hne Hs Hst Hu H.
  destruct (sendtoBot_ret_inv env message st st1 m Hm H) as (h & p & port & He & Hp & ->).
  set (m' := dict_set "channel" (VStr "-1") m) in *.
  eexists. sred. split; [reflexivity|]. cbn [dg_payload].
  set (st1 := set_sent _ _).
  assert (Hd : json_decode env (strip (json_text (VDict m'))) = Some (VDict m')).
  { rewrite Hj, strip_object. apply json_loads_dumps.
    - now apply wf_dict_set.
    - unfold json_dumps. now rewrite He. }
  assert (Hn' : dict_get "server_name" m' = Some (VStr name))
    by (unfold m'; now rewrite dict_get_set_ne by discriminate).
  assert (Hc' : dict_get "command" m' = Some cmd)
    by (unfold m'; now rewrite dict_get_set_ne by discriminate).
  rewrite (handle_dict env _ st1 m' cmd Hd (dict_has_get _ _ _ Hn') Hc').
  rewrite (guard_registered env m' cmd _ name l srv status Hn' Hreg); auto.
  2:{ unfold st1. sred. now rewrite list_lookup_alter_ne by congruence. }
  set (st2 := set_log _ st1).
  assert (Hch : dict_get "channel" m' = Some (VStr "-1")) by apply dict_get_set_eq.
  split; [|split].
  - unfold dispatch. mred. rewrite collect_eq. mred. rewrite Hch. reflexivity.
  - now rewrite dispatch_delivered.
  - destruct (dispatch_pending m' st2) as [E|(ch & fid & Hc2 & Hs2 & _)]; [exact E|].
    rewrite Hch in Hc2. injection Hc2 as <-. discriminate Hs2.
Qed.

Lemma sendtoBot_then_handle_witness :
  let st1 := snd (sendtoBot Scenario.env 4 Scenario.st_report) in
  sendtoBot Scenario.env 4 Scenario.st_report = (Ret tt, st1) /\
  listeners st1 !! "sync-7f1c" = Some 0%nat /\
  exists dg,
    sent st1 = sent Scenario.st_report ++ [dg] /\
    fst (handle Scenario.env (dg_payload dg) st1) = Ret tt /\
    delivered (snd (handle Scenario.env (dg_payload dg) st1))
    = delivered st1
      ++ imap (fun i _ => (i, dict_set "channel" (VStr "-1") Scenario.report))
           (eventListeners st1) /\
    listeners (snd (handle Scenario.env (dg_payload dg) st1)) = listeners st1 /\
    futures (snd (handle Scenario.env (dg_payload dg) st1)) = futures st1.
Proof.
  split; [vm_compute; reflexivity|]. split; [vm_compute; reflexivity|].
  apply (sendtoBot_then_handle Scenario.env 4 Scenario.st_report _ Scenario.report
           Demo.alpha "Alpha" (VStr "onMissionEnd") (VStatus RUNNING) 0
           (fun s => eq_refl));
    try discriminate; vm_compute; reflexivity.
Defined.

Lemma numeral_no_token (n : Z) : starts_with "sync" (str_of_int n) = false.
Proof.
  destruct (str_of_int_head n) as (c & t & -> & Hc).
  unfold starts_with. cbn [strip_prefix].
  destruct (Ascii.eqb "s" c) eqn:E; [|reflexivity].
  apply Ascii.eqb_eq in E. subst c. discriminate Hc.
Qed.

(** Property X19.  [get_bot_channel] answers in the channel the event names,
    whatever the registry holds, when that channel is a number other than
    [-1]; for the channel [-1] and for the token of a synchronous request it
    is the channel of the given type in the record of the server. *)
Theorem get_bot_channel_source (data : Dict) (channel_type : string) (st : State) :
  (forall n, n <> -1 ->
     dict_get "channel" data = Some (VStr (str_of_int n)) ->
     get_bot_channel data channel_type st = (Ret n, st)) /\
  (forall ch name l srv c z,
     dict_get "channel" data = Some (VStr ch) ->
     ch = "-1" \/ starts_with "sync" ch = true ->
     dict_get "server_name" data = Some (VStr name) ->
     globals st !! name = Some l ->
     heap st !! l = Some srv ->
     dict_get channel_type srv = Some c ->
     py_int c = Ret z ->
     get_bot_channel data channel_type st = (Ret z, st)).
Proof.
  split.
  - intros n Hn Hc. unfold get_bot_channel. mred. rewrite Hc. mred.
    rewrite numeral_no_token. mred. cbn [py_int]. rewrite int_of_str_of_int. mred.
    destruct (n =? -1) eqn:E; [apply Z.eqb_eq in E; contradiction|].
    reflexivity.
  - intros ch name l srv c z Hc Hch Hn Hg Hh Hct Hz.
    unfold get_bot_channel, globals_at. mred. rewrite Hc. mred.
    assert (E : (if starts_with "sync" ch
                 then (fun s : State => (Ret true, s))
                 else fun s : State =>
                        match py_int (VStr ch) with
                        | Ret a => (Ret (a =? -1), s)
                        | Raise e => (Raise e, s)
                        end) st = (Ret true, st)).
    { destruct Hch as [->| ->]; reflexivity. }
    destruct (starts_with "sync" ch); cbv beta in E |- *.
    + rewrite Hn. mred. rewrite Hg. mred. rewrite Hh. cbn [from_option id].
      rewrite Hct. now rewrite Hz.
    + destruct (py_int (VStr ch)) as [a|e]; [|discriminate].
      injection E as ->. rewrite Hn. mred. rewrite Hg. mred. rewrite Hh.
      cbn [from_option id]. rewrite Hct. now rewrite Hz.
Qed.

Lemma get_bot_channel_source_witness :
  get_bot_channel Scenario.report "status_channel" Demo.st = (Ret 77, Demo.st) /\
  get_bot_channel Demo.answer "status_channel" Demo.st = (Ret 1002, Demo.st).
Proof.
  split.
  - apply (proj1 (get_bot_channel_source Scenario.report "status_channel" Demo.st) 77);
      [discriminate | reflexivity].
  - apply (proj2 (get_bot_channel_source Demo.answer "status_channel" Demo.st)
             "sync-7f1c" "Alpha" 0%nat Demo.alpha (VStr "1002") 1002);
      try reflexivity. now right.
Defined.

(** ** The intercom table across a turn of the poll loop *)

(** The rows a turn adds: replies for the master, numbered from the
    sequence of the table. *)
Lemma process_row_tbl (env : Agent.Env) (row : Agent.IntercomRow) (st : Agent.State) :
  exists added,
    Agent.intercom_tbl (snd (Agent.process_row env row st))
    = Agent.intercom_tbl st ++ added /\
    Agent.next_id (snd (Agent.process_row env row st))
    = Agent.next_id st + Z.of_nat (length added) /\
    Forall (fun r => Agent.row_agent r = "Master" /\
                     Agent.next_id st <= Agent.row_id r
                     < Agent.next_id st + Z.of_nat (length added)) added /\
    NoDup (map Agent.row_id added).
Proof.
  assert (Nil : forall s : Agent.State,
            Agent.intercom_tbl s = Agent.intercom_tbl st ->
            Agent.next_id s = Agent.next_id st ->
            exists added,
              Agent.intercom_tbl s = Agent.intercom_tbl st ++ added /\
              Agent.next_id s = Agent.next_id st + Z.of_nat (length added) /\
              Forall (fun r => Agent.row_agent r = "Master" /\
                               Agent.next_id st <= Agent.row_id r
                               < Agent.next_id st + Z.of_nat (length added)) added /\
              NoDup (map Agent.row_id added)).
  { intros s H1 H2. exists []. rewrite app_nil_r. cbn [length map].
    repeat split; [exact H1 | lia | constructor | constructor]. }
  unfold Agent.process_row.
  destruct (Agent.row_data row) as [| | | | | |data]; try (apply Nil; reflexivity).
  ared.
  destruct (dict_get "server_name" data) as [sn|]; ared; [|apply Nil; reflexivity].
  destruct (dict_get "command" data) as [command|]; ared; [|apply Nil; reflexivity].
  destruct sn as [| | |name| | |]; ared; asred; try (apply Nil; reflexivity).
  destruct (bool_decide (name ∈ Agent.servers st)); ared; asred;
    [|apply Nil; reflexivity].
  destruct (is_str "rpc" command); ared; asred; [|apply Nil; reflexivity].
  destruct (match dict_get "object" data with
            | Some v => is_str "Server" v
            | None => false
            end); ared; asred; [|apply Nil; reflexivity].
  destruct (Agent.rpc_outcome env name data) as [rc|e]; ared; asred;
    [|apply Nil; reflexivity].
  destruct (truthy rc); ared; asred; [|apply Nil; reflexivity].
  eexists [_]. split; [reflexivity|]. cbn [length map Agent.row_id].
  split; [lia|]. split.
  - constructor; [|constructor]. cbn. split; [reflexivity | lia].
  - apply NoDup_singleton.
Qed.

Lemma process_rows_tbl (env : Agent.Env) (rows : list Agent.IntercomRow)
  (st : Agent.State) :
  exists added,
    Agent.intercom_tbl (snd (Agent.process_rows env rows st))
    = Agent.intercom_tbl st ++ added /\
    Agent.next_id (snd (Agent.process_rows env rows st))
    = Agent.next_id st + Z.of_nat (length added) /\
    Forall (fun r => Agent.row_agent r = "Master" /\
                     Agent.next_id st <= Agent.row_id r
                     < Agent.next_id st + Z.of_nat (length added)) added /\
    NoDup (map Agent.row_id added).
Proof.
  revert st. induction rows as [|row rows IH]; intros st.
  - exists []. cbn [Agent.process_rows]. ared. cbn [snd length map].
    rewrite app_nil_r. repeat split; [lia | constructor | constructor].
  - cbn [Agent.process_rows]. unfold bind.
    destruct (process_row_tbl env row st) as (a1 & T1 & N1 & F1 & D1).
    destruct (Agent.process_row env row st) as [[[]|e] st1]; cbn [snd] in *.
    + destruct (IH st1) as (a2 & T2 & N2 & F2 & D2).
      exists (a1 ++ a2). rewrite T2, T1, N2, N1, length_app, map_app, app_assoc.
      rewrite Forall_forall in F1. rewrite Forall_forall in F2.
      split; [reflexivity|]. split; [lia|]. split.
      * apply Forall_forall. intros r Hr. apply elem_of_app in Hr as [Hr|Hr].
        -- destruct (F1 r Hr) as [? ?]. split; [assumption | lia].
        -- destruct (F2 r Hr) as [? ?]. split; [assumption | lia].
      * apply NoDup_app. split; [exact D1|]. split; [|exact D2].
        intros x Hx Hx'.
        apply list_elem_of_fmap in Hx as (r1 & -> & Hr1).
        apply list_elem_of_fmap in Hx' as (r2 & E & Hr2).
        destruct (F1 r1 Hr1) as [_ B1]. destruct (F2 r2 Hr2) as [_ B2]. lia.
    + exists a1. auto.
Qed.

Lemma filter_ext_in {A} (P Q : A -> Prop) `{!forall x, Decision (P x)}
  `{!forall x, Decision (Q x)} (l : list A) :
  (forall x, x ∈ l -> (P x <-> Q x)) -> filter P l = filter Q l.
Proof.
  induction l as [|x l IH]; intros Hpq; [reflexivity|].
  rewrite !filter_cons.
  rewrite IH by (intros y Hy; apply Hpq; now right).
  destruct (decide (P x)) as [p|np], (decide (Q x)) as [q|nq]; try reflexivity.
  - destruct nq. apply Hpq; [left | exact p].
  - destruct np. apply Hpq; [left | exact q].
Qed.

Lemma filter_all {A} (P : A -> Prop) `{!forall x, Decision (P x)} (l : list A) :
  (forall x, x ∈ l -> P x) -> filter P l = l.
Proof.
  induction l as [|x l IH]; intros Hp; [reflexivity|].
  rewrite filter_cons_True by (apply Hp; left).
  f_equal. apply IH. intros y Hy. apply Hp. now right.
Qed.

Lemma NoDup_map_inj {A B} (f : A -> B) (l : list A) (x y : A) :
  NoDup (map f l) -> x ∈ l -> y ∈ l -> f x = f y -> x = y.
Proof.
  induction l as [|a l IH]; intros Hn Hx Hy E; [now apply elem_of_nil in Hx|].
  cbn [map] in Hn. apply NoDup_cons in Hn as [Ha Hn].
  apply elem_of_cons in Hx as [->|Hx]; apply elem_of_cons in Hy as [->|Hy].
  - reflexivity.
  - destruct Ha. rewrite E. apply list_elem_of_fmap. eauto.
  - destruct Ha. rewrite <- E. apply list_elem_of_fmap. eauto.
  - now apply IH.
Qed.

Lemma filter_master (node : string) (added : list Agent.IntercomRow) :
  node <> "Master" ->
  Forall (fun r => Agent.row_agent r = "Master") added ->
  filter (fun r => String.eqb (Agent.row_agent r) node = true) added = [].
Proof.
  intros Hn. induction 1 as [|r l Hr _ IH]; [reflexivity|].
  rewrite filter_cons_False; [exact IH|].
  rewrite Hr. intros E. apply String.eqb_eq in E. congruence.
Qed.

(** Property X20.  A turn of the poll loop that ends in an exception deletes
    nothing: every row of the table is still there, the rows it had fetched
    and worked on included, so the next turn of an agent fetches the same
    rows again; what the failed turn has added are the replies it had queued
    for the master before it failed. *)
Theorem intercom_failure_keeps_rows (env : Agent.Env) (st st' : Agent.State)
  (e : Exc) :
  Agent.intercom env st = (Raise e, st') ->
  exists added,
    Agent.intercom_tbl st' = Agent.intercom_tbl st ++ added /\
    Forall (fun r => Agent.row_agent r = "Master") added /\
    (Agent.node env <> "Master" -> Agent.fetchall env st' = Agent.fetchall env st).
Proof.
  unfold Agent.intercom.
  destruct (process_rows_tbl env (Agent.fetchall env st) st) as (added & T & _ & F & _).
  destruct (Agent.process_rows env (Agent.fetchall env st) st) as [[[]|e0] st1];
    cbn [snd] in T; intros [= <- <-].
  assert (F' : Forall (fun r => Agent.row_agent r = "Master") added)
    by (eapply Forall_impl; [exact F | cbn; tauto]).
  exists added. split; [exact T|]. split; [exact F'|].
  intros Hn. unfold Agent.fetchall. rewrite T, filter_app.
  now rewrite (filter_master _ _ Hn F'), app_nil_r.
Qed.

Lemma intercom_failure_keeps_rows_witness :
  let st' := snd (Agent.intercom Demo.agent_env Scenario.agent_bad) in
  Agent.intercom Demo.agent_env Scenario.agent_bad = (Raise (KeyError "command"), st') /\
  Agent.intercom_tbl st' = Agent.intercom_tbl Scenario.agent_bad ++
    [Agent.mkRow 4 "Master"
       (VDict [("server_name", VStr "Alpha"); ("command", VStr "rpc");
               ("object", VStr "Server"); ("method", VStr "restart");
               ("return", VStr "done")])] /\
  Agent.fetchall Demo.agent_env st' = Agent.fetchall Demo.agent_env Scenario.agent_bad.
Proof.
  split; [vm_compute; reflexivity|]. split; [vm_compute; reflexivity|].
  destruct (intercom_failure_keeps_rows Demo.agent_env Scenario.agent_bad _
              (KeyError "command") ltac:(vm_compute; reflexivity)) as (added & _ & _ & H).
  apply H. discriminate.
Defined.

(** Property X21.  A turn of the poll loop that completes takes out of the table
    exactly the rows addressed to its node, where the ids of the table are
    distinct and below the next value of their sequence; the rows of every
    other node stay, in their order, followed by the replies queued for the
    master.  The table afterwards again has distinct ids below the sequence. *)
Theorem intercom_takes_own_rows (env : Agent.Env) (st st' : Agent.State) :
  Agent.intercom env st = (Ret tt, st') ->
  NoDup (map Agent.row_id (Agent.intercom_tbl st)) ->
  Forall (fun r => Agent.row_id r < Agent.next_id st) (Agent.intercom_tbl st) ->
  exists added,
    Agent.intercom_tbl st'
    = filter (fun r => String.eqb (Agent.row_agent r) (Agent.node env) = false)
        (Agent.intercom_tbl st) ++ added /\
    Forall (fun r => Agent.row_agent r = "Master") added /\
    NoDup (map Agent.row_id (Agent.intercom_tbl st')) /\
    Forall (fun r => Agent.row_id r < Agent.next_id st') (Agent.intercom_tbl st').
Proof.
  unfold Agent.intercom. intros H Hnd Hlt.
  destruct (process_rows_tbl env (Agent.fetchall env st) st) as (added & T & N & F & D).
  destruct (Agent.process_rows env (Agent.fetchall env st) st) as [[[]|e0] st1];
    cbn [snd] in T, N; [|discriminate].
  injection H as <-. asred. rewrite T, filter_app.
  rewrite Forall_forall in F. rewrite Forall_forall in Hlt.
  set (gone := fun r : Agent.IntercomRow =>
         existsb (fun r' => Agent.row_id r' =? Agent.row_id r) (Agent.fetchall env st)
         = false).
  assert (Hold : filter gone (Agent.intercom_tbl st)
                 = filter (fun r => String.eqb (Agent.row_agent r) (Agent.node env) = false)
                     (Agent.intercom_tbl st)).
  { apply filter_ext_in. intros r Hr. unfold gone. split.
    - intros Hex. destruct (String.eqb (Agent.row_agent r) (Agent.node env)) eqn:E;
        [|reflexivity].
      assert (Hin : r ∈ Agent.fetchall env st)
        by (apply list_elem_of_filter; split; assumption).
      apply not_true_iff_false in Hex. destruct Hex. apply existsb_exists.
      exists r. split; [now apply list_elem_of_In | apply Z.eqb_refl].
    - intros Hag. apply not_true_iff_false. intros Hex.
      apply existsb_exists in Hex as (r' & Hr' & E).
      apply list_elem_of_In, list_elem_of_filter in Hr' as [Hag' Hr'].
      apply Z.eqb_eq in E.
      assert (r' = r)
        by exact (NoDup_map_inj Agent.row_id _ r' r Hnd Hr' Hr E).
      subst r'. congruence. }
  assert (Hnew : filter gone added = added).
  { apply filter_all. intros r Hr. unfold gone. apply not_true_iff_false.
    intros Hex. apply existsb_exists in Hex as (r' & Hr' & E).
    apply list_elem_of_In, list_elem_of_filter in Hr' as [_ Hr'].
    apply Z.eqb_eq in E. specialize (Hlt r' Hr'). destruct (F r Hr) as [_ ?]. lia. }
  fold gone. rewrite Hold, Hnew. exists added. split; [reflexivity|].
  split; [apply Forall_forall; intros r Hr; now destruct (F r Hr)|]. split.
  - rewrite map_app. apply NoDup_app. split; [|split; [|exact D]].
    + clear - Hnd. induction (Agent.intercom_tbl st) as [|a l IH]; [constructor|].
      cbn [map] in Hnd. apply NoDup_cons in Hnd as [Ha Hn].
      rewrite filter_cons. destruct (decide _); [|now apply IH].
      cbn [map]. apply NoDup_cons. split; [|now apply IH].
      intros Hin. apply Ha. apply list_elem_of_fmap in Hin as (y & -> & Hy).
      apply list_elem_of_filter in Hy as [_ Hy]. apply list_elem_of_fmap. eauto.
    + intros x Hx Hx'. apply list_elem_of_fmap in Hx as (r1 & -> & Hr1).
      apply list_elem_of_fmap in Hx' as (r2 & E & Hr2).
      apply list_elem_of_filter in Hr1 as [_ Hr1].
      specialize (Hlt r1 Hr1). destruct (F r2 Hr2) as [_ ?]. lia.
  - apply Forall_forall. intros r Hr. rewrite N. apply elem_of_app in Hr as [Hr|Hr].
    + apply list_elem_of_filter in Hr as [_ Hr]. specialize (Hlt r Hr). lia.
    + destruct (F r Hr) as [_ ?]. lia.
Qed.

Lemma intercom_takes_own_rows_witness :
  let st' := snd (Agent.intercom Demo.agent_env Demo.agent_st) in
  Agent.intercom Demo.agent_env Demo.agent_st = (Ret tt, st') /\
  exists added,
    Agent.intercom_tbl st'
    = filter (fun r => String.eqb (Agent.row_agent r) (Agent.node Demo.agent_env) = false)
        (Agent.intercom_tbl Demo.agent_st) ++ added /\
    Forall (fun r => Agent.row_agent r = "Master") added /\
    NoDup (map Agent.row_id (Agent.intercom_tbl st')) /\
    Forall (fun r => Agent.row_id r < Agent.next_id st') (Agent.intercom_tbl st').
Proof.
  split; [vm_compute; reflexivity|].
  apply (intercom_takes_own_rows Demo.agent_env Demo.agent_st).
  - vm_compute; reflexivity.
  - apply (bool_decide_unpack _). vm_compute. exact I.
  - repeat constructor.
Defined.

(** ** The port check of the agent's [register_server] *)

Lemma validate_ports_true (servers : list AgentPorts.ServerPorts)
  (dcs webgui webrtc : gmap Z string) (st st' : Agent.State) :
  AgentPorts.validate_ports servers dcs webgui webrtc st = (Ret true, st') ->
  NoDup (map AgentPorts.dcs_port servers) /\
  NoDup (map AgentPorts.webgui_port servers) /\
  (forall s, s ∈ servers ->
     dcs !! AgentPorts.dcs_port s = None /\ webgui !! AgentPorts.webgui_port s = None).
Proof.
  revert dcs webgui webrtc st. induction servers as [|s rest IH];
    intros dcs webgui webrtc st.
  - intros _. cbn [map]. repeat split; try constructor;
      now apply elem_of_nil in H.
  - cbn [AgentPorts.validate_ports].
    destruct (dcs !! AgentPorts.dcs_port s) eqn:Hd; ared; [intros [= ]|].
    destruct (webgui !! AgentPorts.webgui_port s) eqn:Hw; ared; [intros [= ]|].
    intros H.
    assert (exists webrtc' st1,
              AgentPorts.validate_ports rest (<[AgentPorts.dcs_port s := AgentPorts.sp_name s]> dcs)
                (<[AgentPorts.webgui_port s := AgentPorts.sp_name s]> webgui) webrtc' st1
              = (Ret true, st')) as (webrtc' & st1 & H1).
    { revert H. destruct (webrtc !! AgentPorts.webrtc_port s); [|eauto].
      destruct (AgentPorts.sp_voice_chat s) as [[]|]; ared; eauto. intros [= ]. }
    destruct (IH _ _ _ _ H1) as (N1 & N2 & Hall).
    assert (Hne : forall x, x ∈ rest ->
              AgentPorts.dcs_port x <> AgentPorts.dcs_port s /\
              AgentPorts.webgui_port x <> AgentPorts.webgui_port s /\
              dcs !! AgentPorts.dcs_port x = None /\
              webgui !! AgentPorts.webgui_port x = None).
    { intros x Hx. destruct (Hall x Hx) as [A B].
      apply lookup_insert_None in A as [A1 A2].
      apply lookup_insert_None in B as [B1 B2]. auto. }
    cbn [map]. split; [|split].
    + apply NoDup_cons. split; [|exact N1]. intros Hin.
      apply list_elem_of_fmap in Hin as (x & E & Hx).
      destruct (Hne x Hx) as (A & _). congruence.
    + apply NoDup_cons. split; [|exact N2]. intros Hin.
      apply list_elem_of_fmap in Hin as (x & E & Hx).
      destruct (Hne x Hx) as (_ & A & _). congruence.
    + intros x Hx. apply elem_of_cons in Hx as [->|Hx]; [auto|].
      destruct (Hne x Hx) as (_ & _ & A & B). auto.
Qed.

(** Property X22.  When the port check lets a registration through, no two
    servers of the agent share a DCS port and no two share a webgui port,
    with the defaults 10308 and 8088 standing in for the ports that are not
    set. *)
Theorem validate_ports_distinct (servers : list AgentPorts.ServerPorts)
  (st st' : Agent.State) :
  AgentPorts.validate_ports servers ∅ ∅ ∅ st = (Ret true, st') ->
  NoDup (map AgentPorts.dcs_port servers) /\
  NoDup (map AgentPorts.webgui_port servers).
Proof.
  intros H. destruct (validate_ports_true _ _ _ _ _ _ H) as (A & B & _). auto.
Qed.

Lemma validate_ports_distinct_witness :
  AgentPorts.validate_ports Scenario.ports_ok ∅ ∅ ∅ Demo.agent_st
  = (Ret true,
     Agent.set_log (fun lg => lg ++
       [(ERROR, "shares its webrtc_port port! Registration aborted.")]) Demo.agent_st) /\
  NoDup (map AgentPorts.dcs_port Scenario.ports_ok) /\
  NoDup (map AgentPorts.webgui_port Scenario.ports_ok).
Proof.
  split; [vm_compute; reflexivity|].
  apply (validate_ports_distinct Scenario.ports_ok Demo.agent_st
           (snd (AgentPorts.validate_ports Scenario.ports_ok ∅ ∅ ∅ Demo.agent_st))).
  vm_compute; reflexivity.
Defined.

Lemma validate_ports_pass (servers : list AgentPorts.ServerPorts)
  (dcs webgui webrtc : gmap Z string) (st : Agent.State) :
  NoDup (map AgentPorts.dcs_port servers) ->
  NoDup (map AgentPorts.webgui_port servers) ->
  (forall s, s ∈ servers ->
     dcs !! AgentPorts.dcs_port s = None /\ webgui !! AgentPorts.webgui_port s = None) ->
  Forall (fun s => AgentPorts.sp_voice_chat s <> None) servers ->
  fst (AgentPorts.validate_ports servers dcs webgui webrtc st) = Ret true.
Proof.
  revert dcs webgui webrtc st. induction servers as [|s rest IH];
    intros dcs webgui webrtc st N1 N2 Hall Hv; [reflexivity|].
  cbn [map] in N1, N2. apply NoDup_cons in N1 as [A1 N1].
  apply NoDup_cons in N2 as [A2 N2]. apply Forall_cons in Hv as [Hv1 Hv].
  destruct (Hall s) as [Hd Hw]; [left|].
  cbn [AgentPorts.validate_ports]. rewrite Hd, Hw.
  assert (Hall' : forall x, x ∈ rest ->
            <[AgentPorts.dcs_port s := AgentPorts.sp_name s]> dcs
              !! AgentPorts.dcs_port x = None /\
            <[AgentPorts.webgui_port s := AgentPorts.sp_name s]> webgui
              !! AgentPorts.webgui_port x = None).
  { intros x Hx. destruct (Hall x) as [B1 B2]; [now right|].
    split; apply lookup_insert_None; (split; [assumption|]); intros E.
    - apply A1. rewrite E. apply list_elem_of_fmap. eauto.
    - apply A2. rewrite E. apply list_elem_of_fmap. eauto. }
  destruct (webrtc !! AgentPorts.webrtc_port s); [|now apply IH].
  destruct (AgentPorts.sp_voice_chat s) as [[]|]; ared; [| |contradiction];
    now apply IH.
Qed.

(** Property X23.  A shared webrtc port never stops a registration, not even
    with the voice chat server switched on, where the log says it was
    aborted: among servers whose settings have an [advanced] section,
    distinct DCS ports and distinct webgui ports are all the check asks for. *)
Theorem validate_ports_ignores_webrtc (servers : list AgentPorts.ServerPorts)
  (st : Agent.State) :
  NoDup (map AgentPorts.dcs_port servers) ->
  NoDup (map AgentPorts.webgui_port servers) ->
  Forall (fun s => AgentPorts.sp_voice_chat s <> None) servers ->
  fst (AgentPorts.validate_ports servers ∅ ∅ ∅ st) = Ret true.
Proof.
  intros N1 N2 Hv. apply validate_ports_pass; auto.
Qed.

Lemma validate_ports_ignores_webrtc_witness :
  AgentPorts.webrtc_port (AgentPorts.mkPorts "Alpha" None None None (Some false))
  = AgentPorts.webrtc_port
      (AgentPorts.mkPorts "Bravo" (Some 10318) (Some 8089) None (Some true)) /\
  fst (AgentPorts.validate_ports
         [AgentPorts.mkPorts "Alpha" None None None (Some false);
          AgentPorts.mkPorts "Bravo" (Some 10318) (Some 8089) None (Some true)]
         ∅ ∅ ∅ Demo.agent_st) = Ret true.
Proof.
  split; [reflexivity|].
  apply validate_ports_ignores_webrtc.
  - apply (bool_decide_unpack _). vm_compute. exact I.
  - apply (bool_decide_unpack _). vm_compute. exact I.
  - repeat constructor; discriminate.
Defined.

(** ** The batches of [getPersistentData] *)

Lemma join_snoc (sep x : string) (l : list string) :
  l <> [] -> join sep (l ++ [x]) = join sep l +:+ sep +:+ x.
Proof.
  induction l as [|a l IH]; intros Hne; [contradiction|].
  destruct l as [|b l]; [reflexivity|].
  change (join sep ((a :: b :: l) ++ [x]))
    with (a +:+ sep +:+ join sep ((b :: l) ++ [x])).
  rewrite IH by discriminate.
  change (join sep (a :: b :: l)) with (a +:+ sep +:+ join sep (b :: l)).
  now rewrite !append_assoc.
Qed.

Lemma open_batch_snoc (cur : list Val) (row : Val) :
  (if String.eqb (open_batch cur) EmptyString then "[" +:+ json_text row
   else open_batch cur +:+ ", " +:+ json_text row)
  = open_batch (cur ++ [row]).
Proof.
  destruct cur as [|c cur]; [reflexivity|].
  change (open_batch (c :: cur)) with ("[" +:+ join ", " (map json_text (c :: cur))).
  change (String.eqb ("[" +:+ join ", " (map json_text (c :: cur))) EmptyString)
    with false. cbv iota.
  change (open_batch ((c :: cur) ++ [row]))
    with ("[" +:+ join ", " (map json_text ((c :: cur) ++ [row]))).
  rewrite map_app. cbn [map]. rewrite join_snoc by discriminate.
  now rewrite !append_assoc.
Qed.

Lemma open_batch_close (cur : list Val) :
  cur <> [] -> open_batch cur +:+ "]" = json_text (VList cur).
Proof.
  destruct cur as [|c cur]; [contradiction|]. intros _.
  change (open_batch (c :: cur)) with ("[" +:+ join ", " (map json_text (c :: cur))).
  now rewrite append_assoc.
Qed.

Lemma open_batch_empty (cur : list Val) :
  String.eqb (open_batch cur) EmptyString = match cur with [] => true | _ => false end.
Proof. destruct cur; reflexivity. Qed.

(** The loop over a run of rows that [json.dumps] accepts, from a batch
    that is open with the rows [cur]. *)
Lemma send_rows_spec (rows rows2 cur : list Val) (st : Csar.State) :
  (length cur < 5)%nat ->
  Forall (fun r => json_encodable r = true) rows ->
  exists batches cur',
    Csar.send_rows (rows ++ rows2) (open_batch cur) (length cur) st
    = Csar.send_rows rows2 (open_batch cur') (length cur')
        (Csar.mkState (Csar.outbox st ++ map batch_message batches) (Csar.log st)) /\
    cur ++ rows = concat batches ++ cur' /\
    (length cur' < 5)%nat /\
    Forall (fun b => length b = 5%nat) batches.
Proof.
  revert cur st. induction rows as [|row rows IH]; intros cur st Hlen Henc.
  - exists [], cur. cbn [app map concat]. rewrite !app_nil_r. destruct st.
    repeat split; [assumption | constructor].
  - apply Forall_cons in Henc as [He Henc].
    change ((row :: rows) ++ rows2) with (row :: (rows ++ rows2)).
    cbn [Csar.send_rows]. unfold json_dumps. rewrite He.
    cbv beta iota delta [bind lift]. rewrite open_batch_snoc.
    destruct (5 <=? S (length cur))%nat eqn:E.
    + apply Nat.leb_le in E.
      assert (L : length (cur ++ [row]) = 5%nat) by (rewrite length_app; cbn; lia).
      rewrite open_batch_close by (intros Hn; rewrite Hn in L; discriminate).
      unfold Csar.send_to_dcs, modify. cbv beta iota.
      destruct (IH [] (Csar.mkState (Csar.outbox st ++ [batch_message (cur ++ [row])])
                         (Csar.log st))) as (bs & cur' & H1 & H2 & H3 & H4);
        [cbn; lia | exact Henc|].
      exists ((cur ++ [row]) :: bs), cur'.
      change (open_batch []) with EmptyString in H1.
      change (length (@nil Val)) with 0%nat in H1. fold (batch_message (cur ++ [row])).
      rewrite H1. cbn [Csar.outbox Csar.log map concat].
      rewrite <- !app_assoc. cbn [app]. split; [reflexivity|].
      split; [cbn [app] in H2; now rewrite <- H2|]. split; [exact H3|].
      now constructor.
    + apply Nat.leb_gt in E.
      destruct (IH (cur ++ [row]) st) as (bs & cur' & H1 & H2 & H3 & H4);
        [rewrite length_app; cbn; lia | exact Henc|].
      exists bs, cur'. rewrite length_app in H1. cbn [length] in H1.
      rewrite Nat.add_1_r in H1. rewrite H1. split; [reflexivity|].
      split; [now rewrite <- H2, <- app_assoc | auto].
Qed.

(** Property X28.  [getPersistentData] sends every wounded pilot once, in the
    order of the rows, in batches of five with a shorter last one; the text
    of a batch, which the code concatenates by hand, is what [json.dumps]
    writes for the list of its rows, so that decoding it gives those rows
    back. *)
Theorem getPersistentData_batches (wounded : list Val) (st : Csar.State) :
  Forall (fun r => json_encodable r = true) wounded ->
  exists batches,
    fst (Csar.getPersistentData wounded st) = Ret tt /\
    Csar.outbox (snd (Csar.getPersistentData wounded st))
    = Csar.outbox st ++ map batch_message batches /\
    concat batches = wounded /\
    Forall (fun b => (0 < length b <= 5)%nat) batches /\
    (forall i b, batches !! i = Some b -> (S i < length batches)%nat ->
                 length b = 5%nat) /\
    (Forall (fun r => wf_val r = true) wounded ->
     Forall (fun b => json_loads (json_text (VList b)) = Some (VList b)) batches).
Proof.
  intros Henc.
  assert (Hdec : forall batches : list (list Val),
            Forall (fun r => json_encodable r = true) (concat batches) ->
            Forall (fun r => wf_val r = true) (concat batches) ->
            Forall (fun b => json_loads (json_text (VList b)) = Some (VList b)) batches).
  { intros batches He Hw. apply Forall_forall. intros b Hb.
    apply json_loads_dumps.
    - cbn [wf_val]. apply forallb_forall. intros x Hx.
      rewrite Forall_forall in Hw. apply Hw.
      apply list_elem_of_In, in_concat. exists b. split; [now apply list_elem_of_In | exact Hx].
    - unfold json_dumps.
      assert (E : json_encodable (VList b) = true).
      { cbn [json_encodable]. apply forallb_forall. intros x Hx.
        rewrite Forall_forall in He. apply He.
        apply list_elem_of_In, in_concat. exists b. split; [now apply list_elem_of_In | exact Hx]. }
      now rewrite E. }
  destruct wounded as [|w ws].
  - exists []. cbn. repeat split; auto; try constructor.
    + now rewrite app_nil_r.
    + intros i b Hb. now rewrite lookup_nil in Hb.
  - destruct (send_rows_spec (w :: ws) [] [] st) as (bs & cur' & H1 & H2 & H3 & H4);
      [cbn; lia | exact Henc|].
    rewrite app_nil_r in H1. cbn [app] in H2.
    change (open_batch []) with EmptyString in H1.
    change (length (@nil Val)) with 0%nat in H1.
    cbn [Csar.getPersistentData]. cbv beta iota delta [bind]. rewrite H1.
    cbn [Csar.send_rows]. cbv beta iota delta [ret]. rewrite open_batch_empty.
    destruct cur' as [|c cur'].
    + exists bs. cbn [negb]. cbv beta iota delta [ret]. cbn [fst snd Csar.outbox].
      rewrite app_nil_r in H2. split; [reflexivity|]. split; [reflexivity|].
      split; [now symmetry|]. split; [|split].
      * eapply Forall_impl; [exact H4|]. cbn. intros b ->. lia.
      * intros i b Hb _. rewrite Forall_forall in H4. apply H4.
        eapply list_elem_of_lookup_2, Hb.
      * intros Hw. apply Hdec; now rewrite <- H2.
    + exists (bs ++ [c :: cur']). cbn [negb].
      rewrite open_batch_close by discriminate.
      unfold Csar.send_to_dcs, modify. cbn [fst snd Csar.outbox].
      rewrite map_app, app_assoc. cbn [map]. fold (batch_message (c :: cur')).
      assert (Hc : concat (bs ++ [c :: cur']) = w :: ws).
      { rewrite concat_app. cbn [concat]. now rewrite app_nil_r. }
      split; [reflexivity|]. split; [reflexivity|]. split; [exact Hc|].
      split; [|split].
      * apply Forall_app. split.
        -- eapply Forall_impl; [exact H4|]. cbn. intros b ->. lia.
        -- constructor; [|constructor]. cbn [length] in *. lia.
      * intros i b Hb Hi. rewrite length_app in Hi. cbn [length] in Hi.
        rewrite lookup_app_l in Hb by lia.
        rewrite Forall_forall in H4. apply H4. eapply list_elem_of_lookup_2, Hb.
      * intros Hw. apply Hdec; now rewrite Hc.
Qed.

Lemma getPersistentData_batches_witness :
  Csar.getPersistentData Scenario.pilots (Csar.mkState [] [])
  = (Ret tt,
     Csar.mkState
       [batch_message (map Scenario.pilot [1; 2; 3; 4; 5]);
        batch_message (map Scenario.pilot [6; 7])] []) /\
  exists batches,
    fst (Csar.getPersistentData Scenario.pilots (Csar.mkState [] [])) = Ret tt /\
    Csar.outbox (snd (Csar.getPersistentData Scenario.pilots (Csar.mkState [] [])))
    = [] ++ map batch_message batches /\
    concat batches = Scenario.pilots /\
    Forall (fun b => (0 < length b <= 5)%nat) batches /\
    (forall i b, batches !! i = Some b -> (S i < length batches)%nat ->
                 length b = 5%nat) /\
    (Forall (fun r => wf_val r = true) Scenario.pilots ->
     Forall (fun b => json_loads (json_text (VList b)) = Some (VList b)) batches).
Proof.
  split; [vm_compute; reflexivity|].
  apply (getPersistentData_batches Scenario.pilots (Csar.mkState [] [])).
  repeat constructor.
Defined.

(** Property X29.  A row that [json.dumps] refuses ends [getPersistentData] with
    its [TypeError].  The batches that were full before that row have been
    sent; the rows of the batch that was open are not sent at all, and
    neither is any later row. *)
Theorem getPersistentData_bad_row (good rest : list Val) (bad : Val)
  (st : Csar.State) :
  Forall (fun r => json_encodable r = true) good ->
  json_encodable bad = false ->
  exists batches cur,
    fst (Csar.getPersistentData (good ++ bad :: rest) st) = Raise TypeError /\
    Csar.outbox (snd (Csar.getPersistentData (good ++ bad :: rest) st))
    = Csar.outbox st ++ map batch_message batches /\
    good = concat batches ++ cur /\
    (length cur < 5)%nat /\
    Forall (fun b => length b = 5%nat) batches.
Proof.
  intros Henc Hbad.
  destruct (send_rows_spec good (bad :: rest) [] st) as (bs & cur' & H1 & H2 & H3 & H4);
    [cbn; lia | exact Henc|].
  cbn [app] in H2. change (open_batch []) with EmptyString in H1.
  change (length (@nil Val)) with 0%nat in H1.
  exists bs, cur'.
  assert (E : Csar.getPersistentData (good ++ bad :: rest) st
              = (Raise TypeError,
                 Csar.mkState (Csar.outbox st ++ map batch_message bs) (Csar.log st))).
  { unfold Csar.getPersistentData.
    destruct (good ++ bad :: rest) as [|x xs] eqn:Ex;
      [now destruct good|]. cbv beta iota delta [bind]. rewrite H1.
    cbn [Csar.send_rows]. unfold json_dumps. rewrite Hbad.
    reflexivity. }
  rewrite E. cbn [fst snd Csar.outbox]. repeat split; auto.
Qed.

Lemma getPersistentData_bad_row_witness :
  Csar.getPersistentData Scenario.pilots_bad (Csar.mkState [] [])
  = (Raise TypeError, Csar.mkState [] []) /\
  exists batches cur,
    fst (Csar.getPersistentData Scenario.pilots_bad (Csar.mkState [] []))
    = Raise TypeError /\
    Csar.outbox (snd (Csar.getPersistentData Scenario.pilots_bad (Csar.mkState [] [])))
    = [] ++ map batch_message batches /\
    map Scenario.pilot [1; 2; 3] = concat batches ++ cur /\
    (length cur < 5)%nat /\
    Forall (fun b => length b = 5%nat) batches.
Proof.
  split; [vm_compute; reflexivity|].
  apply (getPersistentData_bad_row (map Scenario.pilot [1; 2; 3])
           (map Scenario.pilot [5; 6; 7])
           (VDict [("id", VInt 4); ("status", VStatus UNKNOWN)]) (Csar.mkState [] []));
    [repeat constructor | reflexivity].
Defined.

(** ** The registry across a timeout, a rename and an automatic rename *)

(** Property X12.  The [SHUTDOWN] that [register_servers] writes when its probe
    times out goes to the dictionary it took from the registry before it
    sent the probe.  If the server has registered in the meantime, the
    registry holds another dictionary by then: the record found under the
    name keeps the status of the registration, and the timeout is lost on
    it. *)
Theorem timeout_after_reregistration (env : Env) (data : Dict) (st st' : State)
  (name : string) (l0 fid : nat) (old : Dict) :
  register_server env data st = (Ret true, st') ->
  dict_get "server_name" data = Some (VStr name) ->
  globals st !! name = Some l0 ->
  heap st !! l0 = Some old ->
  futures st' !! fid = Some Pending ->
  let st2 := snd (register_servers_resume l0 fid st') in
  fst (register_servers_resume l0 fid st') = Ret tt /\
  heap st2 !! l0 = Some (dict_set "status" (VStatus SHUTDOWN) old) /\
  lookup name st2 = lookup name st' /\
  exists srv s,
    lookup name st2 = Some srv /\
    dict_get "status" srv = Some (VStatus s) /\ s <> SHUTDOWN.
Proof.
  intros H Hn Hg0 Ho Hf. cbv zeta.
  destruct (register_server_accepted env data st st' H)
    as (name' & inst & insts & st0 & server & st1 & Hn' & Hi & G0 & H0 & Hr & Hb & Hg & Hh).
  rewrite Hn in Hn'. injection Hn' as <-.
  destruct (register_record_ok _ _ _ _ _ _ _ Hr) as (Hg1 & Hk & _).
  destruct (register_record_status _ _ _ _ _ _ _ Hr)
    as (Hsv & ch & srv & Hc & Hs & _ & Hst & _).
  assert (Hg1' : globals st1 !! name = Some server)
    by (rewrite Hg1; apply lookup_insert_eq).
  destruct (register_db_keeps env data name server st1 srv Hg1' Hs Hb)
    as (K1 & (srv' & K2 & K3) & K4).
  assert (Hlt : (l0 < length (heap st0))%nat)
    by (rewrite H0; now apply lookup_lt_Some in Ho).
  assert (Hne : l0 <> server) by lia.
  assert (Ho' : heap st' !! l0 = Some old).
  { rewrite Hh, (K4 l0 Hne). apply Hk. now rewrite H0. }
  rewrite (register_servers_resume_pending l0 fid st' Hf). cbn [fst snd]. sred.
  split; [reflexivity|]. split; [now rewrite list_lookup_alter_eq, Ho'|].
  assert (E : lookup name
                (set_heap (fun h => alter (dict_set "status" (VStatus SHUTDOWN)) l0 h)
                   (set_futures (fun fs => <[fid := Cancelled]> fs) st'))
              = Some srv').
  { unfold lookup. sred. rewrite Hg, K1, list_lookup_alter_ne by exact Hne.
    now rewrite Hh. }
  split.
  - rewrite E. unfold lookup. now rewrite Hg, K1, Hh.
  - eexists srv', _. split; [exact E|]. rewrite K3 by discriminate.
    split; [exact Hst|].
    destruct (starts_with "sync-" ch); [|discriminate].
    destruct (dict_get "pause" data) as [[|[]| | | | |]|]; discriminate.
Qed.

Lemma timeout_after_reregistration_witness :
  let st' := snd (register_server Demo.env Scenario.alpha_hello Demo.st_pending) in
  let st2 := snd (register_servers_resume 0 0 st') in
  register_server Demo.env Scenario.alpha_hello Demo.st_pending = (Ret true, st') /\
  futures st' !! 0%nat = Some Pending /\
  fst (register_servers_resume 0 0 st') = Ret tt /\
  heap st2 !! 0%nat = Some (dict_set "status" (VStatus SHUTDOWN) Demo.alpha) /\
  lookup "Alpha" st2 = lookup "Alpha" st' /\
  exists srv s,
    lookup "Alpha" st2 = Some srv /\
    dict_get "status" srv = Some (VStatus s) /\ s <> SHUTDOWN.
Proof.
  split; [vm_compute; reflexivity|]. split; [vm_compute; reflexivity|].
  apply (timeout_after_reregistration Demo.env Scenario.alpha_hello Demo.st_pending _
           "Alpha" 0 0 Demo.alpha); vm_compute; reflexivity.
Defined.

Lemma rename_row_same (name : string) (rows : list ServerRow) :
  map (rename_row name name) rows = rows.
Proof.
  induction rows as [|[n a h p] rows IH]; [reflexivity|]. cbn [map]. rewrite IH.
  unfold rename_row. cbn [sr_name sr_agent sr_host sr_port].
  destruct (String.eqb n name) eqn:E; [|reflexivity].
  apply String.eqb_eq in E. now subst.
Qed.

Lemma rename_embed_same (name : string) (rows : list EmbedRow) :
  map (rename_embed name name) rows = rows.
Proof.
  induction rows as [|[n a e] rows IH]; [reflexivity|]. cbn [map]. rewrite IH.
  unfold rename_embed. cbn [er_server er_embed_name er_embed].
  destruct (String.eqb n name) eqn:E; [|reflexivity].
  apply String.eqb_eq in E. now subst.
Qed.

(** Property X13.  Renaming a server to the name it has takes it out of the
    registry and out of the embeds: the copy is skipped because the new name
    is taken, and the deletions of the old name go ahead.  The tables keep
    their rows. *)
Theorem rename_server_same_name (name : string) (u : bool) (st : State) (l : nat) :
  globals st !! name = Some l ->
  let st' := snd (rename_server name name u st) in
  fst (rename_server name name u st) = Ret tt /\
  globals st' = delete name (globals st) /\
  embeds st' = delete name (embeds st) /\
  heap st' = heap st /\
  db_servers st' = db_servers st /\
  db_persistence st' = db_persistence st.
Proof.
  intros Hg. cbv zeta. rewrite rename_server_split.
  rewrite (rename_registry_taken _ _ _ _ _ Hg Hg).
  unfold rename_embeds, db_rename, servers_clash, embeds_clash. mred. sred.
  rewrite String.eqb_refl. cbn [negb andb orb].
  destruct (embeds st !! name) as [d|] eqn:He; mred; sred;
    destruct u; mred; sred;
    rewrite ?rename_row_same, ?rename_embed_same, ?delete_insert_eq,
      ?(delete_id (embeds st) name He); repeat split; reflexivity.
Qed.

Lemma rename_server_same_name_witness :
  let st' := snd (rename_server "Alpha" "Alpha" false Demo.st) in
  globals Demo.st !! "Alpha" = Some 0%nat /\
  fst (rename_server "Alpha" "Alpha" false Demo.st) = Ret tt /\
  lookup "Alpha" st' = None /\
  db_servers st' = db_servers Demo.st.
Proof.
  split; [reflexivity|].
  destruct (rename_server_same_name "Alpha" false Demo.st 0 eq_refl)
    as (H1 & H2 & _ & _ & H5 & _).
  split; [exact H1|]. split; [|exact H5].
  unfold lookup. rewrite H2, lookup_delete_eq. reflexivity.
Defined.

Lemma register_server_accepted_tables (env : Env) (data : Dict) (st st' : State) :
  register_server env data st = (Ret true, st') ->
  exists name inst st0 server st1,
    dict_get "server_name" data = Some (VStr name) /\
    globals st0 = globals st /\
    db_servers st0 = db_servers st /\ db_persistence st0 = db_persistence st /\
    embeds st0 = embeds st /\
    register_record env data name inst st0 = (Ret server, st1) /\
    globals st' = globals (snd (register_db env data name server st1)) /\
    db_servers st' = db_servers (snd (register_db env data name server st1)) /\
    db_persistence st' = db_persistence (snd (register_db env data name server st1)).
Proof.
  unfold register_server. mred.
  destruct (dict_get "server_name" data) as [nm|] eqn:Hn; mred; [|intros [= ]].
  destruct nm as [| | |name| | |]; mred; try (intros [= ]; fail).
  destruct (findDCSInstallations env name) as [|inst insts] eqn:Hi; mred; sred;
    [intros [= ]|].
  destruct (dict_get "hook_version" data) as [hv|] eqn:Hv; mred; [|intros [= ]].
  destruct (is_str (version env) hv) eqn:Hs; cbn [negb]; mred; sred; [|intros [= ]].
  match goal with |- context [register_record env data name inst ?s] =>
    set (st0 := s);
    destruct (register_record env data name inst st0) as [[server|e] st1] eqn:Hr end;
    [|intros [= ]].
  intros H. exists name, inst, st0, server, st1.
  repeat (split; [reflexivity|]). revert H.
  destruct (register_db env data name server st1) as [[[b|]|e] st2] eqn:Hd; mred; sred.
  - apply register_db_early in Hd as [-> _]. intros [= ].
  - intros [= <-]. cbn [fst snd]. repeat split; auto.
  - intros [= <-]. cbn [fst snd]. sred. repeat split; auto.
Qed.

Lemma register_record_tables (env : Env) (data : Dict) (name inst : string)
  (st : State) :
  db_persistence (snd (register_record env data name inst st)) = db_persistence st /\
  embeds (snd (register_record env data name inst st)) = embeds st.
Proof.
  unfold register_record. mred. sred. destruct_matches; sred; split; reflexivity.
Qed.

Lemma existsb_false_forall {A} (f : A -> bool) (l : list A) :
  (forall x, x ∈ l -> f x = false) -> existsb f l = false.
Proof.
  induction l as [|a l IH]; intros H; [reflexivity|]. cbn [existsb].
  rewrite (H a) by left. apply IH. intros x Hx. apply H. now right.
Qed.

Lemma upsert_server_elem (r : ServerRow) (rows : list ServerRow) :
  r ∈ upsert_server r rows /\
  forall x, x ∈ upsert_server r rows -> x = r \/ x ∈ rows.
Proof.
  induction rows as [|a rows [IH1 IH2]]; cbn [upsert_server].
  - split; [left|]. intros x Hx. apply elem_of_cons in Hx as [->|Hx]; auto.
  - destruct (String.eqb (sr_name a) (sr_name r)).
    + split; [left|]. intros x Hx. apply elem_of_cons in Hx as [->|Hx]; auto.
      right. now right.
    + split; [now right|]. intros x Hx. apply elem_of_cons in Hx as [->|Hx].
      * right. left.
      * destruct (IH2 x Hx); auto. right. now right.
Qed.

(** Property X11.  When the announced address is in the table under one other
    name, and that name is not configured any more, the registration renames
    the server: the old name leaves the registry, its row in the table of
    servers is now the row of the announced name, with the announced
    address, and no row of the old name is left.  This is for an old name
    that is in the registry and an announced name that has no row and no
    persisted message of its own. *)
Theorem registration_auto_renames (env : Env) (data : Dict) (st st' : State)
  (name host : string) (port : Z) (h p : Val) (r : ServerRow) (lo : nat) :
  register_server env data st = (Ret true, st') ->
  dict_get "server_name" data = Some (VStr name) ->
  dict_get "host" data = Some h -> sql_text h = Ret host ->
  dict_get "port" data = Some p -> sql_int p = Ret port ->
  filter (fun x => (String.eqb (sr_agent x) (node env) && String.eqb (sr_host x) host
                    && (sr_port x =? port)) = true) (db_servers st) = [r] ->
  sr_name r <> name ->
  findDCSInstallations env (sr_name r) = [] ->
  globals st !! sr_name r = Some lo ->
  (forall x, x ∈ db_servers st -> sr_name x <> name) ->
  (forall x, x ∈ db_persistence st -> er_server x <> name) ->
  globals st' !! sr_name r = None /\
  (exists l, globals st' !! name = Some l) /\
  db_servers st'
  = upsert_server (mkServerRow name (node env) host port)
      (map (rename_row (sr_name r) name) (db_servers st)) /\
  db_persistence st' = map (rename_embed (sr_name r) name) (db_persistence st) /\
  mkServerRow name (node env) host port ∈ db_servers st' /\
  (forall x, x ∈ db_servers st' -> sr_name x <> sr_name r).
Proof.
  intros H Hn Hh Hth Hp Htp Hrows Hne Hinst Hold Hfree Hfree'.
  destruct (register_server_accepted_tables env data st st' H)
    as (name' & inst & st0 & server & st1 & Hn' & G0 & D0 & P0 & E0 & Hr & Hg & Hd & Hpp).
  rewrite Hn in Hn'. injection Hn' as <-.
  destruct (register_record_ok _ _ _ _ _ _ _ Hr) as (Hg1 & _ & _ & _ & _ & Hdb1).
  pose proof (register_record_tables env data name inst st0) as [Hp1 He1].
  rewrite Hr in Hp1, He1. cbn [snd] in Hp1, He1.
  assert (Hclash1 : servers_clash (sr_name r) name (db_servers st1) = false).
  { unfold servers_clash. rewrite Hdb1, D0.
    rewrite (existsb_false_forall (fun x => String.eqb (sr_name x) name)).
    - apply andb_false_r.
    - intros x Hx. apply String.eqb_neq. now apply Hfree. }
  assert (Hclash2 : embeds_clash (sr_name r) name (db_persistence st1) = false).
  { unfold embeds_clash. rewrite Hp1, P0.
    rewrite existsb_false_forall; [apply andb_false_r|].
    intros x Hx. rewrite (existsb_false_forall _ (db_persistence st));
      [apply andb_false_r|].
    intros y Hy. apply andb_false_iff. left. apply String.eqb_neq. now apply Hfree'. }
  assert (Ho1 : globals st1 !! sr_name r = Some lo)
    by (rewrite Hg1, lookup_insert_ne, G0 by congruence; exact Hold).
  assert (Hn1 : globals st1 !! name = Some server)
    by (rewrite Hg1; apply lookup_insert_eq).
  assert (E : exists st2,
            register_db env data name server st1 = (Ret None, st2) /\
            globals st2 = delete (sr_name r) (globals st1) /\
            db_servers st2
            = upsert_server (mkServerRow name (node env) host port)
                (map (rename_row (sr_name r) name) (db_servers st1)) /\
            db_persistence st2
            = map (rename_embed (sr_name r) name) (db_persistence st1)).
  { unfold register_db. mred. rewrite Hh. mred. rewrite Hp. mred.
    rewrite Hth. mred. rewrite Htp. mred. sred. rewrite Hdb1, D0, Hrows. mred.
    apply String.eqb_neq in Hne. rewrite Hne. cbn [negb]. mred. sred.
    rewrite Hinst. mred. sred.
    rewrite rename_server_split.
    erewrite rename_registry_taken by (sred; eassumption).
    unfold rename_embeds, db_rename. mred. sred.
    destruct (embeds st1 !! sr_name r); mred; sred;
      rewrite Hclash1, Hclash2; cbn [orb]; mred; sred;
      eexists; (split; [reflexivity|]); sred; rewrite ?Hdb1, ?D0; auto. }
  destruct E as (st2 & E & G2 & D2 & P2). rewrite E in Hg, Hd, Hpp. cbn [snd] in *.
  rewrite Hg, Hd, Hpp, G2, D2, P2, Hdb1, D0, Hp1, P0.
  split; [apply lookup_delete_eq|]. split.
  { exists server. rewrite lookup_delete_ne by exact Hne. exact Hn1. }
  split; [reflexivity|]. split; [reflexivity|].
  destruct (upsert_server_elem (mkServerRow name (node env) host port)
              (map (rename_row (sr_name r) name) (db_servers st))) as [U1 U2].
  split; [exact U1|]. intros x Hx. destruct (U2 x Hx) as [->|Hin]; [cbn; congruence|].
  apply list_elem_of_fmap in Hin as (y & -> & Hy). unfold rename_row.
  destruct (String.eqb (sr_name y) (sr_name r)) eqn:Ey; [cbn; congruence|].
  now apply String.eqb_neq.
Qed.

Lemma registration_auto_renames_witness :
  let st' := snd (register_server Demo.env Scenario.charlie_on_delta_port
                    Scenario.st_delta) in
  register_server Demo.env Scenario.charlie_on_delta_port Scenario.st_delta
  = (Ret true, st') /\
  globals st' !! "Delta" = None /\
  (exists l, globals st' !! "Charlie" = Some l) /\
  db_servers st'
  = [mkServerRow "Alpha" "node1" "127.0.0.1" 6666;
     mkServerRow "Bravo" "node1" "127.0.0.1" 6667;
     mkServerRow "Charlie" "node1" "127.0.0.1" 6669] /\
  db_persistence st' = [mkEmbedRow "Charlie" "mission" (VInt 42)].
Proof.
  split; [vm_compute; reflexivity|].
  destruct (registration_auto_renames Demo.env Scenario.charlie_on_delta_port
              Scenario.st_delta
              (snd (register_server Demo.env Scenario.charlie_on_delta_port
                      Scenario.st_delta))
              "Charlie" "127.0.0.1" 6669 (VStr "127.0.0.1") (VInt 6669)
              (mkServerRow "Delta" "node1" "127.0.0.1" 6669) 2)
    as (H1 & H2 & H3 & H4 & _); try (vm_compute; reflexivity); try discriminate.
  - intros x Hx. change (db_servers Scenario.st_delta)
      with [mkServerRow "Alpha" "node1" "127.0.0.1" 6666;
            mkServerRow "Bravo" "node1" "127.0.0.1" 6667;
            mkServerRow "Delta" "node1" "127.0.0.1" 6669] in Hx.
    repeat (apply elem_of_cons in Hx as [->|Hx]; [discriminate|]).
    now apply elem_of_nil in Hx.
  - intros x Hx. change (db_persistence Scenario.st_delta)
      with [mkEmbedRow "Delta" "mission" (VInt 42)] in Hx.
    repeat (apply elem_of_cons in Hx as [->|Hx]; [discriminate|]).
    now apply elem_of_nil in Hx.
  - split; [exact H1|]. split; [exact H2|]. split; [rewrite H3|rewrite H4];
      vm_compute; reflexivity.
Defined.

(** ** The UDP handler of the agent *)

Ltac ured :=
  cbv beta iota delta [bind ret raise gets modify lift getitem as_str AgentUdp.logmsg
                       AgentUdp.alloc AgentUdp.deref AgentUdp.setitem
                       AgentUdp.sendtoMaster AgentUdp.servers_get].

Ltac usred :=
  cbn [AgentUdp.servers AgentUdp.heap AgentUdp.futures AgentUdp.intercom_tbl
       AgentUdp.next_id AgentUdp.log AgentUdp.set_heap AgentUdp.set_futures
       AgentUdp.set_intercom_tbl AgentUdp.set_next_id AgentUdp.set_log fst snd].

(** Property X24.  The agent drops every datagram of a server it does not hold,
    the registration included: [register_server] is not called, nothing goes
    to the master, no future is set; a warning is logged. *)
Theorem agent_handle_unknown_server (node : string)
  (json_decode : string -> option Val)
  (register_server : nat -> M AgentUdp.State bool)
  (raw : string) (st : AgentUdp.State) (d : Dict) (name : string) (cmd : Val) :
  json_decode (strip raw) = Some (VDict d) ->
  dict_get "server_name" d = Some (VStr name) ->
  dict_get "command" d = Some cmd ->
  AgentUdp.servers st !! name = None ->
  AgentUdp.handle node json_decode register_server raw st
  = (Ret tt,
     AgentUdp.set_log (fun lg => lg ++
        [(WARNING, "Command for unknown server received, ignoring.")])
       (AgentUdp.set_heap (fun h => h ++ [d]) st)).
Proof.
  intros Hj Hn Hc Hs. unfold AgentUdp.handle. rewrite Hj. cbn [py_contains].
  ured. unfold dict_has. rewrite Hn. cbn [negb]. ured. usred.
  rewrite Hc. ured. usred. rewrite Hs. reflexivity.
Qed.

Lemma agent_handle_unknown_server_witness :
  let raw := json_text (VDict Demo.charlie_hello) in
  AgentUdp.servers Scenario.udp_st !! "Charlie" = None /\
  AgentUdp.handle "node1" json_loads Scenario.turn_down raw Scenario.udp_st
  = (Ret tt,
     AgentUdp.set_log (fun lg => lg ++
        [(WARNING, "Command for unknown server received, ignoring.")])
       (AgentUdp.set_heap (fun h => h ++ [Demo.charlie_hello]) Scenario.udp_st)).
Proof.
  split; [vm_compute; reflexivity|].
  apply (agent_handle_unknown_server "node1" json_loads Scenario.turn_down _
           Scenario.udp_st Demo.charlie_hello "Charlie" (VStr "registerDCSServer"));
    vm_compute; reflexivity.
Defined.

(** Property X25.  The answer to a synchronous request of the agent stays on the
    agent: the future that waits on the token is given the dictionary of the
    datagram, if it is still pending, and nothing is sent to the master. The
    token is not taken out of the listeners of the server. *)
Theorem agent_reply_stays (node : string) (json_decode : string -> option Val)
  (register_server : nat -> M AgentUdp.State bool)
  (raw : string) (st : AgentUdp.State) (d : Dict) (name ch : string) (cmd : Val)
  (server : AgentUdp.Server) (f : nat) :
  json_decode (strip raw) = Some (VDict d) ->
  dict_get "server_name" d = Some (VStr name) ->
  dict_get "command" d = Some cmd ->
  is_str "registerDCSServer" cmd = false ->
  AgentUdp.servers st !! name = Some server ->
  dict_get "channel" d = Some (VStr ch) ->
  starts_with "sync-" ch = true ->
  AgentUdp.listeners server !! ch = Some f ->
  let st' := snd (AgentUdp.handle node json_decode register_server raw st) in
  fst (AgentUdp.handle node json_decode register_server raw st) = Ret tt /\
  AgentUdp.intercom_tbl st' = AgentUdp.intercom_tbl st /\
  AgentUdp.servers st' = AgentUdp.servers st /\
  AgentUdp.heap st' = AgentUdp.heap st ++ [d] /\
  AgentUdp.futures st'
  = match AgentUdp.futures st !! f with
    | Some AgentUdp.Pending =>
        <[f := AgentUdp.Done (length (AgentUdp.heap st))]> (AgentUdp.futures st)
    | _ => AgentUdp.futures st
    end.
Proof.
  intros Hj Hn Hc Hr Hs Hch Hsy Hl. cbv zeta.
  unfold AgentUdp.handle, AgentUdp.settle. rewrite Hj. cbn [py_contains].
  ured. unfold dict_has. rewrite Hn. cbn [negb]. ured. usred.
  rewrite Hc. ured. usred. rewrite Hs. ured. usred. rewrite Hch. ured. rewrite Hsy.
  rewrite Hl. ured. usred.
  destruct (AgentUdp.futures st !! f) as [[]|]; ured; usred; rewrite Hr; cbn [negb];
    ured; usred; repeat split; reflexivity.
Qed.

Lemma agent_reply_stays_witness :
  let raw := json_text (VDict Demo.answer) in
  let st' := snd (AgentUdp.handle "node1" json_loads Scenario.turn_down raw
                    Scenario.udp_st) in
  fst (AgentUdp.handle "node1" json_loads Scenario.turn_down raw Scenario.udp_st)
  = Ret tt /\
  AgentUdp.intercom_tbl st' = [] /\
  AgentUdp.servers st' = AgentUdp.servers Scenario.udp_st /\
  AgentUdp.heap st' = [Demo.answer] /\
  AgentUdp.futures st' = [AgentUdp.Done 0].
Proof.
  apply (agent_reply_stays "node1" json_loads Scenario.turn_down
           (json_text (VDict Demo.answer)) Scenario.udp_st Demo.answer "Alpha"
           "sync-7f1c" (VStr "getMissionDetails")
           (AgentUdp.mkServer "instance1" {["sync-7f1c" := 0%nat]}) 0);
    vm_compute; reflexivity.
Defined.

(** Property X26.  Every other event of a server the agent holds goes to the
    master as it came: one row for [Master] with the decoded dictionary,
    numbered from the sequence of the table, and no future is touched. *)
Theorem agent_event_forwarded (node : string) (json_decode : string -> option Val)
  (register_server : nat -> M AgentUdp.State bool)
  (raw : string) (st : AgentUdp.State) (d : Dict) (name : string) (cmd : Val)
  (server : AgentUdp.Server) :
  json_decode (strip raw) = Some (VDict d) ->
  dict_get "server_name" d = Some (VStr name) ->
  dict_get "command" d = Some cmd ->
  is_str "registerDCSServer" cmd = false ->
  AgentUdp.servers st !! name = Some server ->
  (dict_get "channel" d = None \/
   exists ch, dict_get "channel" d = Some (VStr ch) /\
              (starts_with "sync-" ch = false \/ AgentUdp.listeners server !! ch = None)) ->
  let st' := snd (AgentUdp.handle node json_decode register_server raw st) in
  fst (AgentUdp.handle node json_decode register_server raw st) = Ret tt /\
  AgentUdp.intercom_tbl st'
  = AgentUdp.intercom_tbl st ++ [Agent.mkRow (AgentUdp.next_id st) "Master" (VDict d)] /\
  AgentUdp.next_id st' = AgentUdp.next_id st + 1 /\
  AgentUdp.futures st' = AgentUdp.futures st /\
  AgentUdp.servers st' = AgentUdp.servers st.
Proof.
  intros Hj Hn Hc Hr Hs Hch. cbv zeta.
  unfold AgentUdp.handle, AgentUdp.settle. rewrite Hj. cbn [py_contains].
  ured. unfold dict_has. rewrite Hn. cbn [negb]. ured. usred.
  rewrite Hc. ured. usred. rewrite Hs. ured. usred.
  assert (Hd : default [] ((AgentUdp.heap st ++ [d]) !! length (AgentUdp.heap st)) = d)
    by (now rewrite lookup_app_r, Nat.sub_diag by lia).
  destruct Hch as [Hch|(ch & Hch & [Hsy|Hl])]; rewrite Hch; ured; usred.
  - rewrite Hr. ured. usred. rewrite Hd. repeat split; reflexivity.
  - rewrite Hsy. ured. usred. rewrite Hr. ured. usred. rewrite Hd.
    repeat split; reflexivity.
  - destruct (starts_with "sync-" ch); [rewrite Hl|]; ured; usred; rewrite Hr;
      ured; usred; rewrite Hd; repeat split; reflexivity.
Qed.

Lemma agent_event_forwarded_witness :
  let raw := json_text (VDict Scenario.chat) in
  let st' := snd (AgentUdp.handle "node1" json_loads Scenario.turn_down raw
                    Scenario.udp_st) in
  fst (AgentUdp.handle "node1" json_loads Scenario.turn_down raw Scenario.udp_st)
  = Ret tt /\
  AgentUdp.intercom_tbl st' = [Agent.mkRow 1 "Master" (VDict Scenario.chat)] /\
  AgentUdp.next_id st' = 2 /\
  AgentUdp.futures st' = [AgentUdp.Pending] /\
  AgentUdp.servers st' = AgentUdp.servers Scenario.udp_st.
Proof.
  apply (agent_event_forwarded "node1" json_loads Scenario.turn_down
           (json_text (VDict Scenario.chat)) Scenario.udp_st Scenario.chat "Alpha"
           (VStr "onChatMessage")
           (AgentUdp.mkServer "instance1" {["sync-7f1c" := 0%nat]}));
    try (vm_compute; reflexivity).
  right. exists "-1". split; [reflexivity|]. now left.
Defined.

(** Property X27.  A registration of a server the agent holds goes to the
    master whatever [register_server] returns for it, as long as it returns
    and leaves the dictionary of the datagram in place: the installation of
    the server object found before the call and the name of the node are
    written into that dictionary, and the row for the master holds it as it
    then stands.  An answer to a probe has given the future of the probe
    that same dictionary beforehand, so the two entries show there too. *)
Theorem agent_registration_forwarded (node : string)
  (json_decode : string -> option Val)
  (register_server : nat -> M AgentUdp.State bool)
  (raw : string) (st st1 : AgentUdp.State) (d x : Dict) (name ch : string)
  (server : AgentUdp.Server) (b : bool) :
  json_decode (strip raw) = Some (VDict d) ->
  dict_get "server_name" d = Some (VStr name) ->
  dict_get "command" d = Some (VStr "registerDCSServer") ->
  AgentUdp.servers st !! name = Some server ->
  dict_get "channel" d = Some (VStr ch) ->
  let data := length (AgentUdp.heap st) in
  let st0 :=
    (if starts_with "sync-" ch
     then match AgentUdp.listeners server !! ch with
          | Some f =>
              match AgentUdp.futures st !! f with
              | Some AgentUdp.Pending =>
                  AgentUdp.set_futures (fun fs => <[f := AgentUdp.Done data]> fs)
              | _ => fun s => s
              end
          | None => fun s => s
          end
     else fun s => s)
      (AgentUdp.set_log (fun lg => lg ++ [(DEBUG, "->HOST")])
         (AgentUdp.set_heap (fun h => h ++ [d]) st)) in
  register_server data st0 = (Ret b, st1) ->
  AgentUdp.heap st1 !! data = Some x ->
  let st' := snd (AgentUdp.handle node json_decode register_server raw st) in
  let sent_on := dict_set "agent" (VStr node)
                   (dict_set "installation" (VStr (AgentUdp.installation server)) x) in
  fst (AgentUdp.handle node json_decode register_server raw st) = Ret tt /\
  AgentUdp.intercom_tbl st'
  = AgentUdp.intercom_tbl st1
    ++ [Agent.mkRow (AgentUdp.next_id st1) "Master" (VDict sent_on)] /\
  AgentUdp.futures st' = AgentUdp.futures st1 /\
  AgentUdp.heap st' !! data = Some sent_on.
Proof.
  intros Hj Hn Hc Hs Hch. cbv zeta. intros Hrs Hx.
  unfold AgentUdp.handle, AgentUdp.settle. rewrite Hj. cbn [py_contains].
  ured. unfold dict_has. rewrite Hn. cbn [negb]. ured. usred.
  rewrite Hc. ured. usred. rewrite Hs. ured. usred. rewrite Hch. ured.
  cbn [is_str]. rewrite String.eqb_refl. cbn [negb].
  revert Hrs.
  destruct (starts_with "sync-" ch); ured; usred;
    [destruct (AgentUdp.listeners server !! ch) as [f|]; ured; usred;
     [destruct (AgentUdp.futures st !! f) as [[]|]; ured; usred|]|];
    intros ->; ured; usred; rewrite !list_lookup_alter_eq, Hx;
    repeat split; reflexivity.
Qed.

Lemma agent_registration_forwarded_witness :
  let raw := json_text (VDict Scenario.alpha_again) in
  let st' := snd (AgentUdp.handle "node1" json_loads Scenario.turn_down raw
                    Scenario.udp_st) in
  let sent_on := dict_set "agent" (VStr "node1")
                   (dict_set "installation" (VStr "instance1") Scenario.alpha_again) in
  fst (AgentUdp.handle "node1" json_loads Scenario.turn_down raw Scenario.udp_st)
  = Ret tt /\
  AgentUdp.intercom_tbl st' = [Agent.mkRow 1 "Master" (VDict sent_on)] /\
  AgentUdp.futures st' = [AgentUdp.Done 0] /\
  AgentUdp.heap st' !! 0%nat = Some sent_on.
Proof.
  destruct (agent_registration_forwarded "node1" json_loads Scenario.turn_down
              (json_text (VDict Scenario.alpha_again)) Scenario.udp_st
              (snd (Scenario.turn_down 0
                      (AgentUdp.set_futures (fun fs => <[0%nat := AgentUdp.Done 0]> fs)
                         (AgentUdp.set_log (fun lg => lg ++ [(DEBUG, "->HOST")])
                            (AgentUdp.set_heap (fun h => h ++ [Scenario.alpha_again])
                               Scenario.udp_st)))))
              Scenario.alpha_again Scenario.alpha_again "Alpha" "sync-7f1c"
              (AgentUdp.mkServer "instance1" {["sync-7f1c" := 0%nat]}) false)
    as (H1 & H2 & H3 & H4); try (vm_compute; reflexivity).
  split; [exact H1|]. split; [rewrite H2; vm_compute; reflexivity|].
  split; [rewrite H3; vm_compute; reflexivity | exact H4].
Defined.

(** ** The guard of [handle]: what passes it and what it drops *)

Lemma dispatch_returns (d : Dict) (st : State) (ch : string) :
  dict_get "channel" d = Some (VStr ch) ->
  fst (dispatch d st) = Ret tt /\
  globals (snd (dispatch d st)) = globals st /\
  heap (snd (dispatch d st)) = heap st.
Proof.
  intros Hc. unfold dispatch. mred. rewrite collect_eq. mred. rewrite Hc. mred. sred.
  destruct (starts_with "sync" ch); mred; sred; [|repeat split].
  destruct (listeners st !! ch) as [f|]; mred; sred; [|repeat split].
  destruct (futures st !! f) as [[]|]; mred; sred; repeat split.
Qed.

Lemma register_record_returns (env : Env) (data : Dict) (name inst ch : string)
  (st : State) :
  dict_get "channel" data = Some (VStr ch) ->
  (globals st !! name = None -> has_channels env inst) ->
  exists server st1, register_record env data name inst st = (Ret server, st1).
Proof.
  intros Hc Hcfg. unfold register_record. mred.
  destruct (globals st !! name) as [l|] eqn:Hg; mred; sred.
  - rewrite Hc. mred. sred. eauto.
  - destruct (Hcfg eq_refl) as (sec & c1 & c2 & c3 & H0 & H1 & H2 & H3).
    rewrite H0. mred. rewrite H1. mred. sred. rewrite H2. mred. sred.
    rewrite H3. mred. sred. rewrite Hc. mred. sred. eauto.
Qed.

(** The [return False] inside the [try] is taken for one row only: a row of
    this node with the announced address, under another name that still
    has an installation. *)
Lemma register_db_conflict (env : Env) (data : Dict) (name : string) (server : nat)
  (st st' : State) (b : bool) :
  register_db env data name server st = (Ret (Some b), st') ->
  exists h p host port r,
    dict_get "host" data = Some h /\ dict_get "port" data = Some p /\
    sql_text h = Ret host /\ sql_int p = Ret port /\
    r ∈ db_servers st /\
    sr_agent r = node env /\ sr_host r = host /\ sr_port r = port /\
    sr_name r <> name /\ findDCSInstallations env (sr_name r) <> [].
Proof.
  unfold register_db. mred.
  destruct (dict_get "host" data) as [h|] eqn:Eh; mred; [|intros [= ]].
  destruct (dict_get "port" data) as [p|] eqn:Ep; mred; [|intros [= ]].
  destruct (sql_text h) as [host|] eqn:Et; mred; [|intros [= ]].
  destruct (sql_int p) as [port|] eqn:Ei; mred; [|intros [= ]].
  set (rows := filter _ (db_servers st)).
  assert (Hin : forall r, r ∈ rows ->
            (String.eqb (sr_agent r) (node env) && String.eqb (sr_host r) host
             && (sr_port r =? port) = true) /\ r ∈ db_servers st).
  { intros r Hr. unfold rows in Hr. apply list_elem_of_filter in Hr. exact Hr. }
  clearbody rows. destruct rows as [|r [|r' rows]]; mred; try (intros [= ]; fail).
  destruct (String.eqb (sr_name r) name) eqn:En; cbn [negb]; mred; sred;
    try (intros [= ]; fail).
  destruct (findDCSInstallations env (sr_name r)) eqn:Ef; mred; sred.
  - match goal with |- context [rename_server ?a ?b ?c ?s] =>
      destruct (rename_server a b c s) as [[[]|e] s'] end;
      mred; intros [= ].
  - intros _. exists h, p, host, port, r.
    destruct (Hin r ltac:(left)) as [Hp Hr].
    apply andb_true_iff in Hp as [Hp Hport]. apply andb_true_iff in Hp as [Ha Hh].
    apply String.eqb_eq in Ha, Hh. apply Z.eqb_eq in Hport.
    apply String.eqb_neq in En. repeat split; auto. congruence.
Qed.

(** A registration that meets no obstacle is accepted. *)
Lemma register_server_accepts (env : Env) (data : Dict) (st : State)
  (name inst : string) (insts : list string) (hv : Val) (ch : string) :
  dict_get "server_name" data = Some (VStr name) ->
  findDCSInstallations env name = inst :: insts ->
  dict_get "hook_version" data = Some hv ->
  is_str (version env) hv = true ->
  dict_get "channel" data = Some (VStr ch) ->
  (globals st !! name = None -> has_channels env inst) ->
  no_port_conflict env data name st ->
  exists st', register_server env data st = (Ret true, st').
Proof.
  intros Hn Hi Hv Hs Hc Hcfg Hnc. unfold register_server. mred. rewrite Hn. mred.
  rewrite Hi. mred. sred. rewrite Hv. mred. rewrite Hs. cbn [negb]. mred.
  match goal with |- context [register_record env data name inst ?s] =>
    destruct (register_record_returns env data name inst ch s Hc Hcfg)
      as (server & st1 & Hr) end.
  rewrite Hr.
  destruct (register_record_ok _ _ _ _ _ _ _ Hr) as (_ & _ & _ & _ & _ & Hdb).
  sred_in Hdb.
  destruct (register_db env data name server st1) as [[[b|]|e] st2] eqn:Hd; mred; sred.
  - exfalso. apply register_db_conflict in Hd.
    destruct Hd as (h & p & host & port & r & E1 & E2 & E3 & E4 & Hr' & Ha & Hh & Hp
                    & Hne & Hins).
    rewrite Hdb in Hr'.
    destruct (Hnc h p host port r E1 E2 E3 E4 Hr' Ha Hh Hp); contradiction.
  - eauto.
  - eauto.
Qed.

(** What an accepted registration leaves in the registry. *)
Lemma register_server_registers (env : Env) (data : Dict) (st st' : State) :
  register_server env data st = (Ret true, st') ->
  exists name ch server srv,
    dict_get "server_name" data = Some (VStr name) /\
    dict_get "channel" data = Some (VStr ch) /\
    globals st' !! name = Some server /\
    heap st' !! server = Some srv /\
    dict_get "status" srv
    = Some (VStatus (if starts_with "sync-" ch
                     then match dict_get "pause" data with
                          | Some (VBool true) => PAUSED
                          | _ => RUNNING
                          end
                     else LOADING)).
Proof.
  intros H.
  destruct (register_server_accepted env data st st' H)
    as (name & inst & insts & st0 & server & st1 & Hn & Hi & _ & _ & Hr & Hb & Hg & Hh).
  destruct (register_record_ok _ _ _ _ _ _ _ Hr) as (Hg1 & _).
  destruct (register_record_status _ _ _ _ _ _ _ Hr)
    as (_ & ch & srv & Hc & Hs & _ & Hst & _).
  assert (Hg1' : globals st1 !! name = Some server)
    by (rewrite Hg1; apply lookup_insert_eq).
  destruct (register_db_keeps env data name server st1 srv Hg1' Hs Hb)
    as (K1 & (srv' & K2 & K3) & _).
  exists name, ch, server, srv'. rewrite Hg, Hh.
  repeat (split; [first [assumption | reflexivity]|]).
  rewrite K3 by discriminate. exact Hst.
Qed.

(** The verdicts of the guard, read backwards. *)
Lemma guard_passed (env : Env) (d : Dict) (cmd : Val) (s0 s : State) :
  guard env d cmd s0 = (Ret true, s) ->
  (is_str "registerDCSServer" cmd = true /\
   register_server env d s0 = (Ret true, s)) \/
  (is_str "registerDCSServer" cmd = false /\ s = s0 /\
   exists name srv status,
     dict_get "server_name" d = Some (VStr name) /\
     lookup name s0 = Some srv /\
     dict_get "status" srv = Some status /\ status <> VStatus UNKNOWN).
Proof.
  unfold guard. destruct (is_str "registerDCSServer" cmd); [left; auto|].
  intros H. right. split; [reflexivity|]. revert H. mred.
  destruct (dict_get "server_name" d) as [nm|] eqn:Hn; mred; [|intros [= ]].
  destruct nm as [| | |name| | |]; mred; sred; try (intros [= ]; fail).
  destruct (globals s0 !! name) as [l|] eqn:Hg; mred; sred; [|intros [= ]].
  destruct (heap s0 !! l) as [srv|] eqn:Hh; cbn [from_option id];
    [|cbn [dict_get]; intros [= ]].
  destruct (dict_get "status" srv) as [status|] eqn:Hs; mred; [|intros [= ]].
  destruct status as [| | | |[]| |]; mred; sred; try (intros [= ]; fail);
    intros [= <-]; (split; [reflexivity|]); exists name, srv; eexists;
    (split; [reflexivity|]);
    (split; [unfold lookup; rewrite Hg; exact Hh|]);
    (split; [exact Hs | discriminate]).
Qed.

Lemma guard_dropped (env : Env) (d : Dict) (cmd : Val) (s0 s : State) :
  guard env d cmd s0 = (Ret false, s) ->
  (is_str "registerDCSServer" cmd = true /\
   register_server env d s0 = (Ret false, s)) \/
  (is_str "registerDCSServer" cmd = false /\
   s = set_log (fun lg => lg ++ [(DEBUG, "Command for unregistered server, ignoring")]) s0 /\
   exists nm, dict_get "server_name" d = Some nm /\ unregistered nm s0).
Proof.
  unfold guard. destruct (is_str "registerDCSServer" cmd); [left; auto|].
  intros H. right. split; [reflexivity|]. revert H. mred.
  destruct (dict_get "server_name" d) as [nm|] eqn:Hn; mred; [|intros [= ]].
  destruct nm as [| | |name| | |]; mred; sred; try (intros [= ]; fail);
    try (intros [= <-]; split; [reflexivity|]; eexists; split; [reflexivity|exact I]).
  destruct (globals s0 !! name) as [l|] eqn:Hg; mred; sred.
  2:{ intros [= <-]. split; [reflexivity|]. eexists. split; [reflexivity|].
      left. exact Hg. }
  destruct (heap s0 !! l) as [srv|] eqn:Hh; cbn [from_option id];
    [|cbn [dict_get]; intros [= ]].
  destruct (dict_get "status" srv) as [status|] eqn:Hs; mred; [|intros [= ]].
  destruct status as [| | | |[]| |]; mred; sred; try (intros [= ]; fail).
  intros [= <-]. split; [reflexivity|]. eexists. split; [reflexivity|].
  right. exists l, srv. auto.
Qed.

(** [handle] on an event that passes the guard while a request waits on
    its channel. *)
Lemma handle_passes (env : Env) (raw : string) (s s1 : State) (d : Dict) (cmd : Val)
  (tok : string) (fid : nat) :
  json_decode env (strip raw) = Some (VDict d) ->
  dict_has "server_name" d = true ->
  dict_get "command" d = Some cmd ->
  dict_get "channel" d = Some (VStr tok) ->
  starts_with "sync" tok = true ->
  listeners s !! tok = Some fid ->
  guard env d cmd (set_log (fun lg => lg ++ [(DEBUG, "->HOST")]) s) = (Ret true, s1) ->
  exists s2,
    handle env raw s = (Ret tt, s2) /\
    listeners s2 = delete tok (listeners s) /\
    futures s2 = match futures s !! fid with
                 | Some Pending =>
                     <[fid := Done (first_result (eventListeners s) d)]> (futures s)
                 | _ => futures s
                 end.
Proof.
  intros Hj Hh Hc Hch Hs Hl Ha.
  pose proof (guard_requests env d cmd (set_log (fun lg => lg ++ [(DEBUG, "->HOST")]) s))
    as Hfr. rewrite Ha in Hfr. destruct Hfr as (Hl1 & Hf1 & He1 & _).
  cbn [snd] in *. sred_in Hl1. sred_in Hf1. sred_in He1.
  assert (Hl' : listeners s1 !! tok = Some fid) by now rewrite Hl1.
  rewrite (handle_dict env raw s d cmd Hj Hh Hc), Ha.
  rewrite (dispatch_sync d s1 tok fid Hch Hs Hl').
  eexists. split; [reflexivity|]. rewrite Hf1, He1.
  destruct (futures s !! fid) as [[]|]; sred; rewrite ?Hl1, ?Hf1; split; reflexivity.
Qed.

(** [handle] on an event the guard drops, or that fails at the guard. *)
Lemma handle_dropped (env : Env) (raw : string) (s s1 : State) (d : Dict) (cmd : Val)
  (v : Res bool) :
  json_decode env (strip raw) = Some (VDict d) ->
  dict_has "server_name" d = true ->
  dict_get "command" d = Some cmd ->
  guard env d cmd (set_log (fun lg => lg ++ [(DEBUG, "->HOST")]) s) = (v, s1) ->
  v <> Ret true ->
  handle env raw s
  = (match v with Ret _ => Ret tt | Raise e => Raise e end, s1) /\
  listeners s1 = listeners s /\ futures s1 = futures s /\
  delivered s1 = delivered s.
Proof.
  intros Hj Hh Hc Ha Hv.
  pose proof (guard_requests env d cmd (set_log (fun lg => lg ++ [(DEBUG, "->HOST")]) s))
    as Hfr. rewrite Ha in Hfr. destruct Hfr as (Hl1 & Hf1 & _ & Hd1).
  cbn [snd] in *. sred_in Hl1. sred_in Hf1. sred_in Hd1.
  rewrite (handle_dict env raw s d cmd Hj Hh Hc), Ha.
  destruct v as [[]|e]; [now destruct Hv| |]; repeat split; assumption.
Qed.

(** Claim C3, as amended: on [RequestHandler.handle] of the bot, an event
    other than the registration whose server is not in the registry, or is
    there with status [UNKNOWN], is dropped: no listener gets it, and the
    registry, the records, the pending requests and the tables stay as
    they are.  The registration of such a server is taken up: when the
    server has an installation, the hook version is the one of the bot,
    the channel is a string, the configuration has the channels of a new
    server and no other configured server holds the announced address, the
    handler returns, the server is in the registry with a status other
    than [UNKNOWN] and the event has gone to every listener; when the
    server has no installation or the hook version differs, and whenever
    [register_server] turns the registration down, the handler returns
    with nothing delivered.  The handler of the agent has no such
    exception: it drops every event, the registration included, whose
    server is no key of [self.servers], without calling
    [register_server]. *)
Theorem unregistered_server_guard (env : Env) (raw : string) (st : State)
  (d : Dict) (nm cmd : Val) :
  json_decode env (strip raw) = Some (VDict d) ->
  dict_get "server_name" d = Some nm ->
  dict_get "command" d = Some cmd ->
  unregistered nm st ->
  let st0 := set_log (fun lg => lg ++ [(DEBUG, "->HOST")]) st in
  (is_str "registerDCSServer" cmd = false ->
   exists r st',
     handle env raw st = (r, st') /\
     r = match nm with VList _ | VDict _ => Raise TypeError | _ => Ret tt end /\
     delivered st' = delivered st /\
     globals st' = globals st /\ heap st' = heap st /\
     listeners st' = listeners st /\ futures st' = futures st /\
     db_servers st' = db_servers st /\ sent st' = sent st) /\
  (is_str "registerDCSServer" cmd = true ->
   (forall name inst insts hv ch,
      nm = VStr name ->
      findDCSInstallations env name = inst :: insts ->
      dict_get "hook_version" d = Some hv ->
      is_str (version env) hv = true ->
      dict_get "channel" d = Some (VStr ch) ->
      (globals st !! name = None -> has_channels env inst) ->
      no_port_conflict env d name st ->
      exists st' server srv,
        handle env raw st = (Ret tt, st') /\
        globals st' !! name = Some server /\
        heap st' !! server = Some srv /\
        dict_get "status" srv
        = Some (VStatus (if starts_with "sync-" ch
                         then match dict_get "pause" d with
                              | Some (VBool true) => PAUSED
                              | _ => RUNNING
                              end
                         else LOADING)) /\
        delivered st' = delivered st ++ imap (fun i _ => (i, d)) (eventListeners st)) /\
   (forall name,
      nm = VStr name ->
      findDCSInstallations env name = [] ->
      handle env raw st
      = (Ret tt,
         set_log (fun lg => lg ++ [(ERROR, "Server not found in dcsserverbot.ini")])
           st0)) /\
   (forall name inst insts hv,
      nm = VStr name ->
      findDCSInstallations env name = inst :: insts ->
      dict_get "hook_version" d = Some hv ->
      is_str (version env) hv = false ->
      handle env raw st
      = (Ret tt,
         set_log (fun lg => lg ++ [(ERROR, "wrong Hook version installed")])
           (set_log (fun lg => lg ++ [(DEBUG, "Registering DCS-Server")]) st0))) /\
   (forall st1,
      register_server env d st0 = (Ret false, st1) ->
      handle env raw st = (Ret tt, st1) /\
      delivered st1 = delivered st /\
      listeners st1 = listeners st /\ futures st1 = futures st)) /\
  (forall (node : string) (register_server : nat -> M AgentUdp.State bool)
          (ust : AgentUdp.State),
     match nm with
     | VStr name => AgentUdp.servers ust !! name = None
     | _ => True
     end ->
     AgentUdp.handle node (json_decode env) register_server raw ust
     = match nm with
       | VList _ | VDict _ =>
           (Raise TypeError, AgentUdp.set_heap (fun h => h ++ [d]) ust)
       | _ =>
           (Ret tt,
            AgentUdp.set_log (fun lg => lg ++
               [(WARNING, "Command for unknown server received, ignoring.")])
              (AgentUdp.set_heap (fun h => h ++ [d]) ust))
       end).
Proof.
  intros Hj Hn Hc Hu st0.
  pose proof (handle_dict env raw st d cmd Hj (dict_has_get _ _ _ Hn) Hc) as Hh.
  fold st0 in Hh.
  split; [|split].
  - intros Hr. rewrite Hh.
    rewrite (guard_unregistered env d nm cmd st0 Hn Hr Hu).
    destruct nm; eexists _, _; (split; [reflexivity|]); sred; repeat split.
  - intros Hr. unfold guard in Hh. rewrite Hr in Hh.
    split; [|split; [|split]].
    + intros name inst insts hv ch -> Hi Hv Hs Hch Hcfg Hnc.
      destruct (register_server_accepts env d st0 name inst insts hv ch
                  Hn Hi Hv Hs Hch Hcfg Hnc) as (st1 & H1).
      destruct (register_server_registers env d st0 st1 H1)
        as (name' & ch' & server & srv & Hn' & Hc' & Hg & Hs1 & Hst).
      rewrite Hn in Hn'. injection Hn' as <-.
      rewrite Hch in Hc'. injection Hc' as <-.
      destruct (dispatch_returns d st1 ch Hch) as (D1 & D2 & D3).
      pose proof (register_server_requests env d st0) as Hf. rewrite H1 in Hf.
      destruct Hf as (_ & _ & He & Hd). cbn [snd] in He, Hd.
      exists (snd (dispatch d st1)), server, srv. rewrite Hh, H1.
      split; [rewrite <- D1; apply surjective_pairing|].
      rewrite D2, D3, dispatch_delivered, He, Hd. auto.
    + intros name -> Hi. rewrite Hh. unfold register_server. mred. rewrite Hn. mred.
      rewrite Hi. reflexivity.
    + intros name inst insts hv -> Hi Hv Hs. rewrite Hh. unfold register_server. mred.
      rewrite Hn. mred. rewrite Hi. mred. sred. rewrite Hv. mred. rewrite Hs.
      reflexivity.
    + intros st1 H1. rewrite Hh, H1. split; [reflexivity|].
      pose proof (register_server_requests env d st0) as Hf. rewrite H1 in Hf.
      destruct Hf as (Hl & Hf & _ & Hd). cbn [snd] in Hl, Hf, Hd. auto.
  - intros node register_server ust Hs. unfold AgentUdp.handle. rewrite Hj.
    cbn [py_contains]. ured. unfold dict_has. rewrite Hn. cbn [negb]. ured. usred.
    rewrite Hc. ured. usred. destruct nm; ured; usred; try reflexivity.
    rewrite Hs. reflexivity.
Qed.

(** Claim C3, as amended, on the installation of the example: an event of
    Delta, which never registered; the first registration of Charlie; the
    registrations of Delta, which has no installation, of Charlie with old
    hooks, and of Bravo on the port of Alpha; and the registration of
    Charlie at an agent that does not hold it. *)
Lemma unregistered_server_guard_witness :
  (exists r st',
     handle Demo.env (json_text (VDict Demo.stray)) Demo.st = (r, st') /\
     r = Ret tt /\
     delivered st' = delivered Demo.st /\
     globals st' = globals Demo.st /\ heap st' = heap Demo.st /\
     listeners st' = listeners Demo.st /\ futures st' = futures Demo.st /\
     db_servers st' = db_servers Demo.st /\ sent st' = sent Demo.st) /\
  (unregistered (VStr "Charlie") Demo.st /\
   has_channels Demo.env "instance3" /\
   no_port_conflict Demo.env Demo.charlie_hello "Charlie" Demo.st /\
   exists st' server srv,
     handle Demo.env (json_text (VDict Demo.charlie_hello)) Demo.st = (Ret tt, st') /\
     globals st' !! "Charlie" = Some server /\
     heap st' !! server = Some srv /\
     dict_get "status" srv = Some (VStatus LOADING) /\
     delivered st'
     = delivered Demo.st
       ++ imap (fun i _ => (i, Demo.charlie_hello)) (eventListeners Demo.st)) /\
  handle Demo.env (json_text (VDict Scenario.delta_hello)) Demo.st
  = (Ret tt,
     set_log (fun lg => lg ++ [(ERROR, "Server not found in dcsserverbot.ini")])
       (set_log (fun lg => lg ++ [(DEBUG, "->HOST")]) Demo.st)) /\
  handle Demo.env (json_text (VDict Scenario.charlie_old_hooks)) Demo.st
  = (Ret tt,
     set_log (fun lg => lg ++ [(ERROR, "wrong Hook version installed")])
       (set_log (fun lg => lg ++ [(DEBUG, "Registering DCS-Server")])
          (set_log (fun lg => lg ++ [(DEBUG, "->HOST")]) Demo.st))) /\
  (unregistered (VStr "Bravo") Demo.st /\
   exists st1,
     handle Demo.env (json_text (VDict Demo.bravo_on_alpha_port)) Demo.st = (Ret tt, st1) /\
     delivered st1 = delivered Demo.st /\
     listeners st1 = listeners Demo.st /\ futures st1 = futures Demo.st) /\
  AgentUdp.handle "node1" json_loads Scenario.take_up
    (json_text (VDict Demo.charlie_hello)) Scenario.udp_st
  = (Ret tt,
     AgentUdp.set_log (fun lg => lg ++
        [(WARNING, "Command for unknown server received, ignoring.")])
       (AgentUdp.set_heap (fun h => h ++ [Demo.charlie_hello]) Scenario.udp_st)).
Proof.
  assert (U1 : unregistered (VStr "Delta") Demo.st) by (left; vm_compute; reflexivity).
  assert (U2 : unregistered (VStr "Charlie") Demo.st) by (left; vm_compute; reflexivity).
  assert (U3 : unregistered (VStr "Bravo") Demo.st).
  { right. exists 1%nat, Demo.bravo. repeat split; vm_compute; reflexivity. }
  assert (C : has_channels Demo.env "instance3").
  { exists Demo.channels, "1001", "1002", "1003". repeat split. }
  assert (N : no_port_conflict Demo.env Demo.charlie_hello "Charlie" Demo.st).
  { intros h p host port r E1 E2 E3 E4 Hr _ _ Hp.
    vm_compute in E2. injection E2 as <-. vm_compute in E4. injection E4 as <-.
    apply list_elem_of_In in Hr. destruct Hr as [<-|[<-|[]]]; discriminate Hp. }
  pose proof (unregistered_server_guard Demo.env (json_text (VDict Demo.stray)) Demo.st
                Demo.stray (VStr "Delta") (VStr "onPlayerConnect")
                ltac:(vm_compute; reflexivity) eq_refl eq_refl U1) as T1.
  pose proof (unregistered_server_guard Demo.env (json_text (VDict Demo.charlie_hello))
                Demo.st Demo.charlie_hello (VStr "Charlie") (VStr "registerDCSServer")
                ltac:(vm_compute; reflexivity) eq_refl eq_refl U2) as T2.
  pose proof (unregistered_server_guard Demo.env (json_text (VDict Scenario.delta_hello))
                Demo.st Scenario.delta_hello (VStr "Delta") (VStr "registerDCSServer")
                ltac:(vm_compute; reflexivity) eq_refl eq_refl U1) as T3.
  pose proof (unregistered_server_guard Demo.env
                (json_text (VDict Scenario.charlie_old_hooks))
                Demo.st Scenario.charlie_old_hooks (VStr "Charlie")
                (VStr "registerDCSServer")
                ltac:(vm_compute; reflexivity) eq_refl eq_refl U2) as T4.
  pose proof (unregistered_server_guard Demo.env
                (json_text (VDict Demo.bravo_on_alpha_port))
                Demo.st Demo.bravo_on_alpha_port (VStr "Bravo")
                (VStr "registerDCSServer")
                ltac:(vm_compute; reflexivity) eq_refl eq_refl U3) as T5.
  cbv zeta in T1, T2, T3, T4, T5.
  destruct T1 as (A & _ & _). destruct T2 as (_ & B & G).
  destruct T3 as (_ & D & _). destruct T4 as (_ & E & _). destruct T5 as (_ & F & _).
  split; [exact (A eq_refl)|].
  split.
  { split; [exact U2|]. split; [exact C|]. split; [exact N|].
    exact (proj1 (B eq_refl) "Charlie" "instance3" [] (VStr "2.5.0") "-1"
             eq_refl eq_refl eq_refl eq_refl eq_refl (fun _ => C) N). }
  split; [exact (proj1 (proj2 (D eq_refl)) "Delta" eq_refl eq_refl)|].
  split.
  { exact (proj1 (proj2 (proj2 (E eq_refl))) "Charlie" "instance3" [] (VStr "2.4.9")
             eq_refl eq_refl eq_refl eq_refl). }
  split.
  { split; [exact U3|].
    destruct (proj2 (proj2 (proj2 (F eq_refl)))
                (snd (register_server Demo.env Demo.bravo_on_alpha_port
                        (set_log (fun lg => lg ++ [(DEBUG, "->HOST")]) Demo.st)))
                ltac:(vm_compute; reflexivity)) as (H1 & H2).
    eexists. split; [exact H1 | exact H2]. }
  exact (G "node1" Scenario.take_up Scenario.udp_st ltac:(vm_compute; reflexivity)).
Defined.

(** Claim C3 fails as stated on the handler of the agent: Charlie is no key
    of [self.servers]; its registration is dropped with a warning, nothing
    goes to the master, and [register_server], which would have taken it
    up, is not called. *)
Lemma agent_drops_unknown_registration :
  dict_get "command" Demo.charlie_hello = Some (VStr "registerDCSServer") /\
  AgentUdp.servers Scenario.udp_st !! "Charlie" = None /\
  fst (AgentUdp.handle "node1" json_loads Scenario.take_up
         (json_text (VDict Demo.charlie_hello)) Scenario.udp_st) = Ret tt /\
  AgentUdp.log (snd (AgentUdp.handle "node1" json_loads Scenario.take_up
                       (json_text (VDict Demo.charlie_hello)) Scenario.udp_st))
  = [(WARNING, "Command for unknown server received, ignoring.")] /\
  AgentUdp.intercom_tbl (snd (AgentUdp.handle "node1" json_loads Scenario.take_up
                                (json_text (VDict Demo.charlie_hello)) Scenario.udp_st))
  = [].
Proof. vm_compute. repeat split. Qed.

(** Claim C1, as amended: the request is registered under its token with a
    pending future.  A reply on the token that passes the guard of
    [handle] fulfils the future with the first result and removes the
    entry, and the await then ends with that result.  A reply on the
    token that [handle] drops, or that fails at the guard, leaves the
    entry and the pending future, so that the await ends in the timeout.
    The timeout cancels the future and raises [TimeoutError] but leaves the
    entry in [self.listeners]; only a late reply that passes the guard
    removes it, and that reply fulfils nothing.  A reply passes the guard
    when it is a registration [register_server] accepts, or another
    command of a server that is in the registry with a status other than
    [UNKNOWN]; it is dropped when it is a registration [register_server]
    turns down, or another command of a server that is not registered. *)
Theorem sync_request_outcomes (env : Env) (server message : nat) (uuid raw : string)
  (st st1 : State) (fid : nat) (d : Dict) (cmd : Val) :
  sendtoDCSSync server message uuid st = (Ret fid, st1) ->
  json_decode env (strip raw) = Some (VDict d) ->
  dict_has "server_name" d = true ->
  dict_get "command" d = Some cmd ->
  dict_get "channel" d = Some (VStr (sync_token uuid)) ->
  let token := sync_token uuid in
  let arrived := set_log (fun lg => lg ++ [(DEBUG, "->HOST")]) in
  listeners st1 !! token = Some fid /\
  futures st1 !! fid = Some Pending /\
  (forall s, guard env d cmd (arrived st1) = (Ret true, s) ->
     exists st2,
       handle env raw st1 = (Ret tt, st2) /\
       listeners st2 !! token = None /\
       futures st2 !! fid = Some (Done (first_result (eventListeners st1) d)) /\
       wait_for fid st2 = (Ret (first_result (eventListeners st1) d), st2)) /\
  (forall v s, guard env d cmd (arrived st1) = (v, s) -> v <> Ret true ->
     handle env raw st1 = (match v with Ret _ => Ret tt | Raise e => Raise e end, s) /\
     listeners s !! token = Some fid /\
     futures s !! fid = Some Pending /\
     exists st2,
       wait_for fid s = (Raise TimeoutError, st2) /\
       listeners st2 !! token = Some fid) /\
  (let st2 := set_futures (fun fs => <[fid := Cancelled]> fs) st1 in
     wait_for fid st1 = (Raise TimeoutError, st2) /\
     futures st2 !! fid = Some Cancelled /\
     listeners st2 !! token = Some fid /\
     (forall s, guard env d cmd (arrived st2) = (Ret true, s) ->
        exists st3,
          handle env raw st2 = (Ret tt, st3) /\
          listeners st3 !! token = None /\
          futures st3 !! fid = Some Cancelled) /\
     (forall v s, guard env d cmd (arrived st2) = (v, s) -> v <> Ret true ->
        handle env raw st2
        = (match v with Ret _ => Ret tt | Raise e => Raise e end, s) /\
        listeners s !! token = Some fid /\
        futures s !! fid = Some Cancelled)) /\
  (forall s0 s, guard env d cmd s0 = (Ret true, s) ->
     (is_str "registerDCSServer" cmd = true /\
      register_server env d s0 = (Ret true, s)) \/
     (is_str "registerDCSServer" cmd = false /\ s = s0 /\
      exists name srv status,
        dict_get "server_name" d = Some (VStr name) /\
        lookup name s0 = Some srv /\
        dict_get "status" srv = Some status /\ status <> VStatus UNKNOWN)) /\
  (forall s0 s, guard env d cmd s0 = (Ret false, s) ->
     (is_str "registerDCSServer" cmd = true /\
      register_server env d s0 = (Ret false, s)) \/
     (is_str "registerDCSServer" cmd = false /\
      s = set_log (fun lg => lg ++
                     [(DEBUG, "Command for unregistered server, ignoring")]) s0 /\
      exists nm, dict_get "server_name" d = Some nm /\ unregistered nm s0)).
Proof.
  intros Hs Hj Hh Hc Hch token arrived.
  destruct (sendtoDCSSync_ok _ _ _ _ _ _ Hs) as (-> & Hf & Hl & _ & _).
  assert (Hlk : listeners st1 !! token = Some (length (futures st))).
  { rewrite Hl. apply lookup_insert_eq. }
  assert (Hp : futures st1 !! length (futures st) = Some Pending).
  { rewrite Hf. apply list_lookup_middle. reflexivity. }
  assert (Hlt : (length (futures st) < length (futures st1))%nat).
  { apply lookup_lt_Some in Hp. exact Hp. }
  assert (Hsw : starts_with "sync" token = true) by reflexivity.
  split; [exact Hlk|]. split; [exact Hp|].
  split; [|split; [|split; [|split]]].
  - intros s Ha.
    destruct (handle_passes env raw st1 s d cmd token (length (futures st))
                Hj Hh Hc Hch Hsw Hlk Ha) as (st2 & H2 & Hl2 & Hf2).
    rewrite Hp in Hf2.
    assert (Hd : futures st2 !! length (futures st)
                 = Some (Done (first_result (eventListeners st1) d))).
    { rewrite Hf2. now apply list_lookup_insert_eq. }
    exists st2. split; [exact H2|]. split; [rewrite Hl2; apply lookup_delete_eq|].
    split; [exact Hd|]. unfold wait_for. now rewrite Hd.
  - intros v s Ha Hv.
    destruct (handle_dropped env raw st1 s d cmd v Hj Hh Hc Ha Hv)
      as (H2 & Hl2 & Hf2 & _).
    assert (Hp2 : futures s !! length (futures st) = Some Pending) by now rewrite Hf2.
    split; [exact H2|]. split; [now rewrite Hl2|]. split; [exact Hp2|].
    eexists. split; [apply (wait_for_pending _ _ Hp2)|]. sred. now rewrite Hl2.
  - cbv zeta. split; [apply (wait_for_pending _ _ Hp)|]. sred.
    assert (Hd : <[length (futures st) := Cancelled]> (futures st1) !! length (futures st)
                 = Some Cancelled).
    { now apply list_lookup_insert_eq. }
    split; [exact Hd|]. split; [exact Hlk|]. split.
    + intros s Ha.
      destruct (handle_passes env raw
                  (set_futures (fun fs => <[length (futures st) := Cancelled]> fs) st1)
                  s d cmd token (length (futures st))
                  Hj Hh Hc Hch Hsw Hlk Ha) as (st3 & H3 & Hl3 & Hf3).
      sred_in Hl3. sred_in Hf3. rewrite Hd in Hf3.
      exists st3. split; [exact H3|]. split; [rewrite Hl3; apply lookup_delete_eq|].
      rewrite Hf3. exact Hd.
    + intros v s Ha Hv.
      destruct (handle_dropped env raw
                  (set_futures (fun fs => <[length (futures st) := Cancelled]> fs) st1)
                  s d cmd v Hj Hh Hc Ha Hv)
        as (H3 & Hl3 & Hf3 & _).
      sred_in Hl3. sred_in Hf3.
      split; [exact H3|]. split; [now rewrite Hl3 | now rewrite Hf3].
  - intros s0 s. apply guard_passed.
  - intros s0 s. apply guard_dropped.
Qed.

(** Claim C1, as amended, on the pending request of the example: the answer
    of Alpha; answers on the same token of Delta, which never registered,
    and of Bravo, whose status is [UNKNOWN]; a registration of Bravo on
    that token that is turned down; and the timeout, with the answer of
    Alpha and the one of Delta coming late. *)
Lemma sync_request_outcomes_witness :
  let token := sync_token "7f1c" in
  let cancelled := set_futures (fun fs => <[0%nat := Cancelled]> fs) Demo.st_pending in
  sendtoDCSSync 0 3 "7f1c" Demo.st = (Ret 0%nat, Demo.st_pending) /\
  listeners Demo.st_pending !! token = Some 0%nat /\
  futures Demo.st_pending !! 0%nat = Some Pending /\
  (exists st2,
     handle Demo.env (json_text (VDict Demo.answer)) Demo.st_pending = (Ret tt, st2) /\
     listeners st2 !! token = None /\
     futures st2 !! 0%nat
     = Some (Done (first_result (eventListeners Demo.st_pending) Demo.answer)) /\
     wait_for 0 st2
     = (Ret (first_result (eventListeners Demo.st_pending) Demo.answer), st2)) /\
  (exists s st2,
     handle Demo.env (json_text (VDict Scenario.answer_delta)) Demo.st_pending
     = (Ret tt, s) /\
     listeners s !! token = Some 0%nat /\ futures s !! 0%nat = Some Pending /\
     wait_for 0 s = (Raise TimeoutError, st2) /\
     listeners st2 !! token = Some 0%nat) /\
  (exists s st2,
     handle Demo.env (json_text (VDict Scenario.answer_bravo)) Demo.st_pending
     = (Ret tt, s) /\
     listeners s !! token = Some 0%nat /\ futures s !! 0%nat = Some Pending /\
     wait_for 0 s = (Raise TimeoutError, st2) /\
     listeners st2 !! token = Some 0%nat) /\
  (exists s st2,
     handle Demo.env (json_text (VDict Scenario.bravo_probe_answer)) Demo.st_pending
     = (Ret tt, s) /\
     listeners s !! token = Some 0%nat /\ futures s !! 0%nat = Some Pending /\
     wait_for 0 s = (Raise TimeoutError, st2) /\
     listeners st2 !! token = Some 0%nat) /\
  wait_for 0 Demo.st_pending = (Raise TimeoutError, cancelled) /\
  futures cancelled !! 0%nat = Some Cancelled /\
  listeners cancelled !! token = Some 0%nat /\
  (exists st3,
     handle Demo.env (json_text (VDict Demo.answer)) cancelled = (Ret tt, st3) /\
     listeners st3 !! token = None /\
     futures st3 !! 0%nat = Some Cancelled) /\
  (exists s,
     handle Demo.env (json_text (VDict Scenario.answer_delta)) cancelled = (Ret tt, s) /\
     listeners s !! token = Some 0%nat /\
     futures s !! 0%nat = Some Cancelled).
Proof.
  intros token cancelled.
  assert (H1 : sendtoDCSSync 0 3 "7f1c" Demo.st = (Ret 0%nat, Demo.st_pending))
    by (vm_compute; reflexivity).
  pose proof (sync_request_outcomes Demo.env 0 3 "7f1c" (json_text (VDict Demo.answer))
                Demo.st Demo.st_pending 0 Demo.answer (VStr "getMissionDetails")
                H1 ltac:(vm_compute; reflexivity) eq_refl eq_refl eq_refl) as T1.
  pose proof (sync_request_outcomes Demo.env 0 3 "7f1c"
                (json_text (VDict Scenario.answer_delta))
                Demo.st Demo.st_pending 0 Scenario.answer_delta
                (VStr "getMissionDetails")
                H1 ltac:(vm_compute; reflexivity) eq_refl eq_refl eq_refl) as T2.
  pose proof (sync_request_outcomes Demo.env 0 3 "7f1c"
                (json_text (VDict Scenario.answer_bravo))
                Demo.st Demo.st_pending 0 Scenario.answer_bravo
                (VStr "getMissionDetails")
                H1 ltac:(vm_compute; reflexivity) eq_refl eq_refl eq_refl) as T3.
  pose proof (sync_request_outcomes Demo.env 0 3 "7f1c"
                (json_text (VDict Scenario.bravo_probe_answer))
                Demo.st Demo.st_pending 0 Scenario.bravo_probe_answer
                (VStr "registerDCSServer")
                H1 ltac:(vm_compute; reflexivity) eq_refl eq_refl eq_refl) as T4.
  cbv zeta in T1, T2, T3, T4.
  destruct T1 as (A1 & A2 & A3 & _ & (A4 & A5 & A6 & A7 & _) & _).
  destruct T2 as (_ & _ & _ & B1 & (_ & _ & _ & _ & B2) & _).
  destruct T3 as (_ & _ & _ & C1 & _).
  destruct T4 as (_ & _ & _ & D1 & _).
  split; [exact H1|]. split; [exact A1|]. split; [exact A2|].
  split; [exact (A3 _ ltac:(vm_compute; reflexivity))|].
  split.
  { destruct (B1 (Ret false) _ ltac:(vm_compute; reflexivity) ltac:(discriminate))
      as (E1 & E2 & E3 & st2 & E4 & E5).
    eexists _, st2. repeat (split; [eassumption|]). exact E5. }
  split.
  { destruct (C1 (Ret false) _ ltac:(vm_compute; reflexivity) ltac:(discriminate))
      as (E1 & E2 & E3 & st2 & E4 & E5).
    eexists _, st2. repeat (split; [eassumption|]). exact E5. }
  split.
  { destruct (D1 (Ret false) _ ltac:(vm_compute; reflexivity) ltac:(discriminate))
      as (E1 & E2 & E3 & st2 & E4 & E5).
    eexists _, st2. repeat (split; [eassumption|]). exact E5. }
  split; [exact A4|]. split; [exact A5|]. split; [exact A6|].
  split; [exact (A7 _ ltac:(vm_compute; reflexivity))|].
  destruct (B2 (Ret false) _ ltac:(vm_compute; reflexivity) ltac:(discriminate))
    as (E1 & E2 & E3).
  eexists. split; [exact E1|]. split; [exact E2 | exact E3].
Defined.
